(** * Hyperliquid analytics: block-record pipeline

    A shallow embedding of the block-record ingestion, merging and
    aggregation code of [backend/server.js] and of the in-memory state
    updates of [frontend/src/App.tsx], with the properties the
    specification states about them.

    Modelling conventions.
    - A JavaScript value is a term of [value].  Numbers are the integral
      doubles together with [NaN] and the two infinities; an integral
      double is carried as the [Z] it is worth.  Additions, subtractions
      and the reading of digits round their exact result to the nearest
      double ([of_integer]), so that they are exact where the result is
      below 2^53 in magnitude.  Values holding a fractional number are
      not represented, and a number is printed in decimal digits, which
      is its notation below 2^53.
    - The three places where the program leaves the integers (the price
      scaling, the cross-layer percentage and the average gas per
      transaction) are computed in IEEE binary64, through the Standard
      Library's [SpecFloat].
    - A string is a sequence of code units below 256.
    - An exception is a [Throw] outcome of [Res]; [try]/[catch] is
      [try_catch].
    - A call to a collaborator (database pool, chain provider, HTTP client,
      UI state setter) is a node of [Prog]; the handler continues with
      whatever the collaborator answers. *)

From Stdlib Require Import ZArith List String Ascii Bool Lia.
From Stdlib Require Import Permutation Sorted.
From Stdlib Require Import DecimalString DecimalZ DecimalPos DecimalFacts.
From Stdlib Require Import Floats.SpecFloat.
Import ListNotations.

Set Warnings "-register-all".

Local Open Scope string_scope.
Local Open Scope list_scope.
Local Open Scope Z_scope.

(** ** Outcomes of a computation *)

Inductive exn : Type :=
| TypeError
| SyntaxError
| RangeError
| HostError (message : string).

Inductive Res (A : Type) : Type :=
| Ok (a : A)
| Throw (e : exn).

Arguments Ok {A} a.
Arguments Throw {A} e.

Definition bind {A B : Type} (m : Res A) (k : A -> Res B) : Res B :=
  match m with
  | Ok a => k a
  | Throw e => Throw e
  end.

Definition try_catch {A : Type} (body : Res A) (handler : exn -> Res A) : Res A :=
  match body with
  | Ok a => Ok a
  | Throw e => handler e
  end.

Declare Scope res_scope.
Delimit Scope res_scope with res.
Notation "x <- m ;; k" := (bind m (fun x => k))
  (at level 61, m at next level, right associativity) : res_scope.
Local Open Scope res_scope.

(** ** JavaScript values *)

Module JS.

Inductive number : Type :=
| Int (z : Z)
| NaN
| Infinity
| NegInfinity.

Inductive value : Type :=
| VUndefined
| VNull
| VBool (b : bool)
| VNum (n : number)
| VStr (s : string)
| VArr (elems : list value)
| VObj (props : list (string * value)).

Definition num (z : Z) : value := VNum (Int z).

(** *** Numbers *)

(** The integer nearest to [z] among those a double holds: below 2^53 in
    magnitude every integer is one; beyond, the 53 leading bits are kept
    and the rest is rounded to the nearest, to the even one on a tie. *)
Definition round53 (z : Z) : Z :=
  let a := Z.abs z in
  if a <? 2 ^ 53 then z
  else
    let e := Z.log2 a - 52 in
    let q := a / 2 ^ e in
    let r := a mod 2 ^ e in
    let half := 2 ^ (e - 1) in
    let q' := if r <? half then q
              else if half <? r then q + 1
              else if Z.even q then q else q + 1 in
    Z.sgn z * (q' * 2 ^ e).

(** The number an exact integer result becomes: the nearest double, an
    infinity where that is 2^1024 or more in magnitude. *)
Definition of_integer (z : Z) : number :=
  let r := round53 z in
  if Z.abs r <? 2 ^ 1024 then Int r
  else if 0 <? z then Infinity else NegInfinity.

Definition num_neg (a : number) : number :=
  match a with
  | Int z => Int (- z)
  | NaN => NaN
  | Infinity => NegInfinity
  | NegInfinity => Infinity
  end.

Definition num_add (a b : number) : number :=
  match a, b with
  | NaN, _ | _, NaN => NaN
  | Infinity, NegInfinity | NegInfinity, Infinity => NaN
  | Infinity, _ | _, Infinity => Infinity
  | NegInfinity, _ | _, NegInfinity => NegInfinity
  | Int x, Int y => of_integer (x + y)
  end.

Definition num_sub (a b : number) : number := num_add a (num_neg b).

(** [a < b]; every comparison with [NaN] is false. *)
Definition num_lt (a b : number) : bool :=
  match a, b with
  | NaN, _ | _, NaN => false
  | _, NegInfinity => false
  | NegInfinity, _ => true
  | Infinity, _ => false
  | _, Infinity => true
  | Int x, Int y => x <? y
  end.

Definition num_gt (a b : number) : bool := num_lt b a.

(** [a === b] on numbers. *)
Definition num_eq (a b : number) : bool :=
  match a, b with
  | Int x, Int y => x =? y
  | Infinity, Infinity => true
  | NegInfinity, NegInfinity => true
  | _, _ => false
  end.

(** [Math.min(a, b)] and [Math.max(a, b)]. *)
Definition Math_min (a b : number) : number :=
  match a, b with
  | NaN, _ | _, NaN => NaN
  | _, _ => if num_lt b a then b else a
  end.

Definition Math_max (a b : number) : number :=
  match a, b with
  | NaN, _ | _, NaN => NaN
  | _, _ => if num_lt a b then b else a
  end.

(** *** Strings of digits *)

Definition string_of_Z (z : Z) : string :=
  NilZero.string_of_int (Z.to_int z).

(** Value of one digit character in the given radix. *)
Definition digit_value (radix : Z) (c : ascii) : option Z :=
  let n := Z.of_nat (nat_of_ascii c) in
  let d :=
    if (48 <=? n) && (n <=? 57) then Some (n - 48)
    else if (97 <=? n) && (n <=? 122) then Some (n - 87)
    else if (65 <=? n) && (n <=? 90) then Some (n - 55)
    else None in
  match d with
  | Some v => if v <? radix then Some v else None
  | None => None
  end.

(** Reads the longest prefix of digits: the value read so far, whether a
    digit was seen, and the rest of the string. *)
Fixpoint read_digits (radix : Z) (s : string) (acc : Z) (seen : bool)
  : Z * bool * string :=
  match s with
  | EmptyString => (acc, seen, EmptyString)
  | String c rest =>
      match digit_value radix c with
      | Some d => read_digits radix rest (radix * acc + d) true
      | None => (acc, seen, s)
      end
  end.

(** A string made of digits only, and of at least one. *)
Definition all_digits (radix : Z) (s : string) : option Z :=
  match read_digits radix s 0 false with
  | (v, true, EmptyString) => Some v
  | _ => None
  end.

(** White space and line terminators among the code units below 256. *)
Definition is_white_space (c : ascii) : bool :=
  let n := nat_of_ascii c in
  (Nat.eqb n 9 || Nat.eqb n 10 || Nat.eqb n 11 || Nat.eqb n 12
   || Nat.eqb n 13 || Nat.eqb n 32 || Nat.eqb n 160)%bool.

Fixpoint trim_start (s : string) : string :=
  match s with
  | String c rest => if is_white_space c then trim_start rest else s
  | EmptyString => EmptyString
  end.

Fixpoint rev_string (s acc : string) : string :=
  match s with
  | EmptyString => acc
  | String c rest => rev_string rest (String c acc)
  end.

Definition trim (s : string) : string :=
  rev_string (trim_start (rev_string (trim_start s) EmptyString)) EmptyString.

(** The radix announced by a [0x], [0o] or [0b] prefix, with the digits
    that follow it. *)
Definition radix_prefix (s : string) : option (Z * string) :=
  match s with
  | String "0" (String c rest) =>
      if (Ascii.eqb c "x" || Ascii.eqb c "X")%bool then Some (16, rest)
      else if (Ascii.eqb c "o" || Ascii.eqb c "O")%bool then Some (8, rest)
      else if (Ascii.eqb c "b" || Ascii.eqb c "B")%bool then Some (2, rest)
      else None
  | _ => None
  end.

(** [parseInt(s)] with no radix argument. *)
Definition parseInt (s : string) : number :=
  let s1 := trim_start s in
  let '(negative, s2) :=
    match s1 with
    | String "-" rest => (true, rest)
    | String "+" rest => (false, rest)
    | _ => (false, s1)
    end in
  let '(radix, s3) :=
    match s2 with
    | String "0" (String c rest) =>
        if (Ascii.eqb c "x" || Ascii.eqb c "X")%bool then (16, rest) else (10, s2)
    | _ => (10, s2)
    end in
  match read_digits radix s3 0 false with
  | (v, true, _) => of_integer (if negative then - v else v)
  | (_, false, _) => NaN
  end.

(** [StringToBigInt]: [None] where the string is no integer literal. *)
Definition StringToBigInt (s : string) : option Z :=
  let t := trim s in
  match t with
  | EmptyString => Some 0
  | String "-" rest =>
      match all_digits 10 rest with Some v => Some (- v) | None => None end
  | String "+" rest => all_digits 10 rest
  | _ =>
      match radix_prefix t with
      | Some (radix, digits) => all_digits radix digits
      | None => all_digits 10 t
      end
  end.

(** *** Conversions between values *)

Fixpoint join (sep : string) (parts : list string) : string :=
  match parts with
  | [] => EmptyString
  | [p] => p
  | p :: rest => (p ++ sep ++ join sep rest)%string
  end.

(** [String(n)]: an integer prints in decimal digits.  That is the
    notation of JavaScript for the integers below 2^53 in magnitude; the
    shortened digits and the exponent notation of larger numbers are not
    represented. *)
Definition number_to_string (n : number) : string :=
  match n with
  | Int z => string_of_Z z
  | NaN => "NaN"
  | Infinity => "Infinity"
  | NegInfinity => "-Infinity"
  end.

(** [String(v)].  An array prints its elements separated by commas, with
    nothing for [null] and [undefined]; a plain object prints as
    [[object Object]].  Integers print in decimal notation. *)
Fixpoint ToString (v : value) : string :=
  match v with
  | VUndefined => "undefined"
  | VNull => "null"
  | VBool true => "true"
  | VBool false => "false"
  | VNum n => number_to_string n
  | VStr s => s
  | VArr elems =>
      join ","
        (map (fun e =>
                match e with
                | VUndefined | VNull => EmptyString
                | _ => ToString e
                end) elems)
  | VObj _ => "[object Object]"
  end.

(** [ToPrimitive]: arrays and plain objects convert through their string. *)
Definition ToPrimitive (v : value) : value :=
  match v with
  | VArr _ | VObj _ => VStr (ToString v)
  | _ => v
  end.

(** [ToBoolean]. *)
Definition truthy (v : value) : bool :=
  match v with
  | VUndefined | VNull => false
  | VBool b => b
  | VNum (Int z) => negb (z =? 0)
  | VNum NaN => false
  | VNum _ => true
  | VStr s => negb (String.eqb s EmptyString)
  | VArr _ | VObj _ => true
  end.

(** [a || b] and [a && b] on already evaluated operands. *)
Definition js_or (a b : value) : value := if truthy a then a else b.
Definition js_and (a b : value) : value := if truthy a then b else a.

Definition Array_isArray (v : value) : bool :=
  match v with
  | VArr _ => true
  | _ => false
  end.

(** The elements of an array, for a value known to be one. *)
Definition elements (v : value) : list value :=
  match v with
  | VArr elems => elems
  | _ => []
  end.

Definition is_undefined (v : value) : bool :=
  match v with
  | VUndefined => true
  | _ => false
  end.

Definition typeof_string (v : value) : bool :=
  match v with
  | VStr _ => true
  | _ => false
  end.

Fixpoint lookup (k : string) (props : list (string * value)) : option value :=
  match props with
  | [] => None
  | (k', v) :: rest => if String.eqb k k' then Some v else lookup k rest
  end.

(** [v.k] for a data property name [k]: a [TypeError] on [null] and
    [undefined], [undefined] where the property is absent.  The names the
    program reads are never inherited ones. *)
Definition get (v : value) (k : string) : Res value :=
  match v with
  | VUndefined | VNull => Throw TypeError
  | VObj props =>
      match lookup k props with
      | Some x => Ok x
      | None => Ok VUndefined
      end
  | _ => Ok VUndefined
  end.

(** What the platform supplies and the program does not define:
    [JSON.parse], the numeric reading of a string ([StringToNumber]), and
    the exponent notation in which a double of magnitude 10^21 or more
    prints. *)
Record Platform : Type := {
  JSON_parse : string -> Res value;
  StringToNumber : string -> number;
  exponent_notation : spec_float -> string
}.

Section Coercions.
Variable P : Platform.

Definition ToNumber (v : value) : number :=
  match v with
  | VUndefined => NaN
  | VNull => Int 0
  | VBool true => Int 1
  | VBool false => Int 0
  | VNum n => n
  | VStr s => StringToNumber P s
  | VArr _ | VObj _ => StringToNumber P (ToString v)
  end.

(** [a + b]. *)
Definition js_add (a b : value) : value :=
  let pa := ToPrimitive a in
  let pb := ToPrimitive b in
  if (typeof_string pa || typeof_string pb)%bool
  then VStr (ToString pa ++ ToString pb)%string
  else VNum (num_add (ToNumber pa) (ToNumber pb)).

(** [a - b]. *)
Definition js_sub (a b : value) : number :=
  num_sub (ToNumber a) (ToNumber b).

(** [a > n] for a number [n]. *)
Definition js_gt (a : value) (n : number) : bool :=
  num_gt (ToNumber a) n.
End Coercions.

(** [a === n] for a number [n]. *)
Definition strict_eq_num (a : value) (n : number) : bool :=
  match a with
  | VNum m => num_eq m n
  | _ => false
  end.

(** [BigInt(v)]. *)
Definition BigInt (v : value) : Res Z :=
  match ToPrimitive v with
  | VNum (Int z) => Ok z
  | VNum _ => Throw RangeError
  | VUndefined | VNull => Throw TypeError
  | VBool b => Ok (if b then 1 else 0)
  | VStr s =>
      match StringToBigInt s with
      | Some z => Ok z
      | None => Throw SyntaxError
      end
  | VArr _ | VObj _ => Throw TypeError
  end.

Definition BigInt_toString (z : Z) : string := string_of_Z z.

(** *** Arrays *)

Section Arrays.
Context {A : Type}.

(** [l.slice(start, end)]; a negative index counts from the end. *)
Definition slice (start : Z) (fin : option Z) (l : list A) : list A :=
  let len := Z.of_nat (List.length l) in
  let clamp i := if i <? 0 then Z.max (len + i) 0 else Z.min i len in
  let k := clamp start in
  let final := match fin with Some e => clamp e | None => len end in
  firstn (Z.to_nat (Z.max (final - k) 0)) (skipn (Z.to_nat k) l).

(** [l.find(pred)], with [None] for [undefined]. *)
Fixpoint find (pred : A -> Res bool) (l : list A) : Res (option A) :=
  match l with
  | [] => Ok None
  | x :: rest =>
      hit <- pred x ;;
      if hit then Ok (Some x) else find pred rest
  end.

(** [SortCompare] reads a comparator result: [NaN] counts as zero. *)
Definition not_after (v : number) : bool :=
  match v with
  | NaN => true
  | _ => negb (num_lt (Int 0) v)
  end.

(** Insertion of [x], which came before every element of the sorted
    list, in front of the first element it does not have to follow. *)
Fixpoint insert (comparefn : A -> A -> Res number) (x : A) (sorted : list A)
  : Res (list A) :=
  match sorted with
  | [] => Ok [x]
  | y :: rest =>
      v <- comparefn x y ;;
      if not_after v then Ok (x :: y :: rest)
      else (r <- insert comparefn x rest ;; Ok (y :: r))
  end.

Fixpoint insertion_sort (comparefn : A -> A -> Res number) (l : list A)
  : Res (list A) :=
  match l with
  | [] => Ok []
  | x :: rest =>
      sorted <- insertion_sort comparefn rest ;;
      insert comparefn x sorted
  end.
End Arrays.

(** [l.sort(comparefn)]: a stable sort; [undefined] elements go to the
    end without being compared.  For a comparator that is a consistent
    ordering the result does not depend on the algorithm. *)
Definition sort (comparefn : value -> value -> Res number) (l : list value)
  : Res (list value) :=
  let defined := filter (fun v => negb (is_undefined v)) l in
  let undefineds := filter is_undefined l in
  sorted <- insertion_sort comparefn defined ;;
  Ok (sorted ++ undefineds).

End JS.

(** ** IEEE binary64 *)

Module F64.

Definition f64 : Type := spec_float.

Definition prec : Z := 53.
Definition emax : Z := 1024.

(** The double nearest to an integer. *)
Definition of_Z (z : Z) : f64 := binary_normalize prec emax z 0 false.

Definition of_number (n : JS.number) : f64 :=
  match n with
  | JS.Int z => of_Z z
  | JS.NaN => S754_nan
  | JS.Infinity => S754_infinity false
  | JS.NegInfinity => S754_infinity true
  end.

Definition div (x y : f64) : f64 := SFdiv prec emax x y.
Definition mul (x y : f64) : f64 := SFmul prec emax x y.

Definition is_nan (x : f64) : bool :=
  match x with
  | S754_nan => true
  | _ => false
  end.

Definition is_infinite (x : f64) : bool :=
  match x with
  | S754_infinity _ => true
  | _ => false
  end.

(** [Math.floor(x)]. *)
Definition Math_floor (x : f64) : f64 :=
  match x with
  | S754_finite s m e =>
      if 0 <=? e then x
      else of_Z (cond_Zopp s (Zpos m) / 2 ^ (- e))
  | _ => x
  end.

(** The integer nearest to [m * 2^e * 10^f], the larger one on a tie. *)
Definition scaled_nearest (f : nat) (m : positive) (e : Z) : Z :=
  let scale := 10 ^ Z.of_nat f in
  if 0 <=? e then Zpos m * 2 ^ e * scale
  else (2 * Zpos m * scale + 2 ^ (- e)) / (2 * 2 ^ (- e)).

(** Whether [10^21 <= m * 2^e]. *)
Definition at_least_1e21 (m : positive) (e : Z) : bool :=
  if 0 <=? e then 10 ^ 21 <=? Zpos m * 2 ^ e
  else 10 ^ 21 <=? Zpos m / 2 ^ (- e).

Fixpoint zeros (n : nat) : string :=
  match n with
  | O => EmptyString
  | S k => String "0" (zeros k)
  end.

(** The decimal digits of [n] with a point before the last [f] of them. *)
Definition place_point (f : nat) (n : Z) : string :=
  let digits := JS.string_of_Z n in
  match f with
  | O => digits
  | _ =>
      let k := String.length digits in
      let padded := (zeros (S f - k) ++ digits)%string in
      let k' := String.length padded in
      (substring 0 (k' - f) padded ++ "." ++ substring (k' - f) f padded)%string
  end.

Section ToFixed.
(** The printing of a magnitude of at least 10^21, which [toFixed] leaves
    to [Number.prototype.toString]. *)
Variable exponent_notation : f64 -> string.

(** [x.toFixed(f)]. *)
Definition toFixed (f : nat) (x : f64) : string :=
  match x with
  | S754_nan => "NaN"
  | S754_infinity false => "Infinity"
  | S754_infinity true => "-Infinity"
  | S754_zero _ => place_point f 0
  | S754_finite s m e =>
      let sign := if s then "-" else EmptyString in
      if at_least_1e21 m e
      then (sign ++ exponent_notation (S754_finite false m e))%string
      else (sign ++ place_point f (scaled_nearest f m e))%string
  end.
End ToFixed.

End F64.

(** ** Collaborators *)

Module Ethers.

(** A block as the chain provider returns it; [gasUsed] is a BigNumber. *)
Record ChainBlock : Type := {
  number : Z;
  timestamp : Z;
  transactions : list string;
  gasUsed : Z
}.

(** Whether [s] is a string [BigNumber.from] converts, and its value:
    decimal digits, or [0x] and hexadecimal digits of either case, after
    an optional minus sign.  The prefix is in lower case: a string that
    starts with [0X] is rejected. *)
Definition numeric_string (s : string) : option Z :=
  let '(negative, body) :=
    match s with
    | String "-" rest => (true, rest)
    | _ => (false, s)
    end in
  let magnitude :=
    match body with
    | String "0" (String c rest) =>
        if Ascii.eqb c "x"
        then JS.all_digits 16 rest
        else JS.all_digits 10 body
    | _ => JS.all_digits 10 body
    end in
  match magnitude with
  | Some v => Some (if negative then - v else v)
  | None => None
  end.

(** [ethers.BigNumber.from(s)] for a string: an invalid string throws. *)
Definition BigNumber_from (s : string) : Res Z :=
  match numeric_string s with
  | Some v => Ok v
  | None => Throw (HostError "invalid BigNumber string")
  end.

(** [b.toNumber()]: throws beyond 53 bits. *)
Definition toNumber (b : Z) : Res JS.number :=
  if Z.abs b <? 2 ^ 53 then Ok (JS.Int b)
  else Throw (HostError "overflow").

(** [b.toString()]. *)
Definition toString (b : Z) : string := JS.string_of_Z b.

(** [ethers.utils.defaultAbiCoder.encode(['uint256'], [107])]. *)
Definition encoded_spot_index : string :=
  "0x000000000000000000000000000000000000000000000000000000000000006b".

End Ethers.

(** An HTTP answer as the client library hands it over: a rejected
    request carries the status of the response, if there was one. *)
Inductive HttpResult : Type :=
| HttpOk (data : JS.value)
| HttpFailed (status : option Z).

(** The queries the backend sends to the storage:
    - [RecentRows]: the ten rows with the highest [to_block_number], in
      decreasing order;
    - [RowCovering]: at most one row whose range contains the parameter;
    - [RangeMetadata]: the count of rows and the extremes of their ranges;
    - [AllData]: the payload of every row, by decreasing [to_block_number]. *)
Inductive Query : Type :=
| RecentRows
| RowCovering
| RangeMetadata
| AllData.

(** A program that talks to its collaborators: each call names what is
    asked and continues with the answer. *)
Inductive Prog (A : Type) : Type :=
| Ret (a : A)
| PoolQuery (sql : Query) (params : list JS.value)
    (k : Res (list JS.value) -> Prog A)
| ProviderGetBlock (n : JS.number)
    (k : Res (option Ethers.ChainBlock) -> Prog A)
| ProviderCall (to data : string) (k : Res string -> Prog A)
| AxiosGet (url : string) (k : HttpResult -> Prog A)
| SetSearchResult (v : JS.value) (k : Prog A)
| SetLoading (b : bool) (k : Prog A)
| Alert (message : string) (k : Prog A).

Arguments Ret {A} a.
Arguments PoolQuery {A} sql params k.
Arguments ProviderGetBlock {A} n k.
Arguments ProviderCall {A} to data k.
Arguments AxiosGet {A} url k.
Arguments SetSearchResult {A} v k.
Arguments SetLoading {A} b k.
Arguments Alert {A} message k.

(** What a run of a program did, in order. *)
Inductive Event : Type :=
| EPoolQuery (sql : Query) (params : list JS.value)
| EProviderGetBlock (n : JS.number)
| EProviderCall (to data : string)
| EAxiosGet (url : string)
| ESetSearchResult (v : JS.value)
| ESetLoading (b : bool)
| EAlert (message : string).

(** The collaborators of one run. *)
Record World : Type := {
  pool_query : Query -> list JS.value -> Res (list JS.value);
  provider_getBlock : JS.number -> Res (option Ethers.ChainBlock);
  provider_call : string -> string -> Res string;
  axios_get : string -> HttpResult
}.

Fixpoint run {A : Type} (w : World) (p : Prog A) : A * list Event :=
  match p with
  | Ret a => (a, [])
  | PoolQuery sql params k =>
      let '(a, t) := run w (k (pool_query w sql params)) in
      (a, EPoolQuery sql params :: t)
  | ProviderGetBlock n k =>
      let '(a, t) := run w (k (provider_getBlock w n)) in
      (a, EProviderGetBlock n :: t)
  | ProviderCall to data k =>
      let '(a, t) := run w (k (provider_call w to data)) in
      (a, EProviderCall to data :: t)
  | AxiosGet url k =>
      let '(a, t) := run w (k (axios_get w url)) in
      (a, EAxiosGet url :: t)
  | SetSearchResult v k =>
      let '(a, t) := run w k in (a, ESetSearchResult v :: t)
  | SetLoading b k =>
      let '(a, t) := run w k in (a, ESetLoading b :: t)
  | Alert message k =>
      let '(a, t) := run w k in (a, EAlert message :: t)
  end.

(** ** backend/server.js *)

Module Server.
Import JS.

Definition spotPx : string := "0x0000000000000000000000000000000000000808".

(** An HTTP response. *)
Inductive Body : Type :=
| Json (v : value)
| ErrorJson (error : string) (cause : option exn)
| SynthesizedBlock
    (blockNumber timestamp : Z) (hyperCoreActions : Z) (hyperEVMTxns : Z)
    (crossLayerCalls : Z) (gasUsed : string) (uniqueUsers : list string)
    (avgGasPerTx : F64.f64) (crossLayerRatio : string) (uniqueUserCount : Z)
| StatsJson
    (totalRecords firstBlock lastBlock : number)
    (totalTransactions totalCrossLayerCalls totalHyperCoreActions : value)
    (totalGasUsed : string) (processedBlocks : Z)
    (crossLayerPercentage : string).

Record Response : Type := {
  status : Z;
  body : Body
}.

Definition res_json (b : Body) : Response := {| status := 200; body := b |}.
Definition res_status_json (code : Z) (b : Body) : Response :=
  {| status := code; body := b |}.

Section WithPlatform.
Variable P : Platform.

(** *** parseBlockData (lines 57-82) *)

(** The tests on the shape of the data (lines 62-77). *)
Definition by_shape (data : value) : Res (list value) :=
  blocks <- get data "blocks" ;;
  if truthy (js_and blocks (VBool (Array_isArray blocks))) then
    Ok (elements blocks)
  else if Array_isArray data then
    Ok (elements data)
  else
    blockNumber <- get data "blockNumber" ;;
    if negb (is_undefined blockNumber) then Ok [data]
    else Ok [].

(** The statements inside [try] (lines 59-77). *)
Definition parseBlockData_body (dataString : value) : Res (list value) :=
  data <- (if typeof_string dataString
           then JSON_parse P (ToString dataString)
           else Ok dataString) ;;
  by_shape data.

Definition parseBlockData (dataString : value) : Res (list value) :=
  try_catch (parseBlockData_body dataString) (fun _ => Ok []).

(** *** getHypePrice (lines 86-112) *)

Definition fallback_price : F64.f64 := F64.of_Z 48.

(** The statements inside [try] (lines 88-105), given the answer of the
    provider. *)
Definition getHypePrice_body (result : Res string) : Res F64.f64 :=
  raw <- result ;;
  priceRaw <- Ethers.BigNumber_from raw ;;
  n <- Ethers.toNumber priceRaw ;;
  Ok (F64.div (F64.of_number n) (F64.of_Z 1000000)).

Definition getHypePrice : Prog (Res F64.f64) :=
  ProviderCall spotPx Ethers.encoded_spot_index (fun result =>
    Ret (try_catch (getHypePrice_body result) (fun _ => Ok fallback_price))).

(** *** GET /api/blocks/recent (lines 115-140) *)

(** The loop of lines 125-128, from the blocks gathered so far. *)
Fixpoint flatten_rows (rows : list value) (allBlocks : list value)
  : Res (list value) :=
  match rows with
  | [] => Ok allBlocks
  | row :: rest =>
      data <- get row "data" ;;
      blocks <- parseBlockData data ;;
      flatten_rows rest (allBlocks ++ blocks)
  end.

(** [(a, b) => b.blockNumber - a.blockNumber]. *)
Definition by_blockNumber_desc (a b : value) : Res number :=
  nb <- get b "blockNumber" ;;
  na <- get a "blockNumber" ;;
  Ok (js_sub P nb na).

(** Lines 122-133, which the specification calls [mergeRecent]: gather,
    sort, keep the first 20. *)
Definition mergeRecent (rows : list value) : Res (list value) :=
  allBlocks <- flatten_rows rows [] ;;
  sorted <- sort by_blockNumber_desc allBlocks ;;
  Ok (slice 0 (Some 20) sorted).

(** The [catch] of a handler: what was thrown becomes a 500 response. *)
Definition respond (r : Res Response) (error : string) : Response :=
  match r with
  | Ok response => response
  | Throw e => res_status_json 500 (ErrorJson error (Some e))
  end.

Definition blocks_recent : Prog Response :=
  PoolQuery RecentRows [] (fun result =>
    Ret (respond (rows <- result ;;
                  sortedBlocks <- mergeRecent rows ;;
                  Ok (res_json (Json (VArr sortedBlocks))))
                 "Database error")).

(** *** GET /api/blocks/:blockNumber (lines 143-194) *)

(** [metrics.avgGasPerTx] of the synthesized record (lines 174-175). *)
Definition avgGasPerTx (blockchainBlock : Ethers.ChainBlock) : F64.f64 :=
  let length := Z.of_nat (List.length (Ethers.transactions blockchainBlock)) in
  if 0 <? length then
    F64.Math_floor
      (F64.div
         (F64.of_number
            (parseInt (Ethers.toString (Ethers.gasUsed blockchainBlock))))
         (F64.of_Z length))
  else F64.of_Z 0.

Definition synthesize (blockchainBlock : Ethers.ChainBlock) : Body :=
  SynthesizedBlock
    (Ethers.number blockchainBlock)
    (Ethers.timestamp blockchainBlock)
    0
    (Z.of_nat (List.length (Ethers.transactions blockchainBlock)))
    0
    (Ethers.toString (Ethers.gasUsed blockchainBlock))
    []
    (avgGasPerTx blockchainBlock)
    "0"
    0.

Definition chain_fallback (blockNum : number) : Prog Response :=
  ProviderGetBlock blockNum (fun answer =>
    Ret (match answer with
         | Ok (Some blockchainBlock) => res_json (synthesize blockchainBlock)
         | Ok None => res_status_json 404 (ErrorJson "Block not found" None)
         | Throw _ => res_status_json 404 (ErrorJson "Block not found" None)
         end)).

(** [blocks.find(b => b.blockNumber === blockNum)], [undefined] when
    there is none. *)
Definition find_block (blocks : list value) (blockNum : number) : Res value :=
  found <- find (fun b => bn <- get b "blockNumber" ;;
                          Ok (strict_eq_num bn blockNum)) blocks ;;
  match found with
  | Some b => Ok b
  | None => Ok VUndefined
  end.

Definition block_by_number (blockNumber : string) : Prog Response :=
  let blockNum := parseInt blockNumber in
  PoolQuery RowCovering [VNum blockNum] (fun result =>
    match result with
    | Throw e => Ret (respond (Throw e) "Database error")
    | Ok rows =>
        match rows with
        | row0 :: _ =>
            match (data <- get row0 "data" ;;
                   blocks <- parseBlockData data ;;
                   find_block blocks blockNum) with
            | Throw e => Ret (respond (Throw e) "Database error")
            | Ok block =>
                if truthy block then Ret (res_json (Json block))
                else chain_fallback blockNum
            end
        | [] =>
            Ret (res_status_json 404
                   (ErrorJson "Block not found in database" None))
        end
    end).

(** *** GET /api/stats (lines 197-246) *)

Record Totals : Type := {
  totalTransactions : value;
  totalCrossLayerCalls : value;
  totalGasUsed : Z;
  totalHyperCoreActions : value;
  processedBlocks : Z
}.

Definition no_totals : Totals := {|
  totalTransactions := num 0;
  totalCrossLayerCalls := num 0;
  totalGasUsed := 0;
  totalHyperCoreActions := num 0;
  processedBlocks := 0
|}.

(** The body of the inner loop (lines 220-226). *)
Definition count_block (t : Totals) (block : value) : Res Totals :=
  hyperEVMTxns <- get block "hyperEVMTxns" ;;
  if js_gt P hyperEVMTxns (Int 0) then
    crossLayerCalls <- get block "crossLayerCalls" ;;
    hyperCoreActions <- get block "hyperCoreActions" ;;
    gasUsed <- get block "gasUsed" ;;
    gas <- BigInt (js_or gasUsed (num 0)) ;;
    Ok {| processedBlocks := processedBlocks t + 1;
          totalTransactions :=
            js_add P (totalTransactions t) (js_or hyperEVMTxns (num 0));
          totalCrossLayerCalls :=
            js_add P (totalCrossLayerCalls t) (js_or crossLayerCalls (num 0));
          totalHyperCoreActions :=
            js_add P (totalHyperCoreActions t) (js_or hyperCoreActions (num 0));
          totalGasUsed := totalGasUsed t + gas |}
  else Ok t.

Fixpoint count_blocks (t : Totals) (blocks : list value) : Res Totals :=
  match blocks with
  | [] => Ok t
  | block :: rest =>
      t' <- count_block t block ;;
      count_blocks t' rest
  end.

(** The outer loop (lines 217-228). *)
Fixpoint aggregate_from (t : Totals) (rows : list value) : Res Totals :=
  match rows with
  | [] => Ok t
  | row :: rest =>
      data <- get row "data" ;;
      blocks <- parseBlockData data ;;
      t' <- count_blocks t blocks ;;
      aggregate_from t' rest
  end.

(** Lines 211-228, which the specification calls [aggregate]. *)
Definition aggregate (rows : list value) : Res Totals :=
  aggregate_from no_totals rows.

(** Lines 239-240. *)
Definition crossLayerPercentage (totalCrossLayerCalls totalTransactions : value)
  : string :=
  if js_gt P totalTransactions (Int 0) then
    F64.toFixed (exponent_notation P) 2
      (F64.mul
         (F64.div (F64.of_number (ToNumber P totalCrossLayerCalls))
                  (F64.of_number (ToNumber P totalTransactions)))
         (F64.of_Z 100))
  else "0".

Definition stats_json (stats : value) (t : Totals) : Res Body :=
  total_records <- get stats "total_records" ;;
  first_block <- get stats "first_block" ;;
  last_block <- get stats "last_block" ;;
  Ok (StatsJson
        (parseInt (ToString total_records))
        (parseInt (ToString first_block))
        (parseInt (ToString last_block))
        (totalTransactions t)
        (totalCrossLayerCalls t)
        (totalHyperCoreActions t)
        (BigInt_toString (totalGasUsed t))
        (processedBlocks t)
        (crossLayerPercentage (totalCrossLayerCalls t) (totalTransactions t))).

Definition stats : Prog Response :=
  PoolQuery RangeMetadata [] (fun result =>
    match result with
    | Throw e => Ret (respond (Throw e) "Stats error")
    | Ok rows =>
        let stats := nth 0 rows VUndefined in
        PoolQuery AllData [] (fun blocksResult =>
          Ret (respond (blocksRows <- blocksResult ;;
                        t <- aggregate blocksRows ;;
                        b <- stats_json stats t ;;
                        Ok (res_json b))
                       "Stats error"))
    end).
End WithPlatform.

End Server.

(** ** frontend/src/App.tsx *)

Module App.
Import JS.

Definition API_URL : string := "http://localhost:3001".

(** One point of the price chart. *)
Record Sample : Type := {
  time : string;
  price : F64.f64
}.

(** The update of the price history (lines 104-107), which the
    specification calls [appendSample]:
    [prev => [...prev, sample].slice(-30)]. *)
Definition appendSample (prev : list Sample) (sample : Sample) : list Sample :=
  slice (-30) None (prev ++ [sample]).

(** The history after the samples of a run have arrived in order. *)
Definition history_after (samples : list Sample) (start : list Sample)
  : list Sample :=
  fold_left appendSample samples start.

(** *** searchBlock (lines 151-185) *)

Definition searchBlock (blockSearch : string) (recentBlocks : list value)
  : Prog unit :=
  if negb (truthy (VStr blockSearch)) then
    SetSearchResult VNull (Ret tt)
  else
    SetLoading true
      (let blockNum := parseInt blockSearch in
       match Server.find_block recentBlocks blockNum with
       | Throw _ => Alert "Invalid block number" (SetLoading false (Ret tt))
       | Ok found =>
           if truthy found then
             SetSearchResult found (SetLoading false (Ret tt))
           else
             AxiosGet
               (API_URL ++ "/api/blocks/" ++ number_to_string blockNum)%string
               (fun answer =>
                  match answer with
                  | HttpOk data =>
                      SetSearchResult data (SetLoading false (Ret tt))
                  | HttpFailed (Some 404) =>
                      Alert "Block not found" (SetLoading false (Ret tt))
                  | HttpFailed _ =>
                      Alert "Error searching block" (SetLoading false (Ret tt))
                  end)
       end).

(** *** totalStats (lines 227-241) *)

Section WithPlatform.
Variable P : Platform.

Definition initial_summary : value :=
  VObj [("totalRecords", num 0); ("firstBlock", num 0); ("lastBlock", num 0);
        ("totalTransactions", num 0); ("totalCrossLayerCalls", num 0);
        ("totalGasUsed", VStr "0")].

(** The reducer of lines 227-234, for the array [recentBlocks]. *)
Definition summarize (recentBlocks : list value) (acc block : value)
  : Res value :=
  accFirst <- get acc "firstBlock" ;;
  blockNumber <- get block "blockNumber" ;;
  accLast <- get acc "lastBlock" ;;
  accTransactions <- get acc "totalTransactions" ;;
  hyperEVMTxns <- get block "hyperEVMTxns" ;;
  accCalls <- get acc "totalCrossLayerCalls" ;;
  crossLayerCalls <- get block "crossLayerCalls" ;;
  accGas <- get acc "totalGasUsed" ;;
  gasSoFar <- BigInt (js_or accGas (VStr "0")) ;;
  gasUsed <- get block "gasUsed" ;;
  gas <- BigInt gasUsed ;;
  Ok (VObj
        [("totalRecords", num (Z.of_nat (List.length recentBlocks)));
         ("firstBlock",
          VNum (Math_min (ToNumber P (js_or accFirst (VNum Infinity)))
                         (ToNumber P blockNumber)));
         ("lastBlock",
          VNum (Math_max (ToNumber P (js_or accLast (num 0)))
                         (ToNumber P blockNumber)));
         ("totalTransactions", js_add P accTransactions hyperEVMTxns);
         ("totalCrossLayerCalls", js_add P accCalls crossLayerCalls);
         ("totalGasUsed", VStr (BigInt_toString (gasSoFar + gas)))]).

(** [l.reduce(f, acc)]. *)
Fixpoint reduce (f : value -> value -> Res value) (l : list value) (acc : value)
  : Res value :=
  match l with
  | [] => Ok acc
  | x :: rest => acc' <- f acc x ;; reduce f rest acc'
  end.

(** [stats || recentBlocks.reduce(...)], where [stats] is [null] until
    the stats request has answered. *)
Definition totalStats (stats : value) (recentBlocks : list value) : Res value :=
  if truthy stats then Ok stats
  else reduce (summarize recentBlocks) recentBlocks initial_summary.
End WithPlatform.

End App.

(** ** The normalizer, as the specification words it *)

Module Spec.
Import JS.

(** The payload once decoded: a textual payload goes through the decoder,
    any other is structured data already. *)
Definition decode (P : Platform) (payload : value) : Res value :=
  match payload with
  | VStr text => JSON_parse P text
  | _ => Ok payload
  end.

(** The array held by the [blocks] field of an object, if there is one. *)
Definition blocks_array (data : value) : option (list value) :=
  match data with
  | VObj props =>
      match lookup "blocks" props with
      | Some (VArr records) => Some records
      | _ => None
      end
  | _ => None
  end.

(** An object that looks like a single record. *)
Definition has_blockNumber (data : value) : bool :=
  match data with
  | VObj props =>
      match lookup "blockNumber" props with
      | Some VUndefined | None => false
      | Some _ => true
      end
  | _ => false
  end.

(** The three shapes in their priority, the empty list for any other
    shape and for a payload that does not decode. *)
Definition normalize (decoded : Res value) : list value :=
  match decoded with
  | Throw _ => []
  | Ok data =>
      match blocks_array data with
      | Some records => records
      | None =>
          match data with
          | VArr records => records
          | _ => if has_blockNumber data then [data] else []
          end
      end
  end.

End Spec.


(** ** Records as the program reads them *)

Module Records.
Import JS.

(** The integer a record carries under [k]. *)
Definition integer_field (k : string) (v : value) : option Z :=
  match v with
  | VObj props =>
      match lookup k props with
      | Some (VNum (Int z)) => Some z
      | _ => None
      end
  | _ => None
  end.

Definition blockNumber_of (v : value) : option Z :=
  integer_field "blockNumber" v.

(** A record with an integer block number. *)
Definition numbered (v : value) : bool :=
  match blockNumber_of v with
  | Some _ => true
  | None => false
  end.

Definition key (v : value) : Z :=
  match blockNumber_of v with
  | Some z => z
  | None => 0
  end.

(** The records of block number [n], in the order of the list. *)
Definition records_of_block (n : Z) (l : list value) : list value :=
  filter (fun v => key v =? n) l.

(** Non-increasing block numbers along the list. *)
Definition descending (l : list value) : Prop :=
  StronglySorted (fun a b => key b <= key a) l.

(** Strictly decreasing block numbers: no block number twice. *)
Definition strictly_descending (l : list value) : Prop :=
  StronglySorted (fun a b => key b < key a) l.

(** Stable insertion sort by decreasing block number. *)
Fixpoint insert_desc (x : value) (sorted : list value) : list value :=
  match sorted with
  | [] => [x]
  | y :: rest =>
      if key y <=? key x then x :: y :: rest
      else y :: insert_desc x rest
  end.

Fixpoint sort_desc (l : list value) : list value :=
  match l with
  | [] => []
  | x :: rest => insert_desc x (sort_desc rest)
  end.

(** The value under [k], [undefined] where there is none. *)
Definition field (k : string) (b : value) : value :=
  match b with
  | VObj props =>
      match lookup k props with
      | Some x => x
      | None => VUndefined
      end
  | _ => VUndefined
  end.

(** What a count field stands for: an integer, or nothing at all. *)
Definition counted (v : value) : option Z :=
  match v with
  | VUndefined | VNull => Some 0
  | VNum (Int z) => Some z
  | _ => None
  end.

Definition is_counted (v : value) : bool :=
  match counted v with
  | Some _ => true
  | None => false
  end.

(** The count a record contributes under [k]: zero for a missing field. *)
Definition count_of (k : string) (b : value) : Z :=
  match counted (field k b) with
  | Some z => z
  | None => 0
  end.

(** The gas a record contributes: zero for a missing field. *)
Definition gas_of (b : value) : Z :=
  match BigInt (js_or (field "gasUsed" b) (num 0)) with
  | Ok g => g
  | Throw _ => 0
  end.

(** A record with execution-layer transactions. *)
Definition active (b : value) : bool := 0 <? count_of "hyperEVMTxns" b.

(** A record whose count fields are integers or absent and whose gas, when
    the record is active, reads as an integer. *)
Definition well_typed (b : value) : bool :=
  match b with
  | VObj _ =>
      is_counted (field "hyperEVMTxns" b)
      && (negb (active b)
          || (is_counted (field "crossLayerCalls" b)
              && is_counted (field "hyperCoreActions" b)
              && match BigInt (js_or (field "gasUsed" b) (num 0)) with
                 | Ok _ => true
                 | Throw _ => false
                 end))
  | _ => false
  end.

(** Totals that are numbers. *)
Definition numeric_totals (tx cl gas ca pb : Z) : Server.Totals := {|
  Server.totalTransactions := num tx;
  Server.totalCrossLayerCalls := num cl;
  Server.totalGasUsed := gas;
  Server.totalHyperCoreActions := num ca;
  Server.processedBlocks := pb
|}.

(** The normalized records of the rows, in the order of the rows. *)
Definition records_of_rows (P : Platform) (rows : list value) : list value :=
  flat_map (fun row => Spec.normalize (Spec.decode P (field "data" row))) rows.

Definition sum_of (f : value -> Z) (l : list value) : Z :=
  fold_right (fun b s => f b + s) 0 l.

(** The counts under [k] as the program adds them up: from [start], one
    record after the other, each sum a double. *)
Definition add_counts (k : string) (start : number) (l : list value)
  : number :=
  fold_left (fun acc b => num_add acc (Int (count_of k b))) l start.

(** Totals whose counts are numbers. *)
Definition totals_from (tx cl ca : number) (gas pb : Z) : Server.Totals := {|
  Server.totalTransactions := VNum tx;
  Server.totalCrossLayerCalls := VNum cl;
  Server.totalGasUsed := gas;
  Server.totalHyperCoreActions := VNum ca;
  Server.processedBlocks := pb
|}.

(** The totals of the given records, all of them counted, in the
    arithmetic of the program: the counts in doubles, the gas in
    integers. *)
Definition totals_over (included : list value) : Server.Totals :=
  totals_from (add_counts "hyperEVMTxns" (Int 0) included)
              (add_counts "crossLayerCalls" (Int 0) included)
              (add_counts "hyperCoreActions" (Int 0) included)
              (sum_of gas_of included)
              (Z.of_nat (List.length included)).

(** The counts under [k] add up among the integers that doubles hold: the
    sum of their magnitudes is below 2^53, and so is every partial
    sum. *)
Definition exact_sum (k : string) (l : list value) : Prop :=
  sum_of (fun b => Z.abs (count_of k b)) l < 2 ^ 53.

Definition exact_counts (l : list value) : Prop :=
  exact_sum "hyperEVMTxns" l
  /\ exact_sum "crossLayerCalls" l
  /\ exact_sum "hyperCoreActions" l.

(** The totals of the given records, all of them counted, as sums of
    integers. *)
Definition totals_of (included : list value) : Server.Totals := {|
  Server.totalTransactions := num (sum_of (count_of "hyperEVMTxns") included);
  Server.totalCrossLayerCalls := num (sum_of (count_of "crossLayerCalls") included);
  Server.totalGasUsed := sum_of gas_of included;
  Server.totalHyperCoreActions := num (sum_of (count_of "hyperCoreActions") included);
  Server.processedBlocks := Z.of_nat (List.length included)
|}.

End Records.

(** ** The in-memory summary *)

Module Summary.
Import JS Records.

Definition is_integer (v : value) : bool :=
  match v with
  | VNum (Int _) => true
  | _ => false
  end.

(** A record the reducer of the frontend can add up: integer counts and a
    gas that reads as an integer. *)
Definition summable (b : value) : bool :=
  match b with
  | VObj _ =>
      is_integer (field "hyperEVMTxns" b)
      && is_integer (field "crossLayerCalls" b)
      && is_counted (field "hyperCoreActions" b)
      && match BigInt (field "gasUsed" b) with
         | Ok _ => true
         | Throw _ => false
         end
  | _ => false
  end.


(** The accumulator of the reducer, with its three sums. *)
Definition summary (records first last : value) (tx cl gas : Z) : value :=
  VObj [("totalRecords", records); ("firstBlock", first); ("lastBlock", last);
        ("totalTransactions", num tx); ("totalCrossLayerCalls", num cl);
        ("totalGasUsed", VStr (string_of_Z gas))].

(** The accumulator with totals that are numbers. *)
Definition summary_of (records first last : value) (tx cl : number) (gas : Z)
  : value :=
  VObj [("totalRecords", records); ("firstBlock", first); ("lastBlock", last);
        ("totalTransactions", VNum tx); ("totalCrossLayerCalls", VNum cl);
        ("totalGasUsed", VStr (string_of_Z gas))].


End Summary.

(** ** Failures of the price oracle *)

Module Oracle.

(** The call to the precompile fails, or its answer does not decode, or the
    decoded price does not fit a number. *)
Definition fails (answer : Res string) : Prop :=
  (exists e, answer = Throw e)
  \/ (exists raw e, answer = Ok raw /\ Ethers.BigNumber_from raw = Throw e)
  \/ (exists raw v e,
        answer = Ok raw /\ Ethers.BigNumber_from raw = Ok v
        /\ Ethers.toNumber v = Throw e).

(** The answer a world gives to the price read. *)
Definition answer_of (w : World) : Res string :=
  provider_call w Server.spotPx Ethers.encoded_spot_index.

End Oracle.

(** ** Rounding to hundredths *)

Module Rounding.

(** [n] is the integer nearest to [100 * m * 2^e], the larger of the two
    when [100 * m * 2^e] lies half way: [2n - 1 <= 200 * m * 2^e < 2n + 1],
    with the power of two moved to the side where it is an integer. *)
Definition nearest_hundredths (n : Z) (m : positive) (e : Z) : Prop :=
  if 0 <=? e
  then n = 100 * (Zpos m * 2 ^ e)
  else (2 * n - 1) * 2 ^ (- e) <= 200 * Zpos m < (2 * n + 1) * 2 ^ (- e).

(** The double the percentage is printed from. *)
Definition percentage (c t : Z) : F64.f64 :=
  F64.mul (F64.div (F64.of_Z c) (F64.of_Z t)) (F64.of_Z 100).

End Rounding.

(** ** Decimal notation *)

Module Digits.

(** The number a sequence of decimal digits denotes after the digits that
    gave [acc]. *)
Fixpoint uint_value (d : Decimal.uint) (acc : Z) : Z :=
  match d with
  | Decimal.Nil => acc
  | Decimal.D0 l => uint_value l (10 * acc + 0)
  | Decimal.D1 l => uint_value l (10 * acc + 1)
  | Decimal.D2 l => uint_value l (10 * acc + 2)
  | Decimal.D3 l => uint_value l (10 * acc + 3)
  | Decimal.D4 l => uint_value l (10 * acc + 4)
  | Decimal.D5 l => uint_value l (10 * acc + 5)
  | Decimal.D6 l => uint_value l (10 * acc + 6)
  | Decimal.D7 l => uint_value l (10 * acc + 7)
  | Decimal.D8 l => uint_value l (10 * acc + 8)
  | Decimal.D9 l => uint_value l (10 * acc + 9)
  end.

Definition is_nil (d : Decimal.uint) : bool :=
  match d with
  | Decimal.Nil => true
  | _ => false
  end.

(** No white space anywhere in the string. *)
Fixpoint no_space (s : string) : bool :=
  match s with
  | EmptyString => true
  | String c rest => negb (JS.is_white_space c) && no_space rest
  end.

(** The character of a decimal digit. *)
Definition digit_char (r : Z) : ascii :=
  match r with
  | 0 => "0" | 1 => "1" | 2 => "2" | 3 => "3" | 4 => "4"
  | 5 => "5" | 6 => "6" | 7 => "7" | 8 => "8" | _ => "9"
  end%char.

(** The digit [r] in front of a sequence of digits. *)
Definition cons_digit (r : Z) (l : Decimal.uint) : Decimal.uint :=
  match r with
  | 0 => Decimal.D0 l | 1 => Decimal.D1 l | 2 => Decimal.D2 l
  | 3 => Decimal.D3 l | 4 => Decimal.D4 l | 5 => Decimal.D5 l
  | 6 => Decimal.D6 l | 7 => Decimal.D7 l | 8 => Decimal.D8 l
  | _ => Decimal.D9 l
  end.

(** [n] hundredths in decimal notation: the integer part, a point, two
    digits. *)
Definition hundredths (n : Z) : string :=
  (JS.string_of_Z (n / 100)
   ++ String "." (String (digit_char (n / 10 mod 10))
                    (String (digit_char (n mod 10)) EmptyString)))%string.

End Digits.

(** ** Three sentences of the specification, as they are worded *)

Module Stated.
Import JS Records Summary.

(** "The merged result must be sorted strictly descending by block number
    with no duplicates." *)
Definition merged_without_duplicates (P : Platform) : Prop :=
  forall rows result,
    Server.mergeRecent P rows = Ok result -> strictly_descending result.


(** "[crossLayerPercentage = totalCrossLayerCalls / totalTransactions *
    100], rounded to 2 decimal places": the number of hundredths nearest
    to the quotient, a quotient half way between two going up, or to the
    even one of the two. *)
Definition half_up (c t : Z) : Z := (20000 * c + t) / (2 * t).

Definition half_even (c t : Z) : Z :=
  let q := 10000 * c / t in
  let r := (10000 * c) mod t in
  if 2 * r <? t then q
  else if t <? 2 * r then q + 1
  else if Z.even q then q else q + 1.

(** The same sentence read as loosely as it can be: some number of
    hundredths nearest to the quotient, whichever way a tie goes. *)
Definition percentage_nearest (P : Platform) : Prop :=
  forall c t,
    0 <= c -> 0 < t ->
    exists n,
      2 * Z.abs (n * t - 10000 * c) <= t
      /\ Server.crossLayerPercentage P (num c) (num t) = Digits.hundredths n.

Definition percentage_rounded (P : Platform) : Prop :=
  forall c t,
    0 <= c -> 0 < t ->
    Server.crossLayerPercentage P (num c) (num t) =
      Digits.hundredths (half_up c t)
    \/ Server.crossLayerPercentage P (num c) (num t) =
       Digits.hundredths (half_even c t).

End Stated.


(** ** Sample data *)

Module Examples.
Import JS.

(** A platform for the examples: its decoder rejects every text (the
    payloads of the examples are structured data, but for one malformed
    text), it reads a string as a number where the string is an integer
    literal, and its exponent notation is never asked for. *)
Definition platform : Platform := {|
  JSON_parse := fun _ => Throw SyntaxError;
  StringToNumber := fun s =>
    match StringToBigInt s with
    | Some z => Int z
    | None => NaN
    end;
  exponent_notation := fun _ => "1e+21"
|}.

Definition record (blockNumber hyperEVMTxns crossLayerCalls hyperCoreActions : Z)
    (gasUsed : string) : value :=
  VObj [("blockNumber", num blockNumber);
        ("timestamp", num 1700000000);
        ("hyperCoreActions", num hyperCoreActions);
        ("hyperEVMTxns", num hyperEVMTxns);
        ("crossLayerCalls", num crossLayerCalls);
        ("gasUsed", VStr gasUsed);
        ("uniqueUsers", VArr [])].

Definition row (from_block to_block : Z) (data : value) : value :=
  VObj [("from_block_number", num from_block);
        ("to_block_number", num to_block);
        ("data", data)].

(** The scenario of the specification: row R1 covers blocks 100 to 109 and
    row R2, stored later, covers 105 to 114; both hold a record of
    block 105. *)
Definition b100 : value := record 100 4 1 2 "84000".
Definition b101 : value := record 101 2 0 1 "42000".
Definition b105_R1 : value := record 105 3 1 0 "63000".
Definition b105_R2 : value := record 105 5 2 1 "105000".
Definition b110 : value := record 110 1 0 0 "21000".

Definition R1 : value :=
  row 100 109 (VObj [("blocks", VArr [b100; b101; b105_R1])]).
Definition R2 : value := row 105 114 (VArr [b105_R2; b110]).

(** A block without transactions, with only the fields it needs, and a row
    whose payload is a text that does not decode. *)
Definition idle : value :=
  VObj [("blockNumber", num 111); ("hyperEVMTxns", num 0)].
Definition sparse : value :=
  VObj [("blockNumber", num 112); ("hyperEVMTxns", num 6)].
Definition R3 : value := row 111 112 (VArr [idle; sparse]).
Definition malformed : value := row 113 113 (VStr "{blocks:").




(** Two records of 2^64 gas each. *)
Definition heavy (blockNumber : Z) : value :=
  record blockNumber 1 0 0 "18446744073709551616".
Definition R64 : value := row 200 201 (VArr [heavy 200; heavy 201]).

Definition sample (time : string) : App.Sample :=
  {| App.time := time; App.price := Server.fallback_price |}.

Definition empty_block : Ethers.ChainBlock := {|
  Ethers.number := 130;
  Ethers.timestamp := 1700000130;
  Ethers.transactions := [];
  Ethers.gasUsed := 0
|}.

(** A world whose collaborators are all down. *)
Definition offline : World := {|
  pool_query := fun _ _ => Throw (HostError "connection refused");
  provider_getBlock := fun _ => Throw (HostError "timeout");
  provider_call := fun _ _ => Throw (HostError "timeout");
  axios_get := fun _ => HttpFailed None
|}.

(** Block 106 as the chain has it, with three transactions. *)
Definition block106 : Ethers.ChainBlock := {|
  Ethers.number := 106;
  Ethers.timestamp := 1700000106;
  Ethers.transactions := ["0xa1"; "0xa2"; "0xa3"];
  Ethers.gasUsed := 100000
|}.

Definition metadata : value :=
  VObj [("total_records", VStr "4"); ("first_block", VStr "100");
        ("last_block", VStr "114")].

(** A world that holds the scenario: the storage answers with the rows
    above, the chain knows block 106, and the price oracle answers with
    48250016, about 48.25 once scaled. *)
Definition scenario : World := {|
  pool_query := fun q params =>
    match q with
    | RecentRows => Ok [R2; R1]
    | RowCovering =>
        match params with
        | [VNum (Int n)] =>
            if (105 <=? n) && (n <=? 114) then Ok [R2]
            else if (100 <=? n) && (n <=? 109) then Ok [R1]
            else Ok []
        | _ => Throw (HostError "invalid input syntax for type bigint")
        end
    | RangeMetadata => Ok [metadata]
    | AllData => Ok [R2; R1; R3; malformed]
    end;
  provider_getBlock := fun n =>
    match n with
    | Int 106 => Ok (Some block106)
    | _ => Ok None
    end;
  provider_call := fun _ _ =>
    Ok "0x0000000000000000000000000000000000000000000000000000000002e03ca0";
  axios_get := fun _ => HttpFailed (Some 404)
|}.

(** A storage that holds the two records of 2^64 gas. *)
Definition heavy_storage : World := {|
  pool_query := fun q _ =>
    match q with
    | RangeMetadata => Ok [metadata]
    | _ => Ok [R64]
    end;
  provider_getBlock := fun _ => Ok None;
  provider_call := fun _ _ => Throw (HostError "timeout");
  axios_get := fun _ => HttpFailed None
|}.

(** A block with 23 cross-layer calls among 160 transactions, and a
    storage that holds it. *)
Definition b300 : value := record 300 160 23 5 "3360000".
Definition R5 : value := row 300 300 (VArr [b300]).

Definition busy_storage : World := {|
  pool_query := fun q _ =>
    match q with
    | RangeMetadata =>
        Ok [VObj [("total_records", VStr "1"); ("first_block", VStr "300");
                  ("last_block", VStr "300")]]
    | _ => Ok [R5]
    end;
  provider_getBlock := fun n =>
    match n with
    | Int 130 => Ok (Some empty_block)
    | _ => Ok None
    end;
  provider_call := fun _ _ => Throw (HostError "timeout");
  axios_get := fun _ => HttpFailed None
|}.

(** A storage without rows. *)
Definition empty_storage : World := {|
  pool_query := fun q _ =>
    match q with
    | RangeMetadata =>
        Ok [VObj [("total_records", VStr "0"); ("first_block", VNull);
                  ("last_block", VNull)]]
    | _ => Ok []
    end;
  provider_getBlock := fun _ => Ok None;
  provider_call := fun _ _ => Throw (HostError "timeout");
  axios_get := fun _ => HttpFailed None
|}.

End Examples.

(** ** The words of the chain interface *)

Module Abi.

(** The lower-case digit of [r] in radix 16. *)
Definition hex_char (r : Z) : ascii :=
  match r with
  | 0 => "0" | 1 => "1" | 2 => "2" | 3 => "3" | 4 => "4"
  | 5 => "5" | 6 => "6" | 7 => "7" | 8 => "8" | 9 => "9"
  | 10 => "a" | 11 => "b" | 12 => "c" | 13 => "d" | 14 => "e"
  | _ => "f"
  end%char.

(** The [k] low digits of [n] in radix 16, the most significant first. *)
Fixpoint hex_digits (k : nat) (n : Z) : string :=
  match k with
  | O => EmptyString
  | S k' =>
      (hex_digits k' (n / 16) ++ String (hex_char (n mod 16)) EmptyString)%string
  end.

(** A 32-byte word as the provider hands it over: [0x] and 64 digits. *)
Definition word (n : Z) : string := ("0x" ++ hex_digits 64 n)%string.

(** [ethers.utils.defaultAbiCoder.encode(['uint256'], [n])]. *)
Definition encode_uint256 (n : Z) : Res string :=
  if ((0 <=? n) && (n <? 2 ^ 256))%bool then Ok (word n)
  else Throw (HostError "value out-of-bounds").

End Abi.

(** ** The numbers of a response *)

(** A number as [res.json] writes it in the body: [JSON.stringify] gives
    [null] for [NaN] and for the infinities, and its digits for an
    integer (below 2^53 in magnitude, where a number prints digit for
    digit). *)
Definition JSON_number (n : JS.number) : string :=
  match n with
  | JS.Int z => JS.number_to_string (JS.Int z)
  | _ => "null"
  end.

(** ** Sequencing *)

(** [await] of an asynchronous function inside another: the calls of [p],
    then those of [k] on the result of [p]. *)
Fixpoint and_then {A B : Type} (p : Prog A) (k : A -> Prog B) : Prog B :=
  match p with
  | Ret a => k a
  | PoolQuery sql params c => PoolQuery sql params (fun r => and_then (c r) k)
  | ProviderGetBlock n c => ProviderGetBlock n (fun r => and_then (c r) k)
  | ProviderCall to data c => ProviderCall to data (fun r => and_then (c r) k)
  | AxiosGet url c => AxiosGet url (fun r => and_then (c r) k)
  | SetSearchResult v c => SetSearchResult v (and_then c k)
  | SetLoading b c => SetLoading b (and_then c k)
  | Alert message c => Alert message (and_then c k)
  end.

(** [l.map(f)] for a callback that may throw. *)
Fixpoint map_res {A B : Type} (f : A -> Res B) (l : list A) : Res (list B) :=
  match l with
  | [] => Ok []
  | x :: rest =>
      y <- f x ;;
      ys <- map_res f rest ;;
      Ok (y :: ys)
  end.

(** ** backend/server.js: the price endpoints *)

Module Endpoints.
Import JS.

Definition oraclePx : string := "0x0000000000000000000000000000000000000807".
Definition markPx : string := "0x0000000000000000000000000000000000000806".

Definition HYPE_SPOT_INDEX : Z := 107.

(** *** GET /api/hype-token-data (lines 249-263) *)

Inductive TokenBody : Type :=
| TokenData (hypePrice : F64.f64) (totalSupply circulatingSupply : Z)
    (marketCap : F64.f64)
| TokenError (error : string).

Record TokenResponse : Type := {
  token_status : Z;
  token_body : TokenBody
}.

Definition hype_token_data : Prog TokenResponse :=
  and_then Server.getHypePrice (fun outcome =>
    Ret (match outcome with
         | Ok hypePrice =>
             {| token_status := 200;
                token_body :=
                  TokenData hypePrice 1000000000 333928180
                    (F64.mul (F64.of_Z 333928180) hypePrice) |}
         | Throw _ =>
             {| token_status := 500;
                token_body := TokenError "Failed to fetch HYPE data" |}
         end)).

(** *** GET /api/debug/hype-price (lines 340-369) *)

Inductive DebugBody : Type :=
| DebugPrices (spotPrice : F64.f64) (oraclePrice : option F64.f64)
    (spotIndex : Z) (precompileAddresses : list (string * string))
    (note : string)
| DebugError (cause : exn).

Record DebugResponse : Type := {
  debug_status : Z;
  debug_body : DebugBody
}.

Definition PRECOMPILES : list (string * string) :=
  [("spotPx", Server.spotPx); ("oraclePx", oraclePx); ("markPx", markPx)].

(** Lines 353-354, given the answer of the provider. *)
Definition oraclePrice_of (oracleResult : Res string) : Res F64.f64 :=
  raw <- oracleResult ;;
  oraclePriceRaw <- Ethers.BigNumber_from raw ;;
  n <- Ethers.toNumber oraclePriceRaw ;;
  Ok (F64.div (F64.of_number n) (F64.of_Z 1000000)).

Definition debug_prices (spotPrice : F64.f64) (oraclePrice : option F64.f64)
  : DebugResponse :=
  {| debug_status := 200;
     debug_body :=
       DebugPrices spotPrice oraclePrice HYPE_SPOT_INDEX PRECOMPILES
         "Prices are in USDC with 6 decimal places converted to regular format" |}.

(** [oraclePrice] stays [null] ([None]) when anything inside the inner
    [try] throws. *)
Definition debug_hype_price : Prog DebugResponse :=
  and_then Server.getHypePrice (fun outcome =>
    match outcome with
    | Throw e => Ret {| debug_status := 500; debug_body := DebugError e |}
    | Ok spotPrice =>
        match Abi.encode_uint256 HYPE_SPOT_INDEX with
        | Throw _ => Ret (debug_prices spotPrice None)
        | Ok oracleData =>
            ProviderCall oraclePx oracleData (fun oracleResult =>
              Ret (debug_prices spotPrice
                     (match oraclePrice_of oracleResult with
                      | Ok price => Some price
                      | Throw _ => None
                      end)))
        end
    end).

End Endpoints.

(** ** backend/server.js: the diagnostic endpoints *)

Module Diagnostics.
Import JS.

(** The queries of the diagnostic endpoints:
    - [SelectOne]: [SELECT 1];
    - [RecentCount]: the count of the rows whose [to_block_number] is
      above the parameter;
    - [LatestRow]: the row with the highest [to_block_number], at most
      one. *)
Inductive Probe : Type :=
| SelectOne
| RecentCount
| LatestRow.

Inductive Diag (A : Type) : Type :=
| DRet (a : A)
| DPoolQuery (sql : Probe) (params : list value)
    (k : Res (list value) -> Diag A)
| DGetBlockNumber (k : Res number -> Diag A).

Arguments DRet {A} a.
Arguments DPoolQuery {A} sql params k.
Arguments DGetBlockNumber {A} k.

Inductive Asked : Type :=
| AskedPool (sql : Probe) (params : list value)
| AskedBlockNumber.

Record Services : Type := {
  probe : Probe -> list value -> Res (list value);
  getBlockNumber : Res number
}.

Fixpoint ask {A : Type} (s : Services) (p : Diag A) : A * list Asked :=
  match p with
  | DRet a => (a, [])
  | DPoolQuery sql params k =>
      let '(a, t) := ask s (k (probe s sql params)) in
      (a, AskedPool sql params :: t)
  | DGetBlockNumber k =>
      let '(a, t) := ask s (k (getBlockNumber s)) in
      (a, AskedBlockNumber :: t)
  end.

(** *** GET /health (lines 277-307) *)

(** [Healthy] is the body with [status: 'ok'], [database: 'connected'] and
    [quicknode: 'connected']; [Unhealthy] the one with [status: 'error']
    and the message of what was thrown. *)
Inductive HealthBody : Type :=
| Healthy (timestamp : string) (currentBlock : number)
    (recentDataCount : number) (streamStatus : string)
| Unhealthy (timestamp : string) (error : exn).

Record HealthResponse : Type := {
  health_status : Z;
  health_body : HealthBody
}.

Definition unhealthy (now : string) (e : exn) : HealthResponse :=
  {| health_status := 503; health_body := Unhealthy now e |}.

(** Lines 291-299, from the rows of the count query. *)
Definition health_report (now : string) (blockNumber : number)
    (rows : list value) : Res HealthResponse :=
  count <- get (nth 0 rows VUndefined) "count" ;;
  Ok {| health_status := 200;
        health_body :=
          Healthy now blockNumber (parseInt (ToString count))
            (if num_gt (parseInt (ToString count)) (Int 0)
             then "receiving data" else "no recent data") |}.

(** [now] is what [new Date().toISOString()] gives when the response is
    built. *)
Definition health (now : string) : Diag HealthResponse :=
  DPoolQuery SelectOne [] (fun check =>
    match check with
    | Throw e => DRet (unhealthy now e)
    | Ok _ =>
        DGetBlockNumber (fun answer =>
          match answer with
          | Throw e => DRet (unhealthy now e)
          | Ok blockNumber =>
              DPoolQuery RecentCount [VNum (num_sub blockNumber (Int 1000))]
                (fun recentData =>
                   DRet (match (rows <- recentData ;;
                                health_report now blockNumber rows) with
                         | Ok response => response
                         | Throw e => unhealthy now e
                         end))
          end)
    end).

(** *** GET /api/debug/raw-data (lines 310-337) *)

Inductive RawBody : Type :=
| RawData (from_block to_block network stream_id : value)
    (parsed_blocks : list value) (total_blocks : Z) (sample_block : value)
| NoData (message : string)
| RawError (cause : exn).

Record RawResponse : Type := {
  raw_status : Z;
  raw_body : RawBody
}.

Section WithPlatform.
Variable P : Platform.

(** Lines 317-330. *)
Definition raw_report (row : value) : Res RawResponse :=
  data <- get row "data" ;;
  parsedData <- Server.parseBlockData P data ;;
  from_block <- get row "from_block_number" ;;
  to_block <- get row "to_block_number" ;;
  network <- get row "network" ;;
  stream_id <- get row "stream_id" ;;
  Ok {| raw_status := 200;
        raw_body :=
          RawData from_block to_block network stream_id parsedData
            (Z.of_nat (List.length parsedData))
            (js_or (nth 0 parsedData VUndefined) VNull) |}.

Definition debug_raw_data : Diag RawResponse :=
  DPoolQuery LatestRow [] (fun result =>
    DRet (match (rows <- result ;;
                 match rows with
                 | row :: _ => raw_report row
                 | [] => Ok {| raw_status := 200;
                               raw_body := NoData "No data found" |}
                 end) with
          | Ok response => response
          | Throw e => {| raw_status := 500; raw_body := RawError e |}
          end)).
End WithPlatform.

End Diagnostics.

(** ** frontend/src/App.tsx: what the dashboard shows *)

Module Dashboard.
Import JS.

(** *** fetchHypeData (lines 98-111) *)

(** The data of the token endpoint, as the interface [HypeTokenData]
    describes it. *)
Record HypeTokenData : Type := {
  hypePrice : F64.f64;
  totalSupply : Z;
  circulatingSupply : Z;
  marketCap : F64.f64
}.

Record Hype : Type := {
  hypeData : option HypeTokenData;
  hypePriceHistory : list App.Sample
}.

(** One poll: [answer] is the data of the response, [None] for a request
    that failed; [now] is the time of the day at the answer. *)
Definition fetchHypeData (s : Hype) (poll : option HypeTokenData * string)
  : Hype :=
  match poll with
  | (Some data, now) =>
      {| hypeData := Some data;
         hypePriceHistory :=
           App.appendSample (hypePriceHistory s)
             {| App.time := now; App.price := hypePrice data |} |}
  | (None, _) => s
  end.

(** The sample a poll leaves in the history, if any. *)
Definition sample_of (poll : option HypeTokenData * string)
  : list App.Sample :=
  match poll with
  | (Some data, now) => [{| App.time := now; App.price := hypePrice data |}]
  | (None, _) => []
  end.

(** *** activityChartData (lines 244-249) *)

Record Bar : Type := {
  block : value;
  HyperCore : value;
  HyperEVM : value;
  Cross_Layer : value
}.

Definition bar_of (b : value) : Res Bar :=
  blockNumber <- get b "blockNumber" ;;
  hyperCoreActions <- get b "hyperCoreActions" ;;
  hyperEVMTxns <- get b "hyperEVMTxns" ;;
  crossLayerCalls <- get b "crossLayerCalls" ;;
  Ok {| block := blockNumber;
        HyperCore := hyperCoreActions;
        HyperEVM := hyperEVMTxns;
        Cross_Layer := crossLayerCalls |}.

Definition activityChartData (recentBlocks : list value) : Res (list Bar) :=
  map_res bar_of (rev (slice 0 (Some 10) recentBlocks)).

(** The rows of the table of recent blocks (line 666). *)
Definition table_rows (recentBlocks : list value) : list value :=
  slice 0 (Some 10) recentBlocks.

(** *** Patterns by type (lines 491-497) *)

(** The object under construction: its own properties in the order of
    their creation, each holding an array of patterns. *)
Definition Groups : Type := list (string * list value).

Fixpoint own (k : string) (acc : Groups) : option (list value) :=
  match acc with
  | [] => None
  | (k', patterns) :: rest =>
      if String.eqb k k' then Some patterns else own k rest
  end.

(** [acc[k].push(pattern)] for an own property [k]. *)
Fixpoint push (k : string) (pattern : value) (acc : Groups) : Groups :=
  match acc with
  | [] => []
  | (k', patterns) :: rest =>
      if String.eqb k k' then (k', patterns ++ [pattern]) :: rest
      else (k', patterns) :: push k pattern rest
  end.

(** The names an object literal inherits; what it inherits under them
    is a function or an object, and has no [push]. *)
Definition inherited (k : string) : bool :=
  existsb (String.eqb k)
    ["constructor"; "__defineGetter__"; "__defineSetter__"; "hasOwnProperty";
     "__lookupGetter__"; "__lookupSetter__"; "isPrototypeOf";
     "propertyIsEnumerable"; "toString"; "valueOf"; "__proto__";
     "toLocaleString"].

(** The reducer of lines 491-495. *)
Definition group (acc : Groups) (pattern : value) : Res Groups :=
  type <- get pattern "type" ;;
  let k := ToString type in
  match own k acc with
  | Some _ => Ok (push k pattern acc)
  | None =>
      if inherited k then Throw TypeError
      else Ok (acc ++ [(k, [pattern])])
  end.

Fixpoint group_from (acc : Groups) (patterns : list value) : Res Groups :=
  match patterns with
  | [] => Ok acc
  | pattern :: rest =>
      acc' <- group acc pattern ;;
      group_from acc' rest
  end.

Definition patternsByType (patterns : list value) : Res Groups :=
  group_from [] patterns.

(** A property name that is an array index: the decimal notation of an
    integer from 0 to 2^32 - 2. *)
Definition array_index (k : string) : option Z :=
  match all_digits 10 k with
  | Some n =>
      if (String.eqb (string_of_Z n) k && (n <? 2 ^ 32 - 1))%bool
      then Some n else None
  | None => None
  end.

Definition is_index (entry : string * list value) : bool :=
  match array_index (fst entry) with
  | Some _ => true
  | None => false
  end.

Definition index_of (entry : string * list value) : Z :=
  match array_index (fst entry) with
  | Some n => n
  | None => 0
  end.

Fixpoint insert_entry (e : string * list value) (sorted : Groups) : Groups :=
  match sorted with
  | [] => [e]
  | e' :: rest =>
      if index_of e <=? index_of e' then e :: e' :: rest
      else e' :: insert_entry e rest
  end.

(** [Object.entries(acc)]: the array indices in increasing order, then the
    other names in the order of their creation. *)
Definition Object_entries (acc : Groups) : Groups :=
  fold_right insert_entry [] (filter is_index acc)
  ++ filter (fun e => negb (is_index e)) acc.

(** The groups in the order they are rendered (line 497). *)
Definition rendered_groups (patterns : list value) : Res Groups :=
  byType <- patternsByType patterns ;;
  Ok (Object_entries byType).

(** The type a pattern is filed under. *)
Definition type_of (pattern : value) : string :=
  ToString (Records.field "type" pattern).

Definition has_type (k : string) (pattern : value) : bool :=
  String.eqb (type_of pattern) k.

(** A pattern the reducer can file: it is neither [null] nor
    [undefined], and its type is no inherited name. *)
Definition groupable (pattern : value) : bool :=
  match pattern with
  | VUndefined | VNull => false
  | _ => negb (inherited (type_of pattern))
  end.

(** A name that is not yet a property of the object. *)
Definition unseen (acc : Groups) (k : string) : bool :=
  negb (existsb (String.eqb k) (map fst acc)).


(** The names in the order of their first occurrence. *)
Fixpoint first_occurrences (names : list string) : list string :=
  match names with
  | [] => []
  | k :: rest =>
      k :: filter (fun k' => negb (String.eqb k' k)) (first_occurrences rest)
  end.

(** *** Liquidations (lines 573-596) *)

(** [(BigInt(v) / BigInt(1e18)).toString()]: the quotient of BigInts is
    truncated. *)
Definition whole_units (v : value) : Res string :=
  a <- BigInt v ;;
  b <- BigInt (VNum (Int (10 ^ 18))) ;;
  Ok (BigInt_toString (Z.quot a b)).

(** [v.slice(0, 10)] for a string or an array; no other value has the
    method. *)
Definition slice_10 (v : value) : Res value :=
  match v with
  | VStr s => Ok (VStr (substring 0 10 s))
  | VArr elems => Ok (VArr (slice 0 (Some 10) elems))
  | _ => Throw TypeError
  end.

(** One line of the top liquidations (lines 588-591): the value and the
    abbreviated hash. *)
Definition liquidation_line (liq : value) : Res (string * value) :=
  value <- get liq "value" ;;
  units <- whole_units value ;;
  txHash <- get liq "txHash" ;;
  short <- slice_10 txHash ;;
  Ok (units, short).

Definition top_liquidations (topLiquidations : list value)
  : Res (list (string * value)) :=
  map_res liquidation_line (slice 0 (Some 3) topLiquidations).

End Dashboard.

(** ** Ranges of block numbers *)

Module Range.
Import JS Records.

(** Every record of the list has a block number from [lo] to [hi], and
    both bounds are the block number of a record. *)
Definition spans (lo hi : Z) (l : list value) : Prop :=
  (exists b, In b l /\ key b = lo)
  /\ (exists b, In b l /\ key b = hi)
  /\ forall b, In b l -> lo <= key b <= hi.

(** A record with a positive integer block number. *)
Definition positive (b : value) : bool :=
  numbered b && (0 <? key b).

End Range.

(** ** More sample data *)

Module Samples.
Import JS Examples.

Definition b115 : value := record 115 2 1 0 "42000".
Definition b117 : value := record 117 1 0 0 "21000".

(** A row whose payload holds a [null] between two records. *)
Definition R4 : value := row 115 117 (VArr [b115; VNull; b117]).

(** A storage that holds that row only. *)
Definition damaged : World := {|
  pool_query := fun q _ =>
    match q with
    | RecentRows | AllData => Ok [R4]
    | RangeMetadata => Ok [metadata]
    | RowCovering => Ok []
    end;
  provider_getBlock := fun _ => Ok None;
  provider_call := fun _ _ => Throw (HostError "timeout");
  axios_get := fun _ => HttpFailed None
|}.

(** The storage and the chain as the diagnostic endpoints see them: three
    rows above the height minus 1000. *)
Definition monitored : Diagnostics.Services := {|
  Diagnostics.probe := fun q _ =>
    match q with
    | Diagnostics.SelectOne => Ok [VObj [("?column?", num 1)]]
    | Diagnostics.RecentCount => Ok [VObj [("count", VStr "3")]]
    | Diagnostics.LatestRow => Ok [malformed]
    end;
  Diagnostics.getBlockNumber := Ok (Int 1114)
|}.

Definition storage_down : Diagnostics.Services := {|
  Diagnostics.probe := fun _ _ => Throw (HostError "connection refused");
  Diagnostics.getBlockNumber := Ok (Int 1114)
|}.

(** The recent blocks of the scenario, as the dashboard holds them. *)
Definition held : list value := [b110; b105_R2; b105_R1; b101; b100].

Definition pattern (type address : string) : value :=
  VObj [("type", VStr type); ("address", VStr address)].

Definition swaps_a : value := pattern "high_swap_activity" "0xa1".
Definition arbitrage_b : value := pattern "arbitrage" "0xb2".
Definition swaps_c : value := pattern "high_swap_activity" "0xc3".
Definition misnamed : value := pattern "constructor" "0xd4".

Definition liquidation (amount txHash : string) : value :=
  VObj [("value", VStr amount); ("txHash", VStr txHash)].

(** Four liquidations: two and a half units, just below one unit, 2^65
    (nearly 37 units), and one unit. *)
Definition liquidations : list value :=
  [liquidation "2500000000000000000" "0x1111111111111111";
   liquidation "999999999999999999" "0x2222";
   liquidation "36893488147419103232" "0x3333333333333333";
   liquidation "1000000000000000000" "0x4444444444444444"].

Definition fallback_data : Dashboard.HypeTokenData := {|
  Dashboard.hypePrice := F64.of_Z 48;
  Dashboard.totalSupply := 1000000000;
  Dashboard.circulatingSupply := 333928180;
  Dashboard.marketCap := F64.of_Z 16028552640
|}.

Definition nothing_shown : Dashboard.Hype := {|
  Dashboard.hypeData := None;
  Dashboard.hypePriceHistory := []
|}.

End Samples.

(** * Properties *)

Section NumberFacts.
Import JS.

Lemma round53_small (z : Z) : Z.abs z < 2 ^ 53 -> round53 z = z.
Proof.
  intros Hz. unfold round53.
  destruct (Z.ltb_spec (Z.abs z) (2 ^ 53)); [reflexivity | lia].
Qed.

Lemma of_integer_small (z : Z) : Z.abs z < 2 ^ 53 -> of_integer z = Int z.
Proof.
  intros Hz. unfold of_integer. rewrite (round53_small z Hz).
  assert (Hpow : 2 ^ 53 < 2 ^ 1024) by (apply Z.pow_lt_mono_r; lia).
  destruct (Z.ltb_spec (Z.abs z) (2 ^ 1024)); [reflexivity | lia].
Qed.

(** Rounding keeps the sign. *)
Lemma round53_sign (z : Z) : Z.sgn (round53 z) = Z.sgn z.
Proof.
  unfold round53.
  destruct (Z.ltb_spec (Z.abs z) (2 ^ 53)) as [Hsmall | Hlarge];
    [reflexivity | ].
  cbv zeta.
  set (a := Z.abs z) in *.
  set (e := Z.log2 a - 52).
  assert (Ha : 0 < a) by (assert (0 < 2 ^ 53) by (apply Z.pow_pos_nonneg; lia); lia).
  assert (Hlog : 53 <= Z.log2 a).
  { apply Z.log2_le_pow2; [assumption | assumption]. }
  assert (He : 0 < 2 ^ e) by (apply Z.pow_pos_nonneg; lia).
  assert (Hq : 0 < a / 2 ^ e).
  { apply Z.div_str_pos. split; [assumption | ].
    transitivity (2 ^ Z.log2 a).
    - apply Z.pow_le_mono_r; lia.
    - apply Z.log2_spec. assumption. }
  set (q := a / 2 ^ e) in *.
  set (q' := if a mod 2 ^ e <? 2 ^ (e - 1) then q
             else if 2 ^ (e - 1) <? a mod 2 ^ e then q + 1
             else if Z.even q then q else q + 1).
  assert (Hq' : 0 < q').
  { unfold q'. destruct (_ <? _); [assumption | ].
    destruct (_ <? _); [lia | ]. destruct (Z.even q); lia. }
  rewrite Z.sgn_mul, Z.sgn_sgn.
  rewrite (Z.sgn_pos (q' * 2 ^ e)) by (apply Z.mul_pos_pos; assumption).
  apply Z.mul_1_r.
Qed.

Lemma of_integer_positive (z : Z) :
  num_lt (Int 0) (of_integer z) = (0 <? z).
Proof.
  unfold of_integer. pose proof (round53_sign z) as Hsign.
  destruct (Z.abs (round53 z) <? 2 ^ 1024).
  - cbn [num_lt].
    destruct (Z.ltb_spec 0 (round53 z)), (Z.ltb_spec 0 z);
      try reflexivity; lia.
  - destruct (0 <? z); reflexivity.
Qed.

Lemma num_add_small (x y : Z) :
  Z.abs (x + y) < 2 ^ 53 -> num_add (Int x) (Int y) = Int (x + y).
Proof. intros Hsum. cbn [num_add]. now apply of_integer_small. Qed.
End NumberFacts.

Section NormalizerFacts.
Import JS.
Variable P : Platform.

Lemma get_object (props : list (string * value)) (k : string) :
  get (VObj props) k =
  Ok (match lookup k props with Some x => x | None => VUndefined end).
Proof. unfold get. destruct (lookup k props); reflexivity. Qed.

Lemma truthy_and_isArray (v : value) :
  truthy (js_and v (VBool (Array_isArray v))) = Array_isArray v.
Proof.
  unfold js_and. destruct v as [ | | b | n | s | elems | props ];
    cbn [truthy Array_isArray]; try reflexivity.
  - destruct b; reflexivity.
  - destruct n as [z | | | ]; try reflexivity.
    destruct (z =? 0) eqn:Hz; cbn [negb truthy]; rewrite ?Hz; reflexivity.
  - destruct (String.eqb s EmptyString) eqn:Hs; cbn [negb truthy];
      rewrite ?Hs; reflexivity.
Qed.

Lemma by_shape_normalize (data : value) :
  try_catch (Server.by_shape data) (fun _ => Ok []) =
  Ok (Spec.normalize (Ok data)).
Proof.
  unfold Server.by_shape.
  destruct data as [ | | b | n | s | elems | props ]; try reflexivity.
  cbn [Spec.normalize Spec.blocks_array Spec.has_blockNumber].
  rewrite !get_object. cbn [bind]. rewrite truthy_and_isArray.
  destruct (lookup "blocks" props) as [blocks | ].
  - destruct blocks as [ | | b | n | s | elems | props' ];
      cbn [Array_isArray]; try reflexivity;
      destruct (lookup "blockNumber" props) as [[]|]; reflexivity.
  - cbn [Array_isArray].
    destruct (lookup "blockNumber" props) as [[]|]; reflexivity.
Qed.

Lemma parseBlockData_ok (payload : value) :
  Server.parseBlockData P payload = Ok (Spec.normalize (Spec.decode P payload)).
Proof.
  unfold Server.parseBlockData, Server.parseBlockData_body.
  destruct payload as [ | | b | n | s | elems | props ];
    try (cbn [typeof_string bind Spec.decode]; apply by_shape_normalize).
  cbn [typeof_string ToString Spec.decode].
  destruct (JSON_parse P s) as [data | e].
  - cbn [bind]. apply by_shape_normalize.
  - reflexivity.
Qed.

(** C2. For every payload [parseBlockData] returns, without throwing, the
    list the specification describes.  With the payload decoded if it is a
    text, and in the order of the tests: an object whose [blocks] field is
    an array gives that array, also when it has a [blockNumber] field; a
    bare array gives its elements; any other data gives the one-element
    list of itself if it is an object with a [blockNumber] field and the
    empty list if not; a text that does not decode gives the empty
    list. *)
Theorem parseBlockData_normalize (payload : value) :
  Server.parseBlockData P payload = Ok (Spec.normalize (Spec.decode P payload))
  /\ (forall data records,
        Spec.decode P payload = Ok data ->
        Spec.blocks_array data = Some records ->
        Server.parseBlockData P payload = Ok records)
  /\ (forall records,
        Spec.decode P payload = Ok (VArr records) ->
        Server.parseBlockData P payload = Ok records)
  /\ (forall data,
        Spec.decode P payload = Ok data ->
        Spec.blocks_array data = None ->
        Array_isArray data = false ->
        Server.parseBlockData P payload =
        Ok (if Spec.has_blockNumber data then [data] else []))
  /\ (forall e,
        Spec.decode P payload = Throw e ->
        Server.parseBlockData P payload = Ok []).
Proof.
  rewrite parseBlockData_ok.
  split; [reflexivity | ].
  split; [ | split; [ | split ]].
  - intros data records -> Hblocks. cbn [Spec.normalize]. now rewrite Hblocks.
  - now intros records ->.
  - intros data -> Hnone Harray. cbn [Spec.normalize]. rewrite Hnone.
    destruct data; try reflexivity. discriminate.
  - now intros e ->.
Qed.
End NormalizerFacts.

Section MergeFacts.
Import JS Records.
Variable P : Platform.

Lemma numbered_get (v : value) :
  numbered v = true -> get v "blockNumber" = Ok (VNum (Int (key v))).
Proof.
  unfold numbered, key, blockNumber_of, integer_field.
  destruct v as [ | | b | n | s | elems | props ]; try discriminate.
  rewrite get_object.
  destruct (lookup "blockNumber" props) as [[ | | b | [z | | | ] | s | l | l ] | ];
    try discriminate; reflexivity.
Qed.

Lemma numbered_defined (v : value) : numbered v = true -> is_undefined v = false.
Proof. destruct v; try reflexivity; discriminate. Qed.

Lemma compare_numbered (a b : value) :
  numbered a = true -> numbered b = true ->
  Server.by_blockNumber_desc P a b = Ok (of_integer (key b - key a)).
Proof.
  intros Ha Hb. unfold Server.by_blockNumber_desc.
  rewrite (numbered_get b Hb), (numbered_get a Ha). reflexivity.
Qed.

Lemma of_integer_number (z : Z) : of_integer z <> NaN.
Proof.
  unfold of_integer. destruct (_ <? _); [discriminate | ].
  destruct (0 <? z); discriminate.
Qed.

(** The sign of a difference survives its rounding. *)
Lemma not_after_difference (x y : Z) :
  not_after (of_integer (y - x)) = (y <=? x).
Proof.
  pose proof (of_integer_positive (y - x)) as Hsign.
  pose proof (of_integer_number (y - x)) as Hnumber.
  unfold not_after.
  destruct (of_integer (y - x)) as [d | | | ]; [ | contradiction | | ];
    rewrite Hsign;
    destruct (Z.ltb_spec 0 (y - x)), (Z.leb_spec y x); try reflexivity; lia.
Qed.

Lemma insert_numbered (x : value) (l : list value) :
  numbered x = true -> Forall (fun v => numbered v = true) l ->
  insert (Server.by_blockNumber_desc P) x l = Ok (insert_desc x l).
Proof.
  intros Hx Hl. induction Hl as [ | y rest Hy Hrest IH ]; [reflexivity | ].
  cbn [insert insert_desc]. rewrite (compare_numbered x y Hx Hy).
  cbn [bind]. rewrite not_after_difference.
  destruct (key y <=? key x); [reflexivity | ]. rewrite IH. reflexivity.
Qed.

Lemma insert_desc_numbered (x : value) (l : list value) :
  numbered x = true -> Forall (fun v => numbered v = true) l ->
  Forall (fun v => numbered v = true) (insert_desc x l).
Proof.
  intros Hx Hl. induction Hl as [ | y rest Hy Hrest IH ]; cbn [insert_desc].
  - constructor; [assumption | constructor].
  - destruct (key y <=? key x); repeat (constructor; try assumption).
Qed.

Lemma sort_desc_numbered (l : list value) :
  Forall (fun v => numbered v = true) l ->
  Forall (fun v => numbered v = true) (sort_desc l).
Proof.
  induction 1 as [ | x rest Hx Hrest IH ]; [constructor | ].
  cbn [sort_desc]. apply insert_desc_numbered; assumption.
Qed.

Lemma insertion_sort_numbered (l : list value) :
  Forall (fun v => numbered v = true) l ->
  insertion_sort (Server.by_blockNumber_desc P) l = Ok (sort_desc l).
Proof.
  induction 1 as [ | x rest Hx Hrest IH ]; [reflexivity | ].
  cbn [insertion_sort sort_desc]. rewrite IH. cbn [bind].
  apply insert_numbered; [assumption | apply sort_desc_numbered; assumption].
Qed.

Lemma numbered_all_defined (l : list value) :
  Forall (fun v => numbered v = true) l ->
  filter (fun v => negb (is_undefined v)) l = l /\ filter is_undefined l = [].
Proof.
  induction 1 as [ | x rest Hx Hrest [IHd IHu] ]; [split; reflexivity | ].
  cbn [filter]. rewrite (numbered_defined x Hx). cbn [negb].
  rewrite IHd, IHu. split; reflexivity.
Qed.

Lemma sort_numbered (l : list value) :
  Forall (fun v => numbered v = true) l ->
  sort (Server.by_blockNumber_desc P) l = Ok (sort_desc l).
Proof.
  intros Hl. unfold sort.
  destruct (numbered_all_defined l Hl) as [Hdef Hund].
  rewrite Hdef, Hund, (insertion_sort_numbered l Hl). cbn [bind].
  now rewrite List.app_nil_r.
Qed.

(** *** The pure sort *)

Lemma insert_desc_perm (x : value) (l : list value) :
  Permutation (x :: l) (insert_desc x l).
Proof.
  induction l as [ | y rest IH ]; cbn [insert_desc]; [reflexivity | ].
  destruct (key y <=? key x); [reflexivity | ].
  rewrite perm_swap. now apply perm_skip.
Qed.

Lemma sort_desc_perm (l : list value) : Permutation l (sort_desc l).
Proof.
  induction l as [ | x rest IH ]; cbn [sort_desc]; [constructor | ].
  rewrite <- insert_desc_perm. now apply perm_skip.
Qed.

Lemma insert_desc_descending (x : value) (l : list value) :
  descending l -> descending (insert_desc x l).
Proof.
  unfold descending. induction 1 as [ | y rest Hrest IH Hy ]; cbn [insert_desc].
  - repeat constructor.
  - destruct (Z.leb_spec (key y) (key x)) as [Hle | Hgt].
    + constructor; [constructor; assumption | ].
      constructor; [assumption | ].
      eapply Forall_impl; [ | exact Hy ]. cbn. intros; lia.
    + constructor; [assumption | ].
      eapply Permutation_Forall; [apply insert_desc_perm | ].
      constructor; [lia | assumption].
Qed.

Lemma sort_desc_descending (l : list value) : descending (sort_desc l).
Proof.
  induction l as [ | x rest IH ]; cbn [sort_desc].
  - constructor.
  - now apply insert_desc_descending.
Qed.

Lemma insert_desc_stable (n : Z) (x : value) (l : list value) :
  records_of_block n (insert_desc x l) = records_of_block n (x :: l).
Proof.
  unfold records_of_block.
  induction l as [ | y rest IH ]; cbn [insert_desc]; [reflexivity | ].
  destruct (Z.leb_spec (key y) (key x)) as [Hle | Hgt]; [reflexivity | ].
  cbn [filter] in *. rewrite IH.
  destruct (Z.eqb_spec (key x) n), (Z.eqb_spec (key y) n); try reflexivity; lia.
Qed.

Lemma sort_desc_stable (n : Z) (l : list value) :
  records_of_block n (sort_desc l) = records_of_block n l.
Proof.
  induction l as [ | x rest IH ]; cbn [sort_desc]; [reflexivity | ].
  rewrite insert_desc_stable. unfold records_of_block in *.
  cbn [filter]. now rewrite IH.
Qed.

Lemma descending_head (x : value) (rest : list value) (z : value) :
  descending (x :: rest) -> In z rest -> key z <= key x.
Proof.
  intros Hdesc Hin. inversion Hdesc as [ | ? ? _ Hall ]; subst.
  rewrite Forall_forall in Hall. now apply Hall.
Qed.

Lemma first_of_block (n : Z) (x : value) (group l : list value) :
  x :: group = records_of_block n l -> In x l /\ key x = n.
Proof.
  intros Heq.
  assert (Hin : In x (records_of_block n l)) by (rewrite <- Heq; now left).
  unfold records_of_block in Hin. apply filter_In in Hin as [Hin Hkey].
  split; [assumption | now apply Z.eqb_eq].
Qed.

(** Two lists in non-increasing order that show the records of every
    block number in the same order are the same list: what a stable sort
    returns does not depend on how it sorts. *)
Lemma descending_unique (l1 : list value) :
  forall l2,
    descending l1 -> descending l2 ->
    (forall n, records_of_block n l1 = records_of_block n l2) ->
    l1 = l2.
Proof.
  induction l1 as [ | x r1 IH ]; intros l2 Hd1 Hd2 Hsame.
  - destruct l2 as [ | y r2 ]; [reflexivity | ].
    specialize (Hsame (key y)). unfold records_of_block in Hsame.
    cbn [filter] in Hsame. rewrite Z.eqb_refl in Hsame. discriminate.
  - destruct l2 as [ | y r2 ].
    + specialize (Hsame (key x)). unfold records_of_block in Hsame.
      cbn [filter] in Hsame. rewrite Z.eqb_refl in Hsame. discriminate.
    + assert (Hkey : key x = key y).
      { destruct (Z.eq_dec (key x) (key y)) as [Heq | Hneq]; [assumption | ].
        pose proof (Hsame (key x)) as Hx. pose proof (Hsame (key y)) as Hy.
        unfold records_of_block in Hx, Hy. cbn [filter] in Hx, Hy.
        rewrite Z.eqb_refl in Hx, Hy.
        destruct (Z.eqb_spec (key y) (key x)) as [Heq' | _]; [lia | ].
        destruct (Z.eqb_spec (key x) (key y)) as [Heq' | _]; [lia | ].
        apply first_of_block in Hx as [Hx _].
        symmetry in Hy. apply first_of_block in Hy as [Hy _].
        pose proof (descending_head y r2 x Hd2 Hx).
        pose proof (descending_head x r1 y Hd1 Hy). lia. }
      assert (Hhead : x = y).
      { specialize (Hsame (key x)). unfold records_of_block in Hsame.
        cbn [filter] in Hsame. rewrite <- Hkey, Z.eqb_refl in Hsame.
        now injection Hsame. }
      subst y. f_equal. apply IH.
      * now inversion Hd1.
      * now inversion Hd2.
      * intros n. specialize (Hsame n). unfold records_of_block in *.
        cbn [filter] in Hsame.
        destruct (key x =? n); [now injection Hsame | assumption].
Qed.

Lemma stable_sort_unique (l sorted : list value) :
  descending sorted ->
  (forall n, records_of_block n sorted = records_of_block n l) ->
  sorted = sort_desc l.
Proof.
  intros Hdesc Hsame. apply descending_unique.
  - assumption.
  - apply sort_desc_descending.
  - intros n. now rewrite sort_desc_stable.
Qed.

Lemma slice_prefix {A : Type} (n : nat) (l : list A) :
  slice 0 (Some (Z.of_nat n)) l = firstn n l.
Proof.
  unfold slice. change (0 <? 0) with false. cbv iota.
  destruct (Z.ltb_spec (Z.of_nat n) 0) as [Hneg | _]; [lia | ].
  rewrite (Z.min_l 0) by lia. cbn [Z.to_nat skipn]. rewrite Z.sub_0_r.
  destruct (Nat.le_gt_cases n (List.length l)) as [Hle | Hgt].
  - rewrite Z.min_l, Z.max_l by lia. now rewrite Nat2Z.id.
  - rewrite Z.min_r, Z.max_l by lia. rewrite Nat2Z.id.
    rewrite firstn_all. symmetry. apply firstn_all2. lia.
Qed.

(** C1 (as the code has it). When every normalized record carries an
    integer block number, the merged result is the first 20 records of
    the concatenated records sorted by non-increasing block number; the
    sort keeps every record, and the records of one block number stay in
    the order the rows were processed. *)
Theorem mergeRecent_stable_sort (rows allBlocks : list value) :
  Server.flatten_rows P rows [] = Ok allBlocks ->
  Forall (fun v => numbered v = true) allBlocks ->
  exists sorted,
    Server.mergeRecent P rows = Ok (firstn 20 sorted)
    /\ Permutation allBlocks sorted
    /\ descending sorted
    /\ forall n, records_of_block n sorted = records_of_block n allBlocks.
Proof.
  intros Hflat Hnum. exists (sort_desc allBlocks).
  split; [ | split; [apply sort_desc_perm | split;
    [apply sort_desc_descending | intros n; apply sort_desc_stable]]].
  unfold Server.mergeRecent. rewrite Hflat. cbn [bind].
  rewrite (sort_numbered allBlocks Hnum). cbn [bind].
  now rewrite (slice_prefix 20).
Qed.

(** The handler answers with the merged list, and with a 500 response
    when the storage fails. *)
Lemma blocks_recent_serves (w : World) (rows result : list value) :
  pool_query w RecentRows [] = Ok rows ->
  Server.mergeRecent P rows = Ok result ->
  run w (Server.blocks_recent P) =
  (Server.res_json (Server.Json (VArr result)), [EPoolQuery RecentRows []]).
Proof.
  intros Hrows Hmerge. unfold Server.blocks_recent. cbn [run].
  now rewrite Hrows; cbn [bind]; rewrite Hmerge.
Qed.

Lemma blocks_recent_storage_down (w : World) (e : exn) :
  pool_query w RecentRows [] = Throw e ->
  fst (run w (Server.blocks_recent P)) =
  Server.res_status_json 500 (Server.ErrorJson "Database error" (Some e)).
Proof.
  intros Hrows. unfold Server.blocks_recent. cbn [run fst].
  now rewrite Hrows.
Qed.
End MergeFacts.

Section AggregateFacts.
Import JS Records.
Variable P : Platform.

Lemma get_field (props : list (string * value)) (k : string) :
  get (VObj props) k = Ok (field k (VObj props)).
Proof. apply get_object. Qed.

Lemma counted_gt (v : value) (n : Z) :
  counted v = Some n -> js_gt P v (Int 0) = (0 <? n).
Proof.
  destruct v as [ | | b | [z | | | ] | s | l | l ]; try discriminate;
    intros [= <-]; reflexivity.
Qed.

Lemma counted_add (a : number) (v : value) (n : Z) :
  counted v = Some n ->
  js_add P (VNum a) (js_or v (num 0)) = VNum (num_add a (Int n)).
Proof.
  destruct v as [ | | b | [z | | | ] | s | l | l ]; try discriminate;
    intros [= <-]; try reflexivity.
  unfold js_or. cbn [truthy].
  destruct (Z.eqb_spec z 0) as [-> | Hz]; reflexivity.
Qed.

(** One step of the fold, in the arithmetic of the program. *)
Lemma count_block_numbers (tx cl ca : number) (gas pb : Z) (b : value) :
  well_typed b = true ->
  Server.count_block P (totals_from tx cl ca gas pb) b =
  Ok (if active b
      then totals_from (num_add tx (Int (count_of "hyperEVMTxns" b)))
                       (num_add cl (Int (count_of "crossLayerCalls" b)))
                       (num_add ca (Int (count_of "hyperCoreActions" b)))
                       (gas + gas_of b)
                       (pb + 1)
      else totals_from tx cl ca gas pb).
Proof.
  destruct b as [ | | b | n | s | l | props ]; try discriminate.
  unfold well_typed, active, count_of, gas_of, is_counted, Server.count_block.
  rewrite !get_field. cbn [bind].
  destruct (counted (field "hyperEVMTxns" (VObj props))) as [n | ] eqn:Htx;
    [ | discriminate ].
  rewrite (counted_gt _ n Htx). cbn [andb].
  destruct (0 <? n) eqn:Hactive; [ | reflexivity ].
  cbn [negb orb].
  destruct (counted (field "crossLayerCalls" (VObj props))) as [c | ] eqn:Hcl;
    [ | discriminate ].
  destruct (counted (field "hyperCoreActions" (VObj props))) as [h | ] eqn:Hca;
    [ | discriminate ].
  destruct (BigInt (js_or (field "gasUsed" (VObj props)) (num 0))) as [g | e];
    [ | discriminate ].
  intros _. cbn [bind totals_from Server.totalTransactions
    Server.totalCrossLayerCalls Server.totalGasUsed
    Server.totalHyperCoreActions Server.processedBlocks].
  rewrite (counted_add tx _ n Htx), (counted_add cl _ c Hcl),
    (counted_add ca _ h Hca).
  reflexivity.
Qed.

Lemma add_counts_step (k : string) (a : number) (b : value) (l : list value) :
  add_counts k a (b :: l) = add_counts k (num_add a (Int (count_of k b))) l.
Proof. reflexivity. Qed.

(** The fold, in the arithmetic of the program: only the records with
    transactions are added up. *)
Lemma count_blocks_numbers (blocks : list value) :
  Forall (fun b => well_typed b = true) blocks ->
  forall tx cl ca gas pb,
    Server.count_blocks P (totals_from tx cl ca gas pb) blocks =
    Ok (totals_from
          (add_counts "hyperEVMTxns" tx (filter active blocks))
          (add_counts "crossLayerCalls" cl (filter active blocks))
          (add_counts "hyperCoreActions" ca (filter active blocks))
          (gas + sum_of gas_of (filter active blocks))
          (pb + Z.of_nat (List.length (filter active blocks)))).
Proof.
  induction 1 as [ | b rest Hb Hrest IH ]; intros tx cl ca gas pb.
  - cbn. now rewrite !Z.add_0_r.
  - cbn [Server.count_blocks filter]. rewrite (count_block_numbers _ _ _ _ _ b Hb).
    cbn [bind]. destruct (active b).
    + rewrite IH, !add_counts_step.
      change (sum_of gas_of (b :: filter active rest))
        with (gas_of b + sum_of gas_of (filter active rest)).
      cbn [List.length]. rewrite Nat2Z.inj_succ, !Z.add_assoc.
      replace (pb + 1 + Z.of_nat (List.length (filter active rest)))
        with (pb + Z.succ (Z.of_nat (List.length (filter active rest)))) by lia.
      reflexivity.
    + apply IH.
Qed.

Lemma magnitudes_nonneg (f : value -> Z) (l : list value) :
  0 <= sum_of (fun b => Z.abs (f b)) l.
Proof.
  induction l as [ | b rest IH ]; [reflexivity | ].
  change (sum_of (fun b => Z.abs (f b)) (b :: rest))
    with (Z.abs (f b) + sum_of (fun b => Z.abs (f b)) rest).
  lia.
Qed.

(** Below 2^53 the sums of the program are the sums of the integers. *)
Lemma add_counts_exact (k : string) (l : list value) :
  forall a,
    Z.abs a + sum_of (fun b => Z.abs (count_of k b)) l < 2 ^ 53 ->
    add_counts k (Int a) l = Int (a + sum_of (count_of k) l).
Proof.
  induction l as [ | b rest IH ]; intros a Hbound.
  - cbn. now rewrite Z.add_0_r.
  - change (sum_of (fun b => Z.abs (count_of k b)) (b :: rest))
      with (Z.abs (count_of k b)
            + sum_of (fun b => Z.abs (count_of k b)) rest) in Hbound.
    change (sum_of (count_of k) (b :: rest))
      with (count_of k b + sum_of (count_of k) rest).
    pose proof (magnitudes_nonneg (count_of k) rest) as Hrest.
    rewrite add_counts_step, num_add_small by lia.
    rewrite IH by lia. f_equal. lia.
Qed.

Lemma exact_sum_from_zero (k : string) (l : list value) :
  exact_sum k l -> add_counts k (Int 0) l = Int (sum_of (count_of k) l).
Proof.
  intros Hexact. rewrite add_counts_exact; [reflexivity | exact Hexact].
Qed.

Lemma totals_over_exact (l : list value) :
  exact_counts l -> totals_over l = totals_of l.
Proof.
  intros (Htx & Hcl & Hca). unfold totals_over, totals_of, totals_from, num.
  now rewrite !exact_sum_from_zero.
Qed.

Lemma count_blocks_app (l1 l2 : list value) (t : Server.Totals) :
  Server.count_blocks P t (l1 ++ l2) =
  (t' <- Server.count_blocks P t l1 ;; Server.count_blocks P t' l2).
Proof.
  revert t. induction l1 as [ | b rest IH ]; intros t; [reflexivity | ].
  cbn [Server.count_blocks app].
  destruct (Server.count_block P t b) as [t' | e]; [apply IH | reflexivity].
Qed.

Lemma get_ok_field (v : value) (k : string) (x : value) :
  get v k = Ok x -> x = field k v.
Proof.
  destruct v as [ | | b | n | s | l | props ]; try discriminate;
    try (intros [= <-]; reflexivity).
  rewrite get_field. now intros [= <-].
Qed.

Lemma flatten_rows_records (rows : list value) :
  forall acc allBlocks,
    Server.flatten_rows P rows acc = Ok allBlocks ->
    allBlocks = acc ++ records_of_rows P rows.
Proof.
  induction rows as [ | row rest IH ]; intros acc allBlocks Hflat.
  - injection Hflat as <-. cbn. now rewrite List.app_nil_r.
  - cbn [Server.flatten_rows] in Hflat.
    destruct (get row "data") as [data | e] eqn:Hdata; [ | discriminate ].
    cbn [bind] in Hflat. rewrite parseBlockData_ok in Hflat.
    cbn [bind] in Hflat. apply IH in Hflat.
    rewrite (get_ok_field _ _ _ Hdata) in Hflat.
    cbn [records_of_rows flat_map]. now rewrite List.app_assoc.
Qed.

Lemma aggregate_flattened (rows : list value) :
  forall acc allBlocks t,
    Server.flatten_rows P rows acc = Ok allBlocks ->
    Server.aggregate_from P t rows =
    Server.count_blocks P t (records_of_rows P rows).
Proof.
  induction rows as [ | row rest IH ]; intros acc allBlocks t Hflat.
  - reflexivity.
  - cbn [Server.flatten_rows Server.aggregate_from] in *.
    destruct (get row "data") as [data | e] eqn:Hdata; [ | discriminate ].
    cbn [bind] in *. rewrite parseBlockData_ok in *. cbn [bind] in *.
    rewrite (get_ok_field _ _ _ Hdata) in *.
    cbn [records_of_rows flat_map]. rewrite count_blocks_app.
    destruct (Server.count_blocks P t _) as [t' | e]; [ | reflexivity ].
    cbn [bind]. eapply IH. exact Hflat.
Qed.

Lemma count_of_absent (k : string) (props : list (string * value)) :
  lookup k props = None -> count_of k (VObj props) = 0.
Proof. unfold count_of, field. now intros ->. Qed.

Lemma gas_of_absent (props : list (string * value)) :
  lookup "gasUsed" props = None -> gas_of (VObj props) = 0.
Proof. unfold gas_of, field. now intros ->. Qed.

Lemma not_active_skipped (t : Server.Totals) (props : list (string * value))
    (n : Z) :
  lookup "hyperEVMTxns" props = Some (num n) -> n <= 0 ->
  Server.count_block P t (VObj props) = Ok t.
Proof.
  intros Hfield Hn. unfold Server.count_block. rewrite get_object, Hfield.
  cbn [bind]. unfold js_gt, num_gt, num_lt. cbn [ToNumber num].
  destruct (Z.ltb_spec 0 n); [lia | reflexivity].
Qed.

(** The totals of the rows, in the arithmetic of the program. *)
Lemma aggregate_over (rows allBlocks : list value) :
  Server.flatten_rows P rows [] = Ok allBlocks ->
  Forall (fun b => well_typed b = true) allBlocks ->
  Server.aggregate P rows = Ok (totals_over (filter active allBlocks)).
Proof.
  intros Hflat Htyped. unfold Server.aggregate.
  rewrite (aggregate_flattened rows [] allBlocks _ Hflat).
  rewrite (flatten_rows_records rows [] allBlocks Hflat) in *.
  cbn [app] in *.
  exact (count_blocks_numbers _ Htyped (Int 0) (Int 0) (Int 0) 0 0).
Qed.

Lemma aggregate_totals (rows allBlocks : list value) :
  Server.flatten_rows P rows [] = Ok allBlocks ->
  Forall (fun b => well_typed b = true) allBlocks ->
  exact_counts (filter active allBlocks) ->
  Server.aggregate P rows = Ok (totals_of (filter active allBlocks)).
Proof.
  intros Hflat Htyped Hexact.
  rewrite (aggregate_over rows allBlocks Hflat Htyped).
  now rewrite totals_over_exact.
Qed.

(** C3. The totals of the stats query are taken over the normalized
    records with a positive [hyperEVMTxns] only, and [processedBlocks] is
    the number of those records: the counts are added in doubles, the gas
    in integers, and where the counts add up below 2^53 the totals are
    the sums of the integers.  A record whose [hyperEVMTxns] is zero
    leaves every total as it was; and in a record that is counted a
    missing [crossLayerCalls], [hyperCoreActions] or [gasUsed] adds
    zero. *)
Theorem aggregate_active_records (rows allBlocks : list value) :
  Server.flatten_rows P rows [] = Ok allBlocks ->
  Forall (fun b => well_typed b = true) allBlocks ->
  Server.aggregate P rows = Ok (totals_over (filter active allBlocks))
  /\ (exact_counts (filter active allBlocks) ->
      Server.aggregate P rows = Ok (totals_of (filter active allBlocks)))
  /\ (forall t props,
        lookup "hyperEVMTxns" props = Some (num 0) ->
        Server.count_block P t (VObj props) = Ok t)
  /\ (forall k props,
        lookup k props = None -> count_of k (VObj props) = 0)
  /\ (forall props,
        lookup "gasUsed" props = None -> gas_of (VObj props) = 0).
Proof.
  intros Hflat Htyped.
  split; [now apply aggregate_over | ].
  split; [now apply aggregate_totals | ].
  split; [ | split ].
  - intros t props Hzero. apply (not_active_skipped t props 0 Hzero). lia.
  - apply count_of_absent.
  - apply gas_of_absent.
Qed.

(** The handler answers with the totals of the fold and the percentage
    computed from them. *)
Lemma stats_serves (w : World) (metadata : value) (others rows : list value)
    (t : Server.Totals) (b : Server.Body) :
  pool_query w RangeMetadata [] = Ok (metadata :: others) ->
  pool_query w AllData [] = Ok rows ->
  Server.aggregate P rows = Ok t ->
  Server.stats_json P metadata t = Ok b ->
  run w (Server.stats P) =
  (Server.res_json b, [EPoolQuery RangeMetadata []; EPoolQuery AllData []]).
Proof.
  intros Hmeta Hrows Htotals Hbody. unfold Server.stats. cbn [run].
  rewrite Hmeta. cbn [run nth]. rewrite Hrows. cbn [bind].
  now rewrite Htotals; cbn [bind]; rewrite Hbody.
Qed.
End AggregateFacts.

Section DecimalFacts.
Import JS Digits.

Lemma read_digits_uint (d : Decimal.uint) :
  forall acc seen,
    read_digits 10 (NilEmpty.string_of_uint d) acc seen =
    (uint_value d acc, (seen || negb (is_nil d))%bool, EmptyString).
Proof.
  induction d; intros acc seen;
    cbn [NilEmpty.string_of_uint read_digits uint_value is_nil negb];
    [ now rewrite orb_false_r | .. ];
    (change (digit_value 10 _) with (Some 0)
     || change (digit_value 10 _) with (Some 1)
     || change (digit_value 10 _) with (Some 2)
     || change (digit_value 10 _) with (Some 3)
     || change (digit_value 10 _) with (Some 4)
     || change (digit_value 10 _) with (Some 5)
     || change (digit_value 10 _) with (Some 6)
     || change (digit_value 10 _) with (Some 7)
     || change (digit_value 10 _) with (Some 8)
     || change (digit_value 10 _) with (Some 9));
    cbv iota; rewrite IHd; now rewrite orb_true_r.
Qed.

Lemma uint_value_pos (d : Decimal.uint) :
  forall p, uint_value d (Zpos p) = Zpos (Pos.of_uint_acc d p).
Proof.
  induction d; intros p; cbn [uint_value Pos.of_uint_acc];
    [ reflexivity | .. ];
    rewrite <- IHd; f_equal; lia.
Qed.

Lemma uint_value_zero (d : Decimal.uint) :
  uint_value d 0 = Z.of_N (Pos.of_uint d).
Proof.
  induction d; cbn [uint_value Pos.of_uint Z.of_N];
    [ reflexivity | exact IHd | .. ];
    rewrite <- uint_value_pos; reflexivity.
Qed.

Lemma all_digits_positive (p : positive) :
  all_digits 10 (NilEmpty.string_of_uint (Pos.to_uint p)) = Some (Zpos p).
Proof.
  unfold all_digits. rewrite read_digits_uint, uint_value_zero.
  rewrite DecimalPos.Unsigned.of_to. cbn [orb Z.of_N].
  destruct (Pos.to_uint p) eqn:Hd;
    [ now destruct (DecimalPos.Unsigned.to_uint_nonnil p) | .. ]; reflexivity.
Qed.

Lemma no_space_uint (d : Decimal.uint) :
  no_space (NilEmpty.string_of_uint d) = true.
Proof. induction d; cbn [NilEmpty.string_of_uint no_space]; auto. Qed.

Lemma rev_string_twice (s : string) :
  forall acc acc',
    rev_string (rev_string s acc) acc' = rev_string acc (s ++ acc')%string.
Proof.
  induction s as [ | c rest IH ]; intros acc acc'; [reflexivity | ].
  cbn [rev_string]. rewrite IH. reflexivity.
Qed.

Lemma append_empty (s : string) : (s ++ EmptyString)%string = s.
Proof. induction s as [ | c rest IH ]; cbn; [ | rewrite IH ]; reflexivity. Qed.

Lemma no_space_rev (s : string) :
  forall acc, no_space (rev_string s acc) = (no_space s && no_space acc)%bool.
Proof.
  induction s as [ | c rest IH ]; intros acc; [reflexivity | ].
  cbn [rev_string no_space]. rewrite IH. cbn [no_space].
  destruct (is_white_space c), (no_space rest), (no_space acc); reflexivity.
Qed.

Lemma trim_start_no_space (s : string) : no_space s = true -> trim_start s = s.
Proof.
  destruct s as [ | c rest ]; [reflexivity | ].
  cbn [no_space trim_start]. destruct (is_white_space c); [discriminate | reflexivity].
Qed.

Lemma trim_no_space (s : string) : no_space s = true -> trim s = s.
Proof.
  intros Hs. unfold trim. rewrite (trim_start_no_space s Hs).
  rewrite trim_start_no_space.
  - rewrite rev_string_twice. cbn [rev_string]. apply append_empty.
  - rewrite no_space_rev, Hs. reflexivity.
Qed.

Lemma StringToBigInt_digits (d : Decimal.uint) :
  StringToBigInt (NilEmpty.string_of_uint d) =
  if is_nil d then Some 0
  else all_digits 10 (NilEmpty.string_of_uint d).
Proof.
  unfold StringToBigInt. rewrite (trim_no_space _ (no_space_uint d)).
  destruct d as [ | u | u | u | u | u | u | u | u | u | u ];
    try reflexivity.
  destruct u; reflexivity.
Qed.

Lemma string_of_uint_positive (p : positive) :
  NilZero.string_of_uint (Pos.to_uint p) =
  NilEmpty.string_of_uint (Pos.to_uint p)
  /\ is_nil (Pos.to_uint p) = false.
Proof.
  destruct (Pos.to_uint p) eqn:Hd;
    [ now destruct (DecimalPos.Unsigned.to_uint_nonnil p) | .. ];
    split; reflexivity.
Qed.

(** Reading back the decimal notation of an integer gives the integer,
    whatever its size. *)
Lemma StringToBigInt_string_of_Z (z : Z) :
  StringToBigInt (string_of_Z z) = Some z.
Proof.
  unfold string_of_Z.
  destruct z as [ | p | p ]; [reflexivity | | ];
    cbn [Z.to_int NilZero.string_of_int];
    destruct (string_of_uint_positive p) as [-> Hnil].
  - rewrite StringToBigInt_digits, Hnil. apply all_digits_positive.
  - unfold StringToBigInt. rewrite trim_no_space.
    + rewrite all_digits_positive. reflexivity.
    + cbn [no_space]. now rewrite no_space_uint.
Qed.

Lemma string_of_Z_truthy (z : Z) : truthy (VStr (string_of_Z z)) = true.
Proof.
  unfold string_of_Z.
  destruct z as [ | p | p ]; [reflexivity | | reflexivity].
  cbn [Z.to_int NilZero.string_of_int].
  destruct (string_of_uint_positive p) as [-> Hnil].
  destruct (Pos.to_uint p); [discriminate | .. ]; reflexivity.
Qed.

Lemma BigInt_string_of_Z (z : Z) : BigInt (VStr (string_of_Z z)) = Ok z.
Proof.
  unfold BigInt. cbn [ToPrimitive]. now rewrite StringToBigInt_string_of_Z.
Qed.

Lemma parseInt_digits (d : Decimal.uint) :
  is_nil d = false ->
  parseInt (NilEmpty.string_of_uint d) = of_integer (uint_value d 0).
Proof.
  intros Hd. unfold parseInt.
  rewrite (trim_start_no_space _ (no_space_uint d)).
  pose proof (read_digits_uint d 0 false) as Hread.
  destruct d as [ | u | u | u | u | u | u | u | u | u | u ];
    [ discriminate | .. ];
    cbn [NilEmpty.string_of_uint] in *;
    try (cbv beta iota zeta; rewrite Hread; reflexivity).
  destruct u; cbn [NilEmpty.string_of_uint] in *;
    cbn -[read_digits of_integer]; rewrite Hread; reflexivity.
Qed.

(** [parseInt] reads the decimal notation of an integer back, as the
    nearest double. *)
Lemma parseInt_string_of_Z (z : Z) : parseInt (string_of_Z z) = of_integer z.
Proof.
  unfold string_of_Z.
  destruct z as [ | p | p ]; [reflexivity | | ];
    cbn [Z.to_int NilZero.string_of_int];
    destruct (string_of_uint_positive p) as [-> Hnil].
  - rewrite (parseInt_digits _ Hnil), uint_value_zero.
    now rewrite DecimalPos.Unsigned.of_to.
  - pose proof (read_digits_uint (Pos.to_uint p) 0 false) as Hread.
    rewrite uint_value_zero, DecimalPos.Unsigned.of_to, Hnil in Hread.
    unfold parseInt. cbn [trim_start is_white_space].
    change (JS.is_white_space "-") with false. cbv beta iota zeta.
    destruct (Pos.to_uint p) as [ | u | u | u | u | u | u | u | u | u | u ];
      [ discriminate | .. ];
      cbn [NilEmpty.string_of_uint] in *;
      try (cbv beta iota zeta; rewrite Hread; reflexivity).
    destruct u; cbn [NilEmpty.string_of_uint] in *;
      cbn -[read_digits of_integer]; rewrite Hread; reflexivity.
Qed.

(** Below 2^53 the integer is read back exactly. *)
Lemma parseInt_decimal (z : Z) :
  Z.abs z < 2 ^ 53 -> parseInt (string_of_Z z) = Int z.
Proof.
  intros Hz. rewrite parseInt_string_of_Z. now apply of_integer_small.
Qed.
End DecimalFacts.

Section HundredthsFacts.
Import JS Digits.

Lemma little_uint_tenfold (p : positive) (r : Z) :
  0 <= r <= 9 ->
  Pos.to_little_uint (Z.to_pos (10 * Zpos p + r)) =
  cons_digit r (Pos.to_little_uint p).
Proof.
  intros Hr.
  change (Pos.to_little_uint p) with (DecimalPos.Unsigned.to_lu (Npos p)).
  pose proof (DecimalPos.Unsigned.to_ldec_tenfold p) as Hten.
  assert (Hn : forall k : N,
             DecimalPos.Unsigned.to_lu (N.succ k) =
             Decimal.Little.succ (DecimalPos.Unsigned.to_lu k))
    by apply DecimalPos.Unsigned.to_lu_succ.
  assert (Hcases : r = 0 \/ r = 1 \/ r = 2 \/ r = 3 \/ r = 4 \/ r = 5
                   \/ r = 6 \/ r = 7 \/ r = 8 \/ r = 9) by lia.
  assert (Hpos : forall k : N,
             (0 < k)%N ->
             Pos.to_little_uint (Z.to_pos (Z.of_N k)) =
             DecimalPos.Unsigned.to_lu k).
  { intros [ | q ] Hk; [lia | reflexivity]. }
  destruct Hcases as [-> | [-> | [-> | [-> | [-> | [-> | [-> | [-> | [-> | ->]]]]]]]]].
  - replace (10 * Zpos p + 0) with (Z.of_N (10 * Npos p)) by lia.
    rewrite Hpos by lia. exact Hten.
  - replace (10 * Zpos p + 1) with (Z.of_N (N.succ (10 * Npos p))) by lia.
    rewrite Hpos by lia. rewrite !Hn, Hten. reflexivity.
  - replace (10 * Zpos p + 2)
      with (Z.of_N (N.succ (N.succ (10 * Npos p)))) by lia.
    rewrite Hpos by lia. rewrite !Hn, Hten. reflexivity.
  - replace (10 * Zpos p + 3)
      with (Z.of_N (N.succ (N.succ (N.succ (10 * Npos p))))) by lia.
    rewrite Hpos by lia. rewrite !Hn, Hten. reflexivity.
  - replace (10 * Zpos p + 4)
      with (Z.of_N (N.succ (N.succ (N.succ (N.succ (10 * Npos p)))))) by lia.
    rewrite Hpos by lia. rewrite !Hn, Hten. reflexivity.
  - replace (10 * Zpos p + 5)
      with (Z.of_N (N.succ (N.succ (N.succ (N.succ (N.succ (10 * Npos p)))))))
      by lia.
    rewrite Hpos by lia. rewrite !Hn, Hten. reflexivity.
  - replace (10 * Zpos p + 6)
      with (Z.of_N (N.succ (N.succ (N.succ (N.succ (N.succ
              (N.succ (10 * Npos p)))))))) by lia.
    rewrite Hpos by lia. rewrite !Hn, Hten. reflexivity.
  - replace (10 * Zpos p + 7)
      with (Z.of_N (N.succ (N.succ (N.succ (N.succ (N.succ
              (N.succ (N.succ (10 * Npos p))))))))) by lia.
    rewrite Hpos by lia. rewrite !Hn, Hten. reflexivity.
  - replace (10 * Zpos p + 8)
      with (Z.of_N (N.succ (N.succ (N.succ (N.succ (N.succ
              (N.succ (N.succ (N.succ (10 * Npos p)))))))))) by lia.
    rewrite Hpos by lia. rewrite !Hn, Hten. reflexivity.
  - replace (10 * Zpos p + 9)
      with (Z.of_N (N.succ (N.succ (N.succ (N.succ (N.succ
              (N.succ (N.succ (N.succ (N.succ (10 * Npos p)))))))))))
      by lia.
    rewrite Hpos by lia. rewrite !Hn, Hten. reflexivity.
Qed.

Lemma append_assoc (a b c : string) :
  ((a ++ b) ++ c)%string = (a ++ (b ++ c))%string.
Proof. induction a as [ | x a IH ]; cbn; [ | rewrite IH ]; reflexivity. Qed.

Lemma string_of_revapp (l : Decimal.uint) :
  forall acc,
    NilEmpty.string_of_uint (Decimal.revapp l acc) =
    (NilEmpty.string_of_uint (Decimal.revapp l Decimal.Nil)
     ++ NilEmpty.string_of_uint acc)%string.
Proof.
  induction l; intros acc; cbn [Decimal.revapp]; [reflexivity | .. ];
    rewrite IHl; symmetry; rewrite IHl; rewrite append_assoc; reflexivity.
Qed.

Lemma string_of_cons_digit (r : Z) :
  NilEmpty.string_of_uint (cons_digit r Decimal.Nil) =
  String (digit_char r) EmptyString.
Proof.
  destruct r as [ | p | p ]; try reflexivity.
  do 4 (destruct p as [p | p | ]; try reflexivity).
Qed.

Lemma revapp_cons_digit (r : Z) (l acc : Decimal.uint) :
  Decimal.revapp (cons_digit r l) acc = Decimal.revapp l (cons_digit r acc).
Proof.
  destruct r as [ | p | p ]; try reflexivity.
  do 4 (destruct p as [p | p | ]; try reflexivity).
Qed.

(** The decimal notation of [10 * q + r] is that of [q] followed by the
    digit [r]. *)
Lemma string_of_Z_tenfold (q r : Z) :
  0 < q -> 0 <= r <= 9 ->
  string_of_Z (10 * q + r) =
  (string_of_Z q ++ String (digit_char r) EmptyString)%string.
Proof.
  intros Hq Hr. destruct q as [ | p | p ]; try lia.
  unfold string_of_Z.
  assert (Hpos : 10 * Zpos p + r = Zpos (Z.to_pos (10 * Zpos p + r))) by lia.
  rewrite Hpos. cbn [Z.to_int NilZero.string_of_int].
  destruct (string_of_uint_positive p) as [-> _].
  destruct (string_of_uint_positive (Z.to_pos (10 * Zpos p + r))) as [-> _].
  unfold Pos.to_uint, Decimal.rev.
  rewrite (little_uint_tenfold p r Hr), revapp_cons_digit, string_of_revapp.
  now rewrite string_of_cons_digit.
Qed.

Lemma length_append (a b : string) :
  String.length (a ++ b) = (String.length a + String.length b)%nat.
Proof. induction a as [ | x a IH ]; cbn; [ | rewrite IH ]; reflexivity. Qed.

Lemma substring_prefix (a b : string) :
  substring 0 (String.length a) (a ++ b) = a.
Proof.
  induction a as [ | x a IH ]; cbn [String.length append substring].
  - destruct b; reflexivity.
  - now rewrite IH.
Qed.

Lemma substring_whole (b : string) : substring 0 (String.length b) b = b.
Proof.
  induction b as [ | x b IH ]; cbn [String.length substring];
    [ | rewrite IH ]; reflexivity.
Qed.

Lemma substring_suffix (a b : string) :
  substring (String.length a) (String.length b) (a ++ b) = b.
Proof.
  induction a as [ | x a IH ]; cbn [String.length append substring].
  - apply substring_whole.
  - exact IH.
Qed.

Lemma string_of_Z_nonempty (z : Z) : (0 < String.length (string_of_Z z))%nat.
Proof.
  pose proof (string_of_Z_truthy z) as Htruthy. cbn [truthy] in Htruthy.
  destruct (string_of_Z z); [discriminate | cbn; lia].
Qed.

Lemma string_of_digit (r : Z) :
  0 <= r <= 9 -> string_of_Z r = String (digit_char r) EmptyString.
Proof.
  intros Hr.
  assert (Hcases : r = 0 \/ r = 1 \/ r = 2 \/ r = 3 \/ r = 4 \/ r = 5
                   \/ r = 6 \/ r = 7 \/ r = 8 \/ r = 9) by lia.
  destruct Hcases as [-> | [-> | [-> | [-> | [-> | [-> | [-> | [-> | [-> | ->]]]]]]]]];
    reflexivity.
Qed.

(** [place_point 2] prints a number of hundredths: the integer part, a
    point and two digits. *)
Lemma place_point_hundredths (n : Z) :
  0 <= n -> F64.place_point 2 n = hundredths n.
Proof.
  intros Hn. unfold F64.place_point, hundredths.
  assert (Hb : 0 <= n / 10 mod 10 <= 9)
    by (pose proof (Z.mod_pos_bound (n / 10) 10); lia).
  assert (Hc : 0 <= n mod 10 <= 9) by (pose proof (Z.mod_pos_bound n 10); lia).
  assert (Ha : 0 <= n / 100) by (apply Z.div_pos; lia).
  assert (Hsplit : n = 10 * (10 * (n / 100) + n / 10 mod 10) + n mod 10).
  { pose proof (Z.div_mod n 10 ltac:(lia)).
    pose proof (Z.div_mod (n / 10) 10 ltac:(lia)).
    assert (Hdiv : n / 100 = n / 10 / 10)
      by (change 100 with (10 * 10); now rewrite Z.div_div by lia).
    lia. }
  remember (n / 100) as a eqn:Ea.
  remember (n / 10 mod 10) as b eqn:Eb.
  remember (n mod 10) as c eqn:Ec.
  clear Ea Eb Ec. subst n.
  destruct (Z.eq_dec a 0) as [-> | Ha0].
  - destruct (Z.eq_dec b 0) as [-> | Hb0].
    + replace (10 * (10 * 0 + 0) + c) with c by lia.
      rewrite (string_of_digit c Hc). reflexivity.
    + replace (10 * (10 * 0 + b) + c) with (10 * b + c) by lia.
      rewrite (string_of_Z_tenfold b c) by lia.
      rewrite (string_of_digit b Hb). reflexivity.
  - rewrite (string_of_Z_tenfold (10 * a + b) c) by lia.
    rewrite (string_of_Z_tenfold a b) by lia.
    rewrite append_assoc. cbn [append].
    set (whole := string_of_Z a).
    set (cents := String (digit_char b) (String (digit_char c) EmptyString)).
    pose proof (string_of_Z_nonempty a) as Hwhole. fold whole in Hwhole.
    rewrite !length_append.
    replace (3 - (String.length whole + String.length cents))%nat with 0%nat
      by (cbn [String.length cents]; lia).
    cbn [F64.zeros append String.length Nat.add].
    replace (String.length whole + String.length cents - 2)%nat
      with (String.length whole) by (cbn [String.length cents]; lia).
    rewrite substring_prefix.
    change 2%nat with (String.length cents) at 1.
    now rewrite substring_suffix.
Qed.
End HundredthsFacts.
Section GasFacts.
Import JS Records.
Variable P : Platform.

Lemma gas_of_decimal (b : value) (g : Z) :
  field "gasUsed" b = VStr (string_of_Z g) -> gas_of b = g.
Proof.
  intros Hgas. unfold gas_of, js_or.
  now rewrite Hgas, string_of_Z_truthy, BigInt_string_of_Z.
Qed.

Lemma sum_of_decimal_gas (records : list value) (gs : list Z) :
  Forall2 (fun b g => field "gasUsed" b = VStr (string_of_Z g)) records gs ->
  sum_of gas_of records = fold_right Z.add 0 gs.
Proof.
  induction 1 as [ | b g records gs Hb Hrest IH ]; [reflexivity | ].
  change (sum_of gas_of (b :: records))
    with (gas_of b + sum_of gas_of records).
  cbn [fold_right]. now rewrite IH, (gas_of_decimal b g Hb).
Qed.

(** The response of the stats query, from the metadata row and the
    totals of the fold. *)
Lemma stats_reports (w : World) (stats_row : list (string * value))
    (others rows : list value) (t : Server.Totals) :
  pool_query w RangeMetadata [] = Ok (VObj stats_row :: others) ->
  pool_query w AllData [] = Ok rows ->
  Server.aggregate P rows = Ok t ->
  run w (Server.stats P) =
  (Server.res_json
     (Server.StatsJson
        (parseInt (ToString (field "total_records" (VObj stats_row))))
        (parseInt (ToString (field "first_block" (VObj stats_row))))
        (parseInt (ToString (field "last_block" (VObj stats_row))))
        (Server.totalTransactions t) (Server.totalCrossLayerCalls t)
        (Server.totalHyperCoreActions t)
        (BigInt_toString (Server.totalGasUsed t))
        (Server.processedBlocks t)
        (Server.crossLayerPercentage P (Server.totalCrossLayerCalls t)
           (Server.totalTransactions t))),
   [EPoolQuery RangeMetadata []; EPoolQuery AllData []]).
Proof.
  intros Hmeta Hrows Htotals. unfold Server.stats. cbn [run].
  rewrite Hmeta. cbn [run nth]. rewrite Hrows. cbn [bind].
  rewrite Htotals. cbn [bind]. unfold Server.stats_json.
  rewrite !get_field. reflexivity.
Qed.

(** C6. The gas total is a sum of integers of any size, and it is what
    the stats response reports: when the counted records carry their gas
    in decimal notation, whatever their counts are, the total of the fold
    is exactly the sum of those integers, the [totalGasUsed] of the
    response is the decimal notation of that sum, and this string reads
    back as the sum. *)
Theorem gas_total_exact (w : World) (stats_row : list (string * value))
    (others rows allBlocks : list value) (gs : list Z) :
  pool_query w RangeMetadata [] = Ok (VObj stats_row :: others) ->
  pool_query w AllData [] = Ok rows ->
  Server.flatten_rows P rows [] = Ok allBlocks ->
  Forall (fun b => well_typed b = true) allBlocks ->
  Forall2 (fun b g => field "gasUsed" b = VStr (string_of_Z g))
          (filter active allBlocks) gs ->
  exists t totalRecords firstBlock lastBlock,
    Server.aggregate P rows = Ok t
    /\ Server.totalGasUsed t = fold_right Z.add 0 gs
    /\ run w (Server.stats P) =
       (Server.res_json
          (Server.StatsJson totalRecords firstBlock lastBlock
             (Server.totalTransactions t) (Server.totalCrossLayerCalls t)
             (Server.totalHyperCoreActions t)
             (string_of_Z (fold_right Z.add 0 gs))
             (Server.processedBlocks t)
             (Server.crossLayerPercentage P (Server.totalCrossLayerCalls t)
                (Server.totalTransactions t))),
        [EPoolQuery RangeMetadata []; EPoolQuery AllData []])
    /\ StringToBigInt (string_of_Z (fold_right Z.add 0 gs))
       = Some (fold_right Z.add 0 gs).
Proof.
  intros Hmeta Hrows Hflat Htyped Hgas.
  pose proof (aggregate_over P rows allBlocks Hflat Htyped) as Htotals.
  exists (totals_over (filter active allBlocks)).
  do 3 eexists.
  split; [exact Htotals | ].
  split; [exact (sum_of_decimal_gas _ _ Hgas) | ].
  split; [ | apply StringToBigInt_string_of_Z ].
  rewrite (stats_reports w stats_row others rows _ Hmeta Hrows Htotals).
  unfold BigInt_toString. cbn [totals_over totals_from Server.totalGasUsed].
  rewrite (sum_of_decimal_gas _ _ Hgas). reflexivity.
Qed.
End GasFacts.

Section SummaryFacts.
Import JS Records Summary.
Variable P : Platform.

Lemma BigInt_or_zero (v : value) (g : Z) :
  BigInt v = Ok g -> BigInt (js_or v (num 0)) = Ok g.
Proof.
  unfold js_or.
  destruct v as [ | | [ | ] | [z | | | ] | s | l | l ]; cbn [truthy];
    try discriminate; try (intros H; exact H).
  - destruct (Z.eqb_spec z 0) as [-> | Hz]; intros H; exact H.
  - destruct (String.eqb_spec s EmptyString) as [-> | Hs]; intros H; exact H.
Qed.


(** One step of the reducer, in the arithmetic of the program. *)
Lemma summarize_numbers (recentBlocks : list value) (r f l : value)
    (tx cl : number) (gas : Z) (b : value) :
  summable b = true ->
  App.summarize P recentBlocks (summary_of r f l tx cl gas) b =
  Ok (summary_of
        (num (Z.of_nat (List.length recentBlocks)))
        (VNum (Math_min (ToNumber P (js_or f (VNum Infinity)))
                        (ToNumber P (field "blockNumber" b))))
        (VNum (Math_max (ToNumber P (js_or l (num 0)))
                        (ToNumber P (field "blockNumber" b))))
        (num_add tx (Int (count_of "hyperEVMTxns" b)))
        (num_add cl (Int (count_of "crossLayerCalls" b)))
        (gas + gas_of b)).
Proof.
  destruct b as [ | | x | n | s | elems | props ]; try discriminate.
  unfold summable, is_integer, count_of, gas_of, App.summarize.
  rewrite !get_field.
  change (get (summary_of r f l tx cl gas) "firstBlock") with (Ok f).
  change (get (summary_of r f l tx cl gas) "lastBlock") with (Ok l).
  change (get (summary_of r f l tx cl gas) "totalTransactions")
    with (Ok (VNum tx)).
  change (get (summary_of r f l tx cl gas) "totalCrossLayerCalls")
    with (Ok (VNum cl)).
  change (get (summary_of r f l tx cl gas) "totalGasUsed")
    with (Ok (VStr (string_of_Z gas))).
  cbn [bind].
  destruct (field "hyperEVMTxns" (VObj props)) as [ | | x | [n | | | ] | s | l0 | l0 ];
    try discriminate.
  destruct (field "crossLayerCalls" (VObj props)) as [ | | x | [c | | | ] | s | l0 | l0 ];
    try discriminate.
  cbn [andb counted].
  destruct (is_counted (field "hyperCoreActions" (VObj props))); [ | discriminate ].
  destruct (BigInt (field "gasUsed" (VObj props))) as [g | e] eqn:Hgas;
    [ | discriminate ].
  intros _. rewrite (BigInt_or_zero _ g Hgas).
  unfold js_or at 1. rewrite string_of_Z_truthy, BigInt_string_of_Z.
  cbn [bind]. reflexivity.
Qed.

(** The reducer over the records held, in the arithmetic of the
    program: every record is added. *)
Lemma reduce_numbers (recentBlocks blocks : list value) :
  Forall (fun b => summable b = true) blocks ->
  forall r f l tx cl gas,
  exists r' f' l',
    App.reduce (App.summarize P recentBlocks) blocks
      (summary_of r f l tx cl gas) =
    Ok (summary_of r' f' l'
          (add_counts "hyperEVMTxns" tx blocks)
          (add_counts "crossLayerCalls" cl blocks)
          (gas + sum_of gas_of blocks)).
Proof.
  induction 1 as [ | b rest Hb Hrest IH ]; intros r f l tx cl gas.
  - exists r, f, l. cbn. now rewrite Z.add_0_r.
  - cbn [App.reduce].
    rewrite (summarize_numbers recentBlocks r f l tx cl gas b Hb).
    cbn [bind].
    destruct (IH (num (Z.of_nat (List.length recentBlocks)))
                (VNum (Math_min (ToNumber P (js_or f (VNum Infinity)))
                                (ToNumber P (field "blockNumber" b))))
                (VNum (Math_max (ToNumber P (js_or l (num 0)))
                                (ToNumber P (field "blockNumber" b))))
                (num_add tx (Int (count_of "hyperEVMTxns" b)))
                (num_add cl (Int (count_of "crossLayerCalls" b)))
                (gas + gas_of b))
      as (r2 & f2 & l2 & Hrest').
    exists r2, f2, l2. rewrite Hrest', !add_counts_step.
    change (sum_of gas_of (b :: rest)) with (gas_of b + sum_of gas_of rest).
    now rewrite Z.add_assoc.
Qed.

Lemma filter_all {A : Type} (f : A -> bool) (l : list A) :
  Forall (fun x => f x = true) l -> filter f l = l.
Proof.
  induction 1 as [ | x rest Hx Hrest IH ]; [reflexivity | ].
  cbn [filter]. now rewrite Hx, IH.
Qed.




End SummaryFacts.

Section WindowFacts.
Import JS.

Lemma slice_suffix {A : Type} (n : nat) (l : list A) :
  (0 < n)%nat ->
  slice (- Z.of_nat n) None l = skipn (List.length l - n) l.
Proof.
  intros Hn. unfold slice.
  destruct (Z.ltb_spec (- Z.of_nat n) 0) as [_ | Hge]; [ | lia ].
  set (len := Z.of_nat (List.length l)).
  assert (Hk : Z.to_nat (Z.max (len + - Z.of_nat n) 0) = (List.length l - n)%nat)
    by (subst len; lia).
  rewrite Hk. apply firstn_all2. rewrite length_skipn. subst len. lia.
Qed.

Lemma appendSample_suffix (prev : list App.Sample) (sample : App.Sample) :
  App.appendSample prev sample =
  skipn (List.length prev + 1 - 30) (prev ++ [sample]).
Proof.
  unfold App.appendSample. change (-30) with (- Z.of_nat 30).
  rewrite slice_suffix by lia. now rewrite length_app.
Qed.

Lemma appendSample_length (prev : list App.Sample) (sample : App.Sample) :
  List.length (App.appendSample prev sample) =
  Nat.min (List.length prev + 1) 30.
Proof.
  rewrite appendSample_suffix, length_skipn, length_app. cbn [List.length]. lia.
Qed.

Lemma skipn_past {A : Type} (dropped rest : list A) (m : nat) :
  skipn (List.length dropped + m) (dropped ++ rest) = skipn m rest.
Proof.
  induction dropped as [ | x dropped IH ]; [reflexivity | exact IH].
Qed.

Lemma history_after_suffix (samples : list App.Sample) :
  forall start,
    (List.length start <= 30)%nat ->
    App.history_after samples start =
    skipn (List.length (start ++ samples) - 30) (start ++ samples).
Proof.
  induction samples as [ | s rest IH ]; intros start Hstart.
  - cbn [App.history_after fold_left]. rewrite List.app_nil_r.
    replace (List.length start - 30)%nat with 0%nat by lia. reflexivity.
  - cbn [App.history_after fold_left].
    change (fold_left App.appendSample rest (App.appendSample start s))
      with (App.history_after rest (App.appendSample start s)).
    rewrite IH by (rewrite appendSample_length; lia).
    rewrite appendSample_suffix.
    replace (start ++ s :: rest) with ((start ++ [s]) ++ rest)
      by (now rewrite <- List.app_assoc).
    destruct (Nat.le_gt_cases 30 (List.length start)) as [Hfull | Hroom].
    + assert (Hlen : List.length start = 30%nat) by lia.
      destruct start as [ | oldest kept ]; [discriminate | ].
      rewrite Hlen. cbn [Nat.add Nat.sub skipn app].
      set (window := (kept ++ [s]) ++ rest).
      assert (Hwindow : (30 <= List.length window)%nat).
      { subst window. rewrite !length_app. cbn [List.length] in *. lia. }
      cbn [List.length].
      replace (S (List.length window) - 30)%nat
        with (S (List.length window - 30)) by lia.
      reflexivity.
    + replace (List.length start + 1 - 30)%nat with 0%nat by lia.
      reflexivity.
Qed.

(** C8. A price history of at most 30 samples stays one: a new sample
    goes to the end, the series grows by one while it holds fewer than
    30 samples, and once it holds 30 the oldest sample leaves; after any
    run of samples the history is the last 30 of all that arrived, in
    their order of arrival. *)
Theorem appendSample_window (prev : list App.Sample) (sample : App.Sample) :
  (List.length prev <= 30)%nat ->
  (List.length (App.appendSample prev sample) <= 30)%nat
  /\ ((List.length prev < 30)%nat ->
      App.appendSample prev sample = prev ++ [sample])
  /\ (List.length prev = 30%nat ->
      App.appendSample prev sample = tl prev ++ [sample])
  /\ (forall samples,
        App.history_after samples prev =
        skipn (List.length (prev ++ samples) - 30) (prev ++ samples)).
Proof.
  intros Hprev. split; [rewrite appendSample_length; lia | ].
  split; [ | split ].
  - intros Hroom. rewrite appendSample_suffix.
    replace (List.length prev + 1 - 30)%nat with 0%nat by lia. reflexivity.
  - intros Hfull. rewrite appendSample_suffix, Hfull.
    destruct prev as [ | oldest kept ]; [discriminate | reflexivity].
  - intros samples. now apply history_after_suffix.
Qed.
End WindowFacts.

Section PriceFacts.

Lemma fails_throws (answer : Res string) :
  Oracle.fails answer -> exists e, Server.getHypePrice_body answer = Throw e.
Proof.
  unfold Server.getHypePrice_body.
  intros [[e ->] | [(raw & e & -> & Hdecode) | (raw & v & e & -> & Hdecode & Hfit)]].
  - now exists e.
  - exists e. cbn [bind]. now rewrite Hdecode.
  - exists e. cbn [bind]. rewrite Hdecode. cbn [bind]. now rewrite Hfit.
Qed.

(** C7. Whatever the oracle answers at each invocation, [getHypePrice]
    hands a price to its caller and throws nothing; at an invocation
    where the oracle read fails, by a failed call, an answer that does
    not decode or a price that does not fit, the price is the configured
    fallback, so a run of failing invocations returns the fallback every
    time. *)
Theorem getHypePrice_fallback (invocations : list World) :
  Forall (fun w =>
            exists price,
              fst (run w Server.getHypePrice) = Ok price
              /\ (Oracle.fails (Oracle.answer_of w) ->
                  price = Server.fallback_price))
         invocations.
Proof.
  apply Forall_forall. intros w _.
  unfold Server.getHypePrice, Oracle.answer_of. cbn [run fst].
  destruct (Server.getHypePrice_body (provider_call w Server.spotPx
                                        Ethers.encoded_spot_index))
    as [price | e] eqn:Hbody.
  - exists price. split; [reflexivity | ].
    intros Hfails. apply fails_throws in Hfails as [e He]. congruence.
  - exists Server.fallback_price. split; [reflexivity | reflexivity].
Qed.
End PriceFacts.

Section PercentageFacts.
Import JS Records Rounding.
Variable P : Platform.

Lemma scaled_nearest_hundredths (m : positive) (e : Z) :
  nearest_hundredths (F64.scaled_nearest 2 m e) m e.
Proof.
  unfold nearest_hundredths, F64.scaled_nearest.
  change (10 ^ Z.of_nat 2) with 100.
  destruct (Z.leb_spec 0 e) as [Hpos | Hneg]; [lia | ].
  assert (Hpow : 0 < 2 ^ (- e)) by (apply Z.pow_pos_nonneg; lia).
  set (k := 2 ^ (- e)) in *.
  pose proof (Z.div_mod (2 * Zpos m * 100 + k) (2 * k) ltac:(lia)) as Hdiv.
  pose proof (Z.mod_pos_bound (2 * Zpos m * 100 + k) (2 * k) ltac:(lia)) as Hmod.
  set (n := (2 * Zpos m * 100 + k) / (2 * k)) in *.
  nia.
Qed.

Lemma scaled_nearest_nonneg (m : positive) (e : Z) :
  0 <= F64.scaled_nearest 2 m e.
Proof.
  unfold F64.scaled_nearest. change (10 ^ Z.of_nat 2) with 100.
  destruct (Z.leb_spec 0 e) as [Hpos | Hneg].
  - assert (0 < 2 ^ e) by (apply Z.pow_pos_nonneg; lia). nia.
  - assert (0 < 2 ^ (- e)) by (apply Z.pow_pos_nonneg; lia).
    apply Z.div_pos; lia.
Qed.

(** C9 (as the code has it). The stats response carries the percentage
    of the totals of the fold.  With no transactions counted it is the
    string "0", which is the case of an empty set of rows, where the
    totals are zero and the gas total prints as "0".  With transactions
    counted it is [toFixed(2)] of the double the program computes as
    [calls / transactions * 100]: the decimal notation, with two digits
    after the point, of the number of hundredths nearest to that double,
    the larger on a tie. *)
Theorem crossLayerPercentage_rounded (w : World)
    (stats_row : list (string * value)) (others rows : list value)
    (t : Server.Totals) (c tx : Z) :
  pool_query w RangeMetadata [] = Ok (VObj stats_row :: others) ->
  pool_query w AllData [] = Ok rows ->
  Server.aggregate P rows = Ok t ->
  Server.totalCrossLayerCalls t = num c ->
  Server.totalTransactions t = num tx ->
  exists totalRecords firstBlock lastBlock crossLayerPercentage,
    run w (Server.stats P) =
      (Server.res_json
         (Server.StatsJson totalRecords firstBlock lastBlock
            (num tx) (num c) (Server.totalHyperCoreActions t)
            (BigInt_toString (Server.totalGasUsed t))
            (Server.processedBlocks t) crossLayerPercentage),
       [EPoolQuery RangeMetadata []; EPoolQuery AllData []])
    /\ (tx <= 0 -> crossLayerPercentage = "0")
    /\ (0 < tx ->
        crossLayerPercentage =
        F64.toFixed (exponent_notation P) 2 (percentage c tx))
    /\ (forall s m e,
          0 < tx ->
          percentage c tx = S754_finite s m e ->
          F64.at_least_1e21 m e = false ->
          exists n,
            0 <= n
            /\ nearest_hundredths n m e
            /\ crossLayerPercentage =
               ((if s then "-" else EmptyString) ++ Digits.hundredths n)%string)
    /\ (forall s,
          0 < tx ->
          percentage c tx = S754_zero s ->
          crossLayerPercentage = "0.00")
    /\ (rows = [] ->
        t = Server.no_totals
        /\ crossLayerPercentage = "0"
        /\ BigInt_toString (Server.totalGasUsed t) = "0").
Proof.
  intros Hmeta Hrows Htotals Hcalls Htransactions.
  do 3 eexists.
  exists (Server.crossLayerPercentage P (num c) (num tx)).
  split.
  { rewrite (stats_reports P w stats_row others rows t Hmeta Hrows Htotals).
    now rewrite Hcalls, Htransactions. }
  unfold Server.crossLayerPercentage, js_gt, num_gt, num_lt.
  cbn [ToNumber num].
  split; [ | split; [ | split; [ | split ]]].
  - intros Ht. destruct (Z.ltb_spec 0 tx); [lia | reflexivity].
  - intros Ht. destruct (Z.ltb_spec 0 tx); [reflexivity | lia].
  - intros s m e Ht Hdouble Hsmall. exists (F64.scaled_nearest 2 m e).
    pose proof (scaled_nearest_nonneg m e) as Hnonneg.
    split; [exact Hnonneg | ].
    split; [apply scaled_nearest_hundredths | ].
    destruct (Z.ltb_spec 0 tx); [ | lia ].
    change (F64.mul (F64.div (F64.of_number (Int c)) (F64.of_number (Int tx)))
              (F64.of_Z 100)) with (percentage c tx).
    rewrite Hdouble. unfold F64.toFixed. rewrite Hsmall.
    now rewrite (place_point_hundredths _ Hnonneg).
  - intros s Ht Hdouble. destruct (Z.ltb_spec 0 tx); [ | lia ].
    change (F64.mul (F64.div (F64.of_number (Int c)) (F64.of_number (Int tx)))
              (F64.of_Z 100)) with (percentage c tx).
    rewrite Hdouble. reflexivity.
  - intros ->. cbn in Htotals. injection Htotals as <-.
    cbn in Htransactions. injection Htransactions as <-.
    repeat split.
Qed.
End PercentageFacts.

Section LookupFacts.
Import JS.
Variable P : Platform.

Lemma floor_special (x : F64.f64) :
  (F64.is_nan x || F64.is_infinite x)%bool = true -> F64.Math_floor x = x.
Proof. destruct x; try discriminate; reflexivity. Qed.

Lemma div_by_zero (x : F64.f64) :
  (F64.is_nan (F64.div x (F64.of_Z 0))
   || F64.is_infinite (F64.div x (F64.of_Z 0)))%bool = true.
Proof. destruct x as [s | s | | s m e]; reflexivity. Qed.

(** C10. The record synthesized from a block of the chain carries a
    guarded average.  Every block the provider returns is answered with
    status 200 and a record whose [avgGasPerTx] is the number 0 when the
    block has no transactions, where the division itself, by a count of
    zero, would have given [NaN] or an infinity, and the floor of the gas
    divided by the positive count of transactions otherwise; the other
    fields are the number and the timestamp of the block, the count of
    its transactions, its gas in decimal notation, and zeros. *)
Theorem avgGasPerTx_guarded (w : World) (blockNum : number)
    (blockchainBlock : Ethers.ChainBlock) :
  provider_getBlock w blockNum = Ok (Some blockchainBlock) ->
  let count := Z.of_nat (List.length (Ethers.transactions blockchainBlock)) in
  let gas :=
    F64.of_number
      (parseInt (Ethers.toString (Ethers.gasUsed blockchainBlock))) in
  exists avgGasPerTx,
    run w (Server.chain_fallback blockNum) =
      (Server.res_json
         (Server.SynthesizedBlock
            (Ethers.number blockchainBlock) (Ethers.timestamp blockchainBlock)
            0 count 0 (Ethers.toString (Ethers.gasUsed blockchainBlock)) []
            avgGasPerTx "0" 0),
       [EProviderGetBlock blockNum])
    /\ (Ethers.transactions blockchainBlock = [] ->
        avgGasPerTx = S754_zero false)
    /\ (Ethers.transactions blockchainBlock <> [] ->
        0 < count
        /\ avgGasPerTx = F64.Math_floor (F64.div gas (F64.of_Z count)))
    /\ (Z.abs (Ethers.gasUsed blockchainBlock) < 2 ^ 53 ->
        gas = F64.of_Z (Ethers.gasUsed blockchainBlock))
    /\ (let unguarded := F64.Math_floor (F64.div gas (F64.of_Z 0)) in
        (F64.is_nan unguarded || F64.is_infinite unguarded)%bool = true).
Proof.
  intros Hblock count gas.
  exists (Server.avgGasPerTx blockchainBlock).
  split.
  { cbn [Server.chain_fallback run]. now rewrite Hblock. }
  unfold Server.avgGasPerTx. fold count. fold gas.
  split; [ | split; [ | split ] ].
  - intros Hnone. unfold count. rewrite Hnone. reflexivity.
  - intros Hsome. unfold count.
    destruct (Ethers.transactions blockchainBlock) as [ | tx rest ];
      [contradiction | ].
    split; [cbn [List.length]; lia | ].
    destruct (Z.ltb_spec 0 (Z.of_nat (List.length (tx :: rest))));
      [reflexivity | cbn [List.length] in *; lia].
  - intros Hsmall. unfold gas, Ethers.toString.
    now rewrite (parseInt_decimal _ Hsmall).
  - rewrite floor_special; apply div_by_zero.
Qed.

Lemma find_block_NaN (blocks : list value) :
  Forall (fun b => Records.numbered b = true) blocks ->
  Server.find_block blocks NaN = Ok VUndefined.
Proof.
  unfold Server.find_block.
  induction 1 as [ | b rest Hb Hrest IH ]; [reflexivity | ].
  cbn [find]. rewrite (numbered_get b Hb). cbn [bind strict_eq_num num_eq].
  exact IH.
Qed.

(** C5 (what the code does). No text is turned away as an invalid block
    number.  The backend sends its query to the storage before anything
    else, whatever the text: a text that is no number reaches the storage
    as [NaN].  The frontend, for a text that is no number and is not
    empty, asks the backend for the block [NaN] and never reports an
    invalid block number. *)
Theorem non_numeric_lookup_reaches_collaborators
    (blockNumber : string) (recentBlocks : list value) (w : World) :
  (exists later,
     snd (run w (Server.block_by_number P blockNumber)) =
     EPoolQuery RowCovering [VNum (parseInt blockNumber)] :: later)
  /\ (parseInt blockNumber = NaN ->
      blockNumber <> EmptyString ->
      Forall (fun b => Records.numbered b = true) recentBlocks ->
      exists outcome,
        snd (run w (App.searchBlock blockNumber recentBlocks)) =
        [ESetLoading true;
         EAxiosGet "http://localhost:3001/api/blocks/NaN";
         outcome;
         ESetLoading false]
        /\ outcome <> EAlert "Invalid block number").
Proof.
  split.
  - unfold Server.block_by_number. cbn [run].
    destruct (run w _) as [response later]. now exists later.
  - intros Hnan Hnonempty Hblocks. unfold App.searchBlock.
    rewrite Hnan, (find_block_NaN recentBlocks Hblocks).
    destruct blockNumber as [ | c rest ]; [contradiction | ].
    cbn [truthy String.eqb negb run number_to_string].
    change (App.API_URL ++ "/api/blocks/" ++ "NaN")%string
      with "http://localhost:3001/api/blocks/NaN".
    destruct (axios_get w "http://localhost:3001/api/blocks/NaN")
      as [data | [status | ]].
    + exists (ESetSearchResult data). split; [reflexivity | discriminate].
    + destruct (Z.eq_dec status 404) as [-> | Hother].
      * exists (EAlert "Block not found"). split; [reflexivity | discriminate].
      * exists (EAlert "Error searching block").
        split; [ | discriminate ].
        destruct status as [ | p | p ]; try reflexivity.
        do 9 (destruct p as [p | p | ]; try reflexivity).
        contradiction.
    + exists (EAlert "Error searching block"). split; [reflexivity | discriminate].
Qed.
End LookupFacts.

(** ** The properties at the sample data *)

Section SampleRuns.
Import JS Records Summary Examples.

Lemma parseBlockData_normalize_witness :
  Server.parseBlockData platform (field "data" R1) = Ok [b100; b101; b105_R1]
  /\ Server.parseBlockData platform (field "data" R2) = Ok [b105_R2; b110]
  /\ Server.parseBlockData platform b110 = Ok [b110]
  /\ Server.parseBlockData platform (num 7) = Ok []
  /\ Server.parseBlockData platform (field "data" malformed) = Ok [].
Proof.
  split; [ | split; [ | split; [ | split ]]].
  - destruct (parseBlockData_normalize platform (field "data" R1))
      as (_ & Hwrapper & _).
    now apply (Hwrapper (field "data" R1)).
  - destruct (parseBlockData_normalize platform (field "data" R2))
      as (_ & _ & Harray & _).
    now apply Harray.
  - destruct (parseBlockData_normalize platform b110)
      as (_ & _ & _ & Hrecord & _).
    now apply (Hrecord b110).
  - destruct (parseBlockData_normalize platform (num 7))
      as (_ & _ & _ & Hrecord & _).
    now apply (Hrecord (num 7)).
  - destruct (parseBlockData_normalize platform (field "data" malformed))
      as (_ & _ & _ & _ & Hthrow).
    now apply (Hthrow SyntaxError).
Defined.

Lemma mergeRecent_scenario :
  Server.mergeRecent platform [R2; R1] =
  Ok [b110; b105_R2; b105_R1; b101; b100].
Proof. reflexivity. Qed.

(** C1, as worded, fails: the two records of block 105 both stay in the
    merged result, so the result is not strictly descending. *)
Lemma mergeRecent_keeps_duplicates :
  ~ Stated.merged_without_duplicates platform.
Proof.
  intros Hstated.
  pose proof (Hstated [R2; R1] _ mergeRecent_scenario) as Hsorted.
  inversion Hsorted as [ | first rest Hrest Hfirst ]; subst.
  inversion Hrest as [ | second rest' Hrest' Hsecond ]; subst.
  inversion Hsecond as [ | third rest'' Hlt Hothers ]; subst.
  vm_compute in Hlt. discriminate.
Qed.

Lemma mergeRecent_stable_sort_witness :
  Server.flatten_rows platform [R2; R1] [] =
    Ok [b105_R2; b110; b100; b101; b105_R1]
  /\ exists sorted,
       Server.mergeRecent platform [R2; R1] = Ok (firstn 20 sorted)
       /\ Permutation [b105_R2; b110; b100; b101; b105_R1] sorted
       /\ descending sorted
       /\ forall n,
            records_of_block n sorted =
            records_of_block n [b105_R2; b110; b100; b101; b105_R1].
Proof.
  split; [reflexivity | ].
  apply (mergeRecent_stable_sort platform [R2; R1]
           [b105_R2; b110; b100; b101; b105_R1]);
    [reflexivity | repeat constructor].
Defined.

(** The stats fold over the scenario, a row with an idle and a sparse
    record, and a row that does not decode. *)
Lemma aggregate_scenario :
  Server.aggregate platform [R2; R1; R3; malformed] =
  Ok {| Server.totalTransactions := num 21;
        Server.totalCrossLayerCalls := num 4;
        Server.totalGasUsed := 315000;
        Server.totalHyperCoreActions := num 4;
        Server.processedBlocks := 6 |}.
Proof. reflexivity. Qed.

Lemma aggregate_active_records_witness :
  Server.flatten_rows platform [R2; R1; R3; malformed] [] =
    Ok [b105_R2; b110; b100; b101; b105_R1; idle; sparse]
  /\ exact_counts [b105_R2; b110; b100; b101; b105_R1; sparse]
  /\ Server.aggregate platform [R2; R1; R3; malformed] =
     Ok (totals_over [b105_R2; b110; b100; b101; b105_R1; sparse])
  /\ Server.aggregate platform [R2; R1; R3; malformed] =
     Ok (totals_of [b105_R2; b110; b100; b101; b105_R1; sparse]).
Proof.
  assert (Hexact : exact_counts [b105_R2; b110; b100; b101; b105_R1; sparse])
    by (repeat split).
  split; [reflexivity | ].
  split; [exact Hexact | ].
  destruct (aggregate_active_records platform [R2; R1; R3; malformed]
              [b105_R2; b110; b100; b101; b105_R1; idle; sparse])
    as (Hover & Hsums & _); [reflexivity | repeat constructor | ].
  split; [exact Hover | exact (Hsums Hexact)].
Defined.

(** Beyond 2^53 the totals are those of the additions of the program: a
    record of 2^53 transactions followed by two records of one
    transaction each adds up to 2^53, not to 2^53 + 2. *)
Lemma aggregate_rounds_beyond_2_53 :
  Server.aggregate platform
    [row 1 3 (VArr [record 1 (2 ^ 53) 0 0 "0"; record 2 1 0 0 "0";
                    record 3 1 0 0 "0"])] =
  Ok {| Server.totalTransactions := num (2 ^ 53);
        Server.totalCrossLayerCalls := num 0;
        Server.totalGasUsed := 0;
        Server.totalHyperCoreActions := num 0;
        Server.processedBlocks := 3 |}.
Proof. vm_compute. reflexivity. Qed.



(** Two records of 2^64 gas add up to 2^65, and 2^128 is read and
    printed digit for digit. *)
Lemma gas_total_two_to_the_65 :
  exists t,
    Server.aggregate platform [R64] = Ok t
    /\ Server.totalGasUsed t = 2 ^ 65
    /\ BigInt_toString (Server.totalGasUsed t) = "36893488147419103232".
Proof.
  eexists. split; [reflexivity | ]. split; reflexivity.
Qed.

Lemma gas_two_to_the_128 :
  BigInt (VStr "340282366920938463463374607431768211456") = Ok (2 ^ 128)
  /\ BigInt_toString (2 ^ 128 + 1) = "340282366920938463463374607431768211457".
Proof. split; reflexivity. Qed.

Lemma gas_total_exact_witness :
  exists t totalRecords firstBlock lastBlock,
    Server.aggregate platform [R64] = Ok t
    /\ Server.totalGasUsed t = fold_right Z.add 0 [2 ^ 64; 2 ^ 64]
    /\ run heavy_storage (Server.stats platform) =
       (Server.res_json
          (Server.StatsJson totalRecords firstBlock lastBlock
             (Server.totalTransactions t) (Server.totalCrossLayerCalls t)
             (Server.totalHyperCoreActions t)
             (string_of_Z (fold_right Z.add 0 [2 ^ 64; 2 ^ 64]))
             (Server.processedBlocks t)
             (Server.crossLayerPercentage platform
                (Server.totalCrossLayerCalls t)
                (Server.totalTransactions t))),
        [EPoolQuery RangeMetadata []; EPoolQuery AllData []])
    /\ StringToBigInt (string_of_Z (fold_right Z.add 0 [2 ^ 64; 2 ^ 64]))
       = Some (fold_right Z.add 0 [2 ^ 64; 2 ^ 64]).
Proof.
  apply (gas_total_exact platform heavy_storage
           [("total_records", VStr "4"); ("first_block", VStr "100");
            ("last_block", VStr "114")]
           [] [R64] [heavy 200; heavy 201] [2 ^ 64; 2 ^ 64]);
    [reflexivity | reflexivity | reflexivity | repeat constructor
    | repeat constructor].
Defined.

(** The response of the stats query for the two records: the total of
    the gas is 2^65, digit for digit. *)
Lemma stats_two_to_the_65 :
  fst (run heavy_storage (Server.stats platform)) =
  Server.res_json
    (Server.StatsJson (Int 4) (Int 100) (Int 114)
       (num 2) (num 0) (num 0) "36893488147419103232" 2 "0.00").
Proof. vm_compute. reflexivity. Qed.

Lemma appendSample_window_witness :
  let full := repeat (sample "12:00:00") 30 in
  (List.length (App.appendSample full (sample "12:00:05")) <= 30)%nat
  /\ App.appendSample full (sample "12:00:05") =
     tl full ++ [sample "12:00:05"].
Proof.
  cbv zeta.
  destruct (appendSample_window (repeat (sample "12:00:00") 30)
              (sample "12:00:05") (Nat.le_refl 30))
    as (Hbound & _ & Hfull & _).
  split; [exact Hbound | exact (Hfull eq_refl)].
Defined.

Lemma getHypePrice_fallback_witness :
  Forall (fun w =>
            exists price,
              fst (run w Server.getHypePrice) = Ok price
              /\ (Oracle.fails (Oracle.answer_of w) ->
                  price = Server.fallback_price))
         [offline; offline; offline].
Proof. exact (getHypePrice_fallback [offline; offline; offline]). Defined.

Lemma getHypePrice_offline :
  fst (run offline Server.getHypePrice) =
  Ok (S754_finite false 6755399441055744 (-47)).
Proof. reflexivity. Qed.

(** 23 calls in 160 transactions: the double is 14.374999999999998 and
    the response shows 14.37. *)
Lemma crossLayerPercentage_rounded_witness :
  exists totalRecords firstBlock lastBlock,
    run busy_storage (Server.stats platform) =
      (Server.res_json
         (Server.StatsJson totalRecords firstBlock lastBlock
            (num 160) (num 23) (num 5) "3360000" 1
            (F64.toFixed (exponent_notation platform) 2
               (Rounding.percentage 23 160))),
       [EPoolQuery RangeMetadata []; EPoolQuery AllData []]).
Proof.
  destruct (crossLayerPercentage_rounded platform busy_storage
              [("total_records", VStr "1"); ("first_block", VStr "300");
               ("last_block", VStr "300")]
              [] [R5] (totals_of [b300]) 23 160
              eq_refl eq_refl eq_refl eq_refl eq_refl)
    as (totalRecords & firstBlock & lastBlock & shown & Hrun & _ & Hshown & _).
  exists totalRecords, firstBlock, lastBlock.
  rewrite Hrun, (Hshown eq_refl). reflexivity.
Defined.

Lemma stats_busy_storage :
  fst (run busy_storage (Server.stats platform)) =
  Server.res_json
    (Server.StatsJson (Int 1) (Int 300) (Int 300)
       (num 160) (num 23) (num 5) "3360000" 1 "14.37").
Proof. vm_compute. reflexivity. Qed.

Lemma crossLayerPercentage_samples :
  Server.crossLayerPercentage platform (num 23) (num 160)
    = "14.37"
  /\ Server.crossLayerPercentage platform (num 1) (num 32)
     = "3.13"
  /\ Server.crossLayerPercentage platform (num 1) (num 3)
     = "33.33"
  /\ Server.crossLayerPercentage platform (num 2) (num 2)
     = "100.00"
  /\ Server.crossLayerPercentage platform (num 0) (num 7)
     = "0.00".
Proof. repeat split. Qed.

(** C9, as worded, fails.  23 calls in 160 transactions are 14.375 per
    cent, which rounds to 14.38 with a tie going up as with a tie going to
    the even digit; the response shows 14.37, the rounding of the double
    14.374999999999998 the two operations of the program give.  And
    however a tie is read: 461595206720264 calls in 1063215954670653
    transactions are a little more than 43.415 per cent, whose nearest
    number of hundredths is 4342; the response shows 43.41. *)
Lemma crossLayerPercentage_not_decimal_rounding :
  (Server.crossLayerPercentage platform (num 23) (num 160) = "14.37"
   /\ Digits.hundredths (Stated.half_up 23 160) = "14.38"
   /\ Digits.hundredths (Stated.half_even 23 160) = "14.38"
   /\ fst (run busy_storage (Server.stats platform)) =
      Server.res_json
        (Server.StatsJson (Int 1) (Int 300) (Int 300)
           (num 160) (num 23) (num 5) "3360000" 1 "14.37"))
  /\ ~ Stated.percentage_rounded platform
  /\ ~ Stated.percentage_nearest platform.
Proof.
  split; [ | split ].
  - repeat split.
  - intros Hstated.
    destruct (Hstated 23 160) as [Hup | Heven]; try lia;
      vm_compute in Hup || vm_compute in Heven; discriminate.
  - intros Hstated.
    destruct (Hstated 461595206720264 1063215954670653)
      as (n & Hnear & Hshown); try lia.
    assert (n = 4342) as -> by lia.
    vm_compute in Hshown. discriminate.
Qed.

Lemma avgGasPerTx_guarded_witness :
  run busy_storage (Server.chain_fallback (Int 130)) =
  (Server.res_json
     (Server.SynthesizedBlock 130 1700000130 0 0 0 "0" []
        (S754_zero false) "0" 0),
   [EProviderGetBlock (Int 130)]).
Proof.
  destruct (avgGasPerTx_guarded busy_storage (Int 130) empty_block eq_refl)
    as (avgGasPerTx & Hrun & Hempty & _).
  rewrite Hrun, (Hempty eq_refl). reflexivity.
Defined.

Lemma non_numeric_lookup_witness :
  (exists later,
     snd (run offline (Server.block_by_number platform "abc")) =
     EPoolQuery RowCovering [VNum NaN] :: later)
  /\ exists outcome,
       snd (run offline (App.searchBlock "abc" [b110; b105_R2])) =
       [ESetLoading true;
        EAxiosGet "http://localhost:3001/api/blocks/NaN";
        outcome;
        ESetLoading false]
       /\ outcome <> EAlert "Invalid block number".
Proof.
  destruct (non_numeric_lookup_reaches_collaborators platform "abc"
              [b110; b105_R2] offline) as [Hbackend Hfrontend].
  split; [exact Hbackend | ].
  apply Hfrontend; [reflexivity | discriminate | repeat constructor].
Defined.

(** The handlers on the scenario. *)
Lemma blocks_recent_scenario :
  run scenario (Server.blocks_recent platform) =
  (Server.res_json (Server.Json (VArr [b110; b105_R2; b105_R1; b101; b100])),
   [EPoolQuery RecentRows []]).
Proof. reflexivity. Qed.

Lemma block_105_scenario :
  run scenario (Server.block_by_number platform "105") =
  (Server.res_json (Server.Json b105_R2),
   [EPoolQuery RowCovering [num 105]]).
Proof. reflexivity. Qed.

Lemma block_106_scenario :
  run scenario (Server.block_by_number platform "106") =
  (Server.res_json
     (Server.SynthesizedBlock 106 1700000106 0 3 0 "100000" []
        (F64.of_Z 33333) "0" 0),
   [EPoolQuery RowCovering [num 106]; EProviderGetBlock (Int 106)]).
Proof. vm_compute. reflexivity. Qed.

Lemma block_abc_scenario :
  run scenario (Server.block_by_number platform "abc") =
  (Server.res_status_json 500
     (Server.ErrorJson "Database error"
        (Some (HostError "invalid input syntax for type bigint"))),
   [EPoolQuery RowCovering [VNum NaN]]).
Proof. reflexivity. Qed.

Lemma stats_scenario :
  fst (run scenario (Server.stats platform)) =
  Server.res_json
    (Server.StatsJson (Int 4) (Int 100) (Int 114)
       (num 21) (num 4) (num 4) "315000" 6 "19.05").
Proof. vm_compute. reflexivity. Qed.

Lemma stats_of_empty_storage :
  fst (run empty_storage (Server.stats platform)) =
  Server.res_json
    (Server.StatsJson (Int 0) NaN NaN (num 0) (num 0) (num 0) "0" 0 "0").
Proof. reflexivity. Qed.

Lemma getHypePrice_scenario :
  fst (run scenario Server.getHypePrice) =
  Ok (F64.div (F64.of_Z 48250016) (F64.of_Z 1000000)).
Proof. reflexivity. Qed.
End SampleRuns.

(** * Further properties of the code *)

(** ** The merged recent blocks *)

Section RecentFacts.
Import JS Records.
Variable P : Platform.

Lemma sorted_app_ordered {A : Type} (R : A -> A -> Prop) (l1 l2 : list A) :
  StronglySorted R (l1 ++ l2) ->
  forall a b, In a l1 -> In b l2 -> R a b.
Proof.
  induction l1 as [ | x rest IH ]; intros Hsorted a b Ha Hb; [contradiction | ].
  cbn [app] in Hsorted. inversion Hsorted as [ | ? ? Hrest Hall ]; subst.
  destruct Ha as [<- | Ha].
  - rewrite Forall_forall in Hall. apply Hall, in_or_app. now right.
  - now apply IH.
Qed.

Lemma sorted_prefix {A : Type} (R : A -> A -> Prop) (l1 l2 : list A) :
  StronglySorted R (l1 ++ l2) -> StronglySorted R l1.
Proof.
  induction l1 as [ | x rest IH ]; intros Hsorted; [constructor | ].
  cbn [app] in Hsorted. inversion Hsorted as [ | ? ? Hrest Hall ]; subst.
  constructor; [now apply IH | ].
  rewrite Forall_forall in *. intros y Hy. apply Hall, in_or_app. now left.
Qed.

Lemma mergeRecent_numbered (rows allBlocks : list value) :
  Server.flatten_rows P rows [] = Ok allBlocks ->
  Forall (fun v => numbered v = true) allBlocks ->
  Server.mergeRecent P rows = Ok (firstn 20 (sort_desc allBlocks)).
Proof.
  intros Hflat Hnum. unfold Server.mergeRecent. rewrite Hflat. cbn [bind].
  rewrite (sort_numbered P allBlocks Hnum). cbn [bind].
  now rewrite (slice_prefix 20).
Qed.

(** X1. The recent-blocks result holds the most recent records: of the
    normalized records of the rows it returns 20, or all of them when
    there are fewer, in non-increasing order of block number, and no
    record left out has a higher block number than a record returned. *)
Theorem mergeRecent_most_recent (rows allBlocks : list value) :
  Server.flatten_rows P rows [] = Ok allBlocks ->
  Forall (fun v => numbered v = true) allBlocks ->
  exists result dropped,
    Server.mergeRecent P rows = Ok result
    /\ List.length result = Nat.min 20 (List.length allBlocks)
    /\ Permutation allBlocks (result ++ dropped)
    /\ descending result
    /\ forall r d, In r result -> In d dropped -> key d <= key r.
Proof.
  intros Hflat Hnum.
  exists (firstn 20 (sort_desc allBlocks)), (skipn 20 (sort_desc allBlocks)).
  pose proof (sort_desc_descending allBlocks) as Hdesc.
  rewrite <- (firstn_skipn 20 (sort_desc allBlocks)) in Hdesc.
  split; [now apply mergeRecent_numbered | ].
  split.
  { rewrite length_firstn.
    now rewrite <- (Permutation_length (sort_desc_perm allBlocks)). }
  split; [rewrite firstn_skipn; apply sort_desc_perm | ].
  split; [exact (sorted_prefix _ _ _ Hdesc) | ].
  intros r d Hr Hd. exact (sorted_app_ordered _ _ _ Hdesc r d Hr Hd).
Qed.

(** *** Records that are [null] *)

Lemma numbered_or_null (l : list value) :
  Forall (fun v => numbered v = true \/ v = VNull) l ->
  Forall (fun v => numbered v = true) l \/ In VNull l.
Proof.
  induction 1 as [ | x rest [Hx | ->] _ [IH | IH] ].
  - left. constructor.
  - left. now constructor.
  - right. now right.
  - right. now left.
  - right. now left.
Qed.

Lemma compare_with_null (a : value) :
  Server.by_blockNumber_desc P a VNull = Throw TypeError.
Proof. reflexivity. Qed.

Lemma compare_null_with (b : value) :
  numbered b = true -> Server.by_blockNumber_desc P VNull b = Throw TypeError.
Proof.
  intros Hb. unfold Server.by_blockNumber_desc.
  now rewrite (numbered_get b Hb).
Qed.

Lemma insertion_sort_null (l : list value) :
  Forall (fun v => numbered v = true \/ v = VNull) l ->
  In VNull l -> (2 <= List.length l)%nat ->
  insertion_sort (Server.by_blockNumber_desc P) l = Throw TypeError.
Proof.
  induction 1 as [ | x rest Hx Hrest IH ]; intros Hin Hlen; [contradiction | ].
  cbn [insertion_sort].
  destruct (numbered_or_null rest Hrest) as [Hnum | Hnull].
  - destruct Hin as [-> | Hin].
    + rewrite (insertion_sort_numbered P rest Hnum). cbn [bind].
      pose proof (sort_desc_numbered rest Hnum) as Hsorted.
      pose proof (Permutation_length (sort_desc_perm rest)) as Hsame.
      destruct (sort_desc rest) as [ | y sorted ].
      * cbn [List.length] in *. lia.
      * cbn [insert]. inversion Hsorted as [ | ? ? Hy _ ]; subst.
        now rewrite (compare_null_with y Hy).
    + exfalso. rewrite Forall_forall in Hnum.
      specialize (Hnum VNull Hin). discriminate.
  - destruct rest as [ | y [ | z rest' ] ].
    + contradiction.
    + destruct Hnull as [-> | []]. cbn [insertion_sort bind insert].
      now rewrite compare_with_null.
    + rewrite IH; [reflexivity | assumption | cbn [List.length]; lia].
Qed.

Lemma null_all_defined (l : list value) :
  Forall (fun v => numbered v = true \/ v = VNull) l ->
  filter (fun v => negb (is_undefined v)) l = l.
Proof.
  induction 1 as [ | x rest Hx Hrest IH ]; [reflexivity | ].
  cbn [filter].
  replace (is_undefined x) with false
    by (destruct Hx as [Hx | ->]; [now rewrite numbered_defined | reflexivity]).
  cbn [negb]. now rewrite IH.
Qed.

(** X2. The records of a payload are not validated one by one: a [null]
    among two or more records makes the comparator of the sort throw, and
    the request for the recent blocks is answered with status 500 and
    "Database error" although the storage answered. *)
Theorem blocks_recent_null_record (rows allBlocks : list value) (w : World) :
  Server.flatten_rows P rows [] = Ok allBlocks ->
  Forall (fun v => numbered v = true \/ v = VNull) allBlocks ->
  In VNull allBlocks ->
  (2 <= List.length allBlocks)%nat ->
  pool_query w RecentRows [] = Ok rows ->
  Server.mergeRecent P rows = Throw TypeError
  /\ run w (Server.blocks_recent P) =
     (Server.res_status_json 500
        (Server.ErrorJson "Database error" (Some TypeError)),
      [EPoolQuery RecentRows []]).
Proof.
  intros Hflat Hall Hin Hlen Hrows.
  assert (Hmerge : Server.mergeRecent P rows = Throw TypeError).
  { unfold Server.mergeRecent, sort. rewrite Hflat. cbn [bind].
    rewrite (null_all_defined allBlocks Hall).
    now rewrite (insertion_sort_null allBlocks Hall Hin Hlen). }
  split; [assumption | ].
  unfold Server.blocks_recent. cbn [run]. rewrite Hrows. cbn [bind].
  now rewrite Hmerge.
Qed.

(** *** Rows that hold no record *)

Lemma flatten_rows_app (rows1 rows2 : list value) :
  forall acc,
    Server.flatten_rows P (rows1 ++ rows2) acc =
    (acc' <- Server.flatten_rows P rows1 acc ;;
     Server.flatten_rows P rows2 acc').
Proof.
  induction rows1 as [ | row rest IH ]; intros acc; [reflexivity | ].
  cbn [app Server.flatten_rows].
  destruct (get row "data") as [data | e]; [ | reflexivity ]. cbn [bind].
  destruct (Server.parseBlockData P data) as [blocks | e]; [ | reflexivity ].
  cbn [bind]. apply IH.
Qed.

Lemma aggregate_from_app (rows1 rows2 : list value) :
  forall t,
    Server.aggregate_from P t (rows1 ++ rows2) =
    (t' <- Server.aggregate_from P t rows1 ;;
     Server.aggregate_from P t' rows2).
Proof.
  induction rows1 as [ | row rest IH ]; intros t; [reflexivity | ].
  cbn [app Server.aggregate_from].
  destruct (get row "data") as [data | e]; [ | reflexivity ]. cbn [bind].
  destruct (Server.parseBlockData P data) as [blocks | e]; [ | reflexivity ].
  cbn [bind].
  destruct (Server.count_blocks P t blocks) as [t' | e]; [ | reflexivity ].
  cbn [bind]. apply IH.
Qed.

(** X3. A row whose payload gives no record (a text that does not decode,
    or data of none of the three shapes) changes nothing: the recent
    blocks and the totals are those of the other rows, wherever the row
    stands among them. *)
Theorem row_without_records_ignored (before after : list value)
    (row data : value) :
  get row "data" = Ok data ->
  Server.parseBlockData P data = Ok [] ->
  Server.mergeRecent P (before ++ row :: after) =
    Server.mergeRecent P (before ++ after)
  /\ Server.aggregate P (before ++ row :: after) =
     Server.aggregate P (before ++ after).
Proof.
  intros Hdata Hnone. split.
  - unfold Server.mergeRecent. rewrite !flatten_rows_app.
    destruct (Server.flatten_rows P before []) as [acc | e]; [ | reflexivity ].
    cbn [bind Server.flatten_rows]. rewrite Hdata. cbn [bind].
    rewrite Hnone. cbn [bind]. now rewrite List.app_nil_r.
  - unfold Server.aggregate. rewrite !aggregate_from_app.
    destruct (Server.aggregate_from P Server.no_totals before) as [t | e];
      [ | reflexivity ].
    cbn [bind Server.aggregate_from]. rewrite Hdata. cbn [bind].
    rewrite Hnone. reflexivity.
Qed.
End RecentFacts.

(** ** The totals of the stats query *)

Section TotalsFacts.
Import JS Records.
Variable P : Platform.









Lemma count_block_null (t : Server.Totals) :
  Server.count_block P t VNull = Throw TypeError.
Proof. reflexivity. Qed.

(** X5. A [null] among the records of any row makes the stats request
    fail: the fold throws at that record, and the handler answers with
    status 500 and "Stats error", whatever the other records are worth. *)
Theorem stats_null_record (rows before after meta : list value) (w : World) :
  Server.flatten_rows P rows [] = Ok (before ++ VNull :: after) ->
  Forall (fun b => well_typed b = true) before ->
  pool_query w RangeMetadata [] = Ok meta ->
  pool_query w AllData [] = Ok rows ->
  Server.aggregate P rows = Throw TypeError
  /\ run w (Server.stats P) =
     (Server.res_status_json 500
        (Server.ErrorJson "Stats error" (Some TypeError)),
      [EPoolQuery RangeMetadata []; EPoolQuery AllData []]).
Proof.
  intros Hflat Htyped Hmeta Hrows.
  assert (Htotals : Server.aggregate P rows = Throw TypeError).
  { unfold Server.aggregate.
    rewrite (aggregate_flattened P rows [] _ _ Hflat).
    pose proof (flatten_rows_records P rows [] _ Hflat) as Hrecords.
    cbn [app] in Hrecords. rewrite <- Hrecords, count_blocks_app.
    change Server.no_totals with (totals_from (Int 0) (Int 0) (Int 0) 0 0).
    rewrite (count_blocks_numbers P before Htyped). cbn [bind].
    reflexivity. }
  split; [assumption | ].
  unfold Server.stats. cbn [run]. rewrite Hmeta. cbn [run]. rewrite Hrows.
  cbn [bind]. now rewrite Htotals.
Qed.
Lemma active_transactions (l : list value) :
  Z.of_nat (List.length (filter active l))
  <= sum_of (count_of "hyperEVMTxns") (filter active l).
Proof.
  induction l as [ | b rest IH ]; [reflexivity | ].
  cbn [filter]. destruct (active b) eqn:Hactive; [ | assumption ].
  change (sum_of (count_of "hyperEVMTxns") (b :: filter active rest))
    with (count_of "hyperEVMTxns" b
          + sum_of (count_of "hyperEVMTxns") (filter active rest)).
  unfold active in Hactive. apply Z.ltb_lt in Hactive.
  cbn [List.length]. lia.
Qed.

(** X24. Bounds the totals of the stats query keep, for rows whose
    records have integer or absent counts that add up below 2^53 over the
    counted records: [processedBlocks] lies between 0 and the number of
    normalized records, and it never exceeds [totalTransactions], every
    counted record having at least one transaction.  When no record is
    counted all five totals are zero and the cross-layer percentage is
    the literal "0". *)
Theorem aggregate_bounds (rows allBlocks : list value) :
  Server.flatten_rows P rows [] = Ok allBlocks ->
  Forall (fun b => well_typed b = true) allBlocks ->
  exact_counts (filter active allBlocks) ->
  exists tx cl gas ca pb,
    Server.aggregate P rows = Ok (numeric_totals tx cl gas ca pb)
    /\ 0 <= pb <= Z.of_nat (List.length allBlocks)
    /\ pb <= tx
    /\ (pb = 0 ->
        tx = 0 /\ cl = 0 /\ gas = 0 /\ ca = 0
        /\ Server.crossLayerPercentage P (num cl) (num tx) = "0").
Proof.
  intros Hflat Htyped Hexact.
  exists (sum_of (count_of "hyperEVMTxns") (filter active allBlocks)),
    (sum_of (count_of "crossLayerCalls") (filter active allBlocks)),
    (sum_of gas_of (filter active allBlocks)),
    (sum_of (count_of "hyperCoreActions") (filter active allBlocks)),
    (Z.of_nat (List.length (filter active allBlocks))).
  split; [exact (aggregate_totals P rows allBlocks Hflat Htyped Hexact) | ].
  split; [ | split; [apply active_transactions | ]].
  - split; [lia | ]. apply Nat2Z.inj_le, filter_length_le.
  - intros Hnone.
    destruct (filter active allBlocks) as [ | b rest ];
      [ | cbn [List.length] in Hnone; lia ].
    repeat split; reflexivity.
Qed.
End TotalsFacts.

(** ** The lookup of one block *)

Section BlockFacts.
Import JS Records.
Variable P : Platform.

Lemma find_numbered (n : Z) (blocks : list value) :
  Forall (fun b => numbered b = true) blocks ->
  find (fun b => bn <- get b "blockNumber" ;; Ok (strict_eq_num bn (Int n)))
       blocks =
  Ok (match records_of_block n blocks with
      | record :: _ => Some record
      | [] => None
      end).
Proof.
  unfold records_of_block.
  induction 1 as [ | b rest Hb Hrest IH ]; [reflexivity | ].
  cbn [find filter]. rewrite (numbered_get b Hb).
  cbn [bind strict_eq_num num_eq].
  destruct (key b =? n); [reflexivity | exact IH].
Qed.

Lemma find_block_numbered (n : Z) (blocks : list value) :
  Forall (fun b => numbered b = true) blocks ->
  Server.find_block blocks (Int n) =
  Ok (match records_of_block n blocks with
      | record :: _ => record
      | [] => VUndefined
      end).
Proof.
  intros Hnum. unfold Server.find_block. rewrite (find_numbered n blocks Hnum).
  cbn [bind]. now destruct (records_of_block n blocks).
Qed.

Lemma numbered_truthy (b : value) : numbered b = true -> truthy b = true.
Proof. destruct b; try discriminate; reflexivity. Qed.

Lemma records_of_block_numbered (n : Z) (blocks : list value) (record : value)
    (later : list value) :
  Forall (fun b => numbered b = true) blocks ->
  records_of_block n blocks = record :: later ->
  numbered record = true.
Proof.
  intros Hnum Heq. symmetry in Heq.
  apply first_of_block in Heq as [Hin _].
  rewrite Forall_forall in Hnum. now apply Hnum.
Qed.

(** X6. A block held by the storage is served from the storage alone:
    the answer is the first record with the requested number in the first
    row the query returned, status 200, and the chain is not consulted. *)
Theorem block_by_number_stored (w : World) (blockNumber : string) (n : Z)
    (row0 data record : value) (others blocks later : list value) :
  parseInt blockNumber = Int n ->
  pool_query w RowCovering [VNum (Int n)] = Ok (row0 :: others) ->
  get row0 "data" = Ok data ->
  Server.parseBlockData P data = Ok blocks ->
  Forall (fun b => numbered b = true) blocks ->
  records_of_block n blocks = record :: later ->
  run w (Server.block_by_number P blockNumber) =
  (Server.res_json (Server.Json record),
   [EPoolQuery RowCovering [VNum (Int n)]]).
Proof.
  intros Hparse Hrows Hdata Hblocks Hnum Hrecord.
  unfold Server.block_by_number. rewrite Hparse. cbn [run]. rewrite Hrows.
  rewrite Hdata. cbn [bind]. rewrite Hblocks. cbn [bind].
  rewrite (find_block_numbered n blocks Hnum), Hrecord.
  rewrite (numbered_truthy record
             (records_of_block_numbered n blocks record later Hnum Hrecord)).
  reflexivity.
Qed.

(** X7. A block the storage does not hold, for a text that [parseInt]
    reads as the number [n] (the double nearest to the digits of the
    text).  When no row covers the
    number the answer is 404 "Block not found in database" and the chain
    is not asked.  When a row covers it but holds no record of that
    number, the chain is asked once, for that number: the block it knows
    is answered with status 200 as a synthesized record, and a block it
    does not know, or a failing chain, with 404 "Block not found". *)
Theorem block_by_number_not_stored (w : World) (blockNumber : string) (n : Z) :
  parseInt blockNumber = Int n ->
  (pool_query w RowCovering [VNum (Int n)] = Ok [] ->
   run w (Server.block_by_number P blockNumber) =
   (Server.res_status_json 404
      (Server.ErrorJson "Block not found in database" None),
    [EPoolQuery RowCovering [VNum (Int n)]]))
  /\ (forall row0 data others blocks,
        pool_query w RowCovering [VNum (Int n)] = Ok (row0 :: others) ->
        get row0 "data" = Ok data ->
        Server.parseBlockData P data = Ok blocks ->
        Forall (fun b => numbered b = true) blocks ->
        records_of_block n blocks = [] ->
        run w (Server.block_by_number P blockNumber) =
        (match provider_getBlock w (Int n) with
         | Ok (Some blockchainBlock) =>
             Server.res_json (Server.synthesize blockchainBlock)
         | _ =>
             Server.res_status_json 404
               (Server.ErrorJson "Block not found" None)
         end,
         [EPoolQuery RowCovering [VNum (Int n)]; EProviderGetBlock (Int n)])).
Proof.
  intros Hparse. split.
  - intros Hrows. unfold Server.block_by_number. rewrite Hparse. cbn [run].
    now rewrite Hrows.
  - intros row0 data others blocks Hrows Hdata Hblocks Hnum Hnone.
    unfold Server.block_by_number. rewrite Hparse. cbn [run]. rewrite Hrows.
    rewrite Hdata. cbn [bind]. rewrite Hblocks. cbn [bind].
    rewrite (find_block_numbered n blocks Hnum), Hnone.
    cbn [truthy Server.chain_fallback run].
    now destruct (provider_getBlock w (Int n)) as [[blockchainBlock | ] | e].
Qed.
End BlockFacts.

(** ** The price endpoints *)

Section WordFacts.
Import JS.

Lemma digit_value_hex_char (r : Z) :
  0 <= r < 16 -> digit_value 16 (Abi.hex_char r) = Some r.
Proof.
  intros Hr.
  assert (Hcases : r = 0 \/ r = 1 \/ r = 2 \/ r = 3 \/ r = 4 \/ r = 5 \/ r = 6
                   \/ r = 7 \/ r = 8 \/ r = 9 \/ r = 10 \/ r = 11 \/ r = 12
                   \/ r = 13 \/ r = 14 \/ r = 15) by lia.
  repeat (destruct Hcases as [-> | Hcases]; [reflexivity | ]).
  now subst.
Qed.

Lemma read_digits_app (radix : Z) (a b : string) :
  forall acc seen v seen',
    read_digits radix a acc seen = (v, seen', EmptyString) ->
    read_digits radix (a ++ b) acc seen = read_digits radix b v seen'.
Proof.
  induction a as [ | c rest IH ]; intros acc seen v seen' Hread.
  - cbn in Hread. now injection Hread as -> ->.
  - cbn [read_digits append] in *.
    destruct (digit_value radix c) as [d | ]; [ | discriminate ].
    now apply IH.
Qed.

Lemma read_hex_digits (k : nat) :
  forall n acc seen,
    read_digits 16 (Abi.hex_digits k n) acc seen =
    (acc * 16 ^ Z.of_nat k + n mod 16 ^ Z.of_nat k,
     (seen || negb (Nat.eqb k 0))%bool, EmptyString).
Proof.
  induction k as [ | k IH ]; intros n acc seen.
  - cbn [Abi.hex_digits read_digits Nat.eqb negb]. rewrite orb_false_r.
    change (16 ^ Z.of_nat 0) with 1. rewrite Z.mod_1_r. f_equal. f_equal. lia.
  - cbn [Abi.hex_digits]. rewrite (read_digits_app 16 _ _ _ _ _ _ (IH _ _ _)).
    cbn [read_digits].
    rewrite (digit_value_hex_char (n mod 16)) by (apply Z.mod_pos_bound; lia).
    cbn [Nat.eqb negb]. rewrite orb_true_r. f_equal. f_equal.
    rewrite Nat2Z.inj_succ, Z.pow_succ_r by lia.
    rewrite (Z.rem_mul_r n 16 (16 ^ Z.of_nat k)) by lia. ring.
Qed.

Lemma BigNumber_from_word (n : Z) :
  0 <= n < 2 ^ 256 -> Ethers.BigNumber_from (Abi.word n) = Ok n.
Proof.
  intros Hn. unfold Ethers.BigNumber_from, Ethers.numeric_string.
  change (Abi.word n) with (String "0" (String "x" (Abi.hex_digits 64 n))).
  change (Ascii.eqb "x" "x") with true. cbv iota.
  unfold all_digits. rewrite read_hex_digits.
  change (false || negb (Nat.eqb 64 0))%bool with true. cbv iota.
  change (16 ^ Z.of_nat 64) with (2 ^ 256).
  now rewrite Z.mod_small by lia.
Qed.
End WordFacts.

Section EndpointFacts.
Import JS.

(** X8. The price read decodes a 32-byte answer word: a word below 2^53
    is reported as the double of the word divided by 10^6; a word of 2^53
    or more does not fit a number, and the fallback 48 is reported in its
    place.  The data of the request is the encoding of the index 107. *)
Theorem getHypePrice_decodes (w : World) (n : Z) :
  0 <= n < 2 ^ 256 ->
  provider_call w Server.spotPx Ethers.encoded_spot_index = Ok (Abi.word n) ->
  fst (run w Server.getHypePrice) =
    Ok (if n <? 2 ^ 53
        then F64.div (F64.of_Z n) (F64.of_Z 1000000)
        else Server.fallback_price)
  /\ Abi.encode_uint256 107 = Ok Ethers.encoded_spot_index.
Proof.
  intros Hn Hanswer. split; [ | reflexivity ].
  unfold Server.getHypePrice. cbn [run fst]. rewrite Hanswer.
  unfold Server.getHypePrice_body. cbn [bind].
  rewrite (BigNumber_from_word n Hn). cbn [bind]. unfold Ethers.toNumber.
  rewrite Z.abs_eq by lia.
  destruct (n <? 2 ^ 53); reflexivity.
Qed.

Lemma getHypePrice_runs (w : World) :
  exists price,
    run w Server.getHypePrice =
      (Ok price,
       [EProviderCall Server.spotPx Ethers.encoded_spot_index])
    /\ (Oracle.fails (Oracle.answer_of w) -> price = Server.fallback_price)
    /\ (forall decoded,
          Server.getHypePrice_body (Oracle.answer_of w) = Ok decoded ->
          price = decoded).
Proof.
  unfold Server.getHypePrice, Oracle.answer_of. cbn [run].
  destruct (Server.getHypePrice_body
              (provider_call w Server.spotPx Ethers.encoded_spot_index))
    as [decoded | e] eqn:Hbody.
  - exists decoded. cbn [try_catch]. split; [reflexivity | ]. split.
    + intros Hfails. apply fails_throws in Hfails as [e He].
      rewrite Hbody in He. discriminate.
    + now intros ? [= <-].
  - exists Server.fallback_price. cbn [try_catch]. split; [reflexivity | ].
    split; [reflexivity | discriminate].
Qed.

Lemma run_and_then {A B : Type} (w : World) (p : Prog A) (k : A -> Prog B) :
  run w (and_then p k) =
  (fst (run w (k (fst (run w p)))),
   snd (run w p) ++ snd (run w (k (fst (run w p))))).
Proof.
  induction p as [ a | sql params c IH | n c IH | to data c IH | url c IH
                 | v c IH | b c IH | message c IH ];
    cbn [and_then run].
  - cbn [fst snd app]. now destruct (run w (k a)).
  - rewrite IH. now destruct (run w (c (pool_query w sql params))).
  - rewrite IH. now destruct (run w (c (provider_getBlock w n))).
  - rewrite IH. now destruct (run w (c (provider_call w to data))).
  - rewrite IH. now destruct (run w (c (axios_get w url))).
  - rewrite IH. now destruct (run w c).
  - rewrite IH. now destruct (run w c).
  - rewrite IH. now destruct (run w c).
Qed.

(** X9. The token endpoint always answers with status 200, after one
    call to the spot-price precompile: the 500 branch of the handler is
    never taken.  The market capitalisation is 333928180 times the price
    reported; when the price read fails the price is the fallback 48 and
    the market capitalisation 16028552640. *)
Theorem hype_token_data_always_answers (w : World) :
  exists hypePrice,
    run w Endpoints.hype_token_data =
      ({| Endpoints.token_status := 200;
          Endpoints.token_body :=
            Endpoints.TokenData hypePrice 1000000000 333928180
              (F64.mul (F64.of_Z 333928180) hypePrice) |},
       [EProviderCall Server.spotPx Ethers.encoded_spot_index])
    /\ (Oracle.fails (Oracle.answer_of w) ->
        hypePrice = F64.of_Z 48
        /\ F64.mul (F64.of_Z 333928180) hypePrice = F64.of_Z 16028552640).
Proof.
  destruct (getHypePrice_runs w) as (price & Hrun & Hfallback & _).
  exists price. split.
  - unfold Endpoints.hype_token_data. rewrite run_and_then, Hrun. reflexivity.
  - intros Hfails. rewrite (Hfallback Hfails). split; reflexivity.
Qed.

Lemma oraclePrice_of_body (answer : Res string) :
  Endpoints.oraclePrice_of answer = Server.getHypePrice_body answer.
Proof. reflexivity. Qed.

(** X10. The price debugging endpoint always answers with status 200,
    after reading the spot and then the oracle precompile with the same
    request data.  A failing read is reported differently for the two:
    the spot price becomes the fallback 48, the oracle price is [null].
    When the two precompiles give the same answer, the two prices are the
    same, unless that answer fails to decode. *)
Theorem debug_hype_price_reports (w : World) :
  let spot := provider_call w Server.spotPx Ethers.encoded_spot_index in
  let oracle := provider_call w Endpoints.oraclePx Ethers.encoded_spot_index in
  exists spotPrice oraclePrice,
    run w Endpoints.debug_hype_price =
      (Endpoints.debug_prices spotPrice oraclePrice,
       [EProviderCall Server.spotPx Ethers.encoded_spot_index;
        EProviderCall Endpoints.oraclePx Ethers.encoded_spot_index])
    /\ (Oracle.fails spot -> spotPrice = Server.fallback_price)
    /\ (Oracle.fails oracle -> oraclePrice = None)
    /\ (oracle = spot ->
        oraclePrice = Some spotPrice
        \/ (oraclePrice = None /\ spotPrice = Server.fallback_price)).
Proof.
  intros spot oracle.
  destruct (getHypePrice_runs w) as (price & Hrun & Hfallback & Hdecoded).
  exists price,
    (match Endpoints.oraclePrice_of oracle with
     | Ok p => Some p
     | Throw _ => None
     end).
  split; [ | split; [exact Hfallback | split ]].
  - unfold Endpoints.debug_hype_price. rewrite run_and_then, Hrun. reflexivity.
  - intros Hfails. apply fails_throws in Hfails as [e He].
    now rewrite oraclePrice_of_body, He.
  - intros Hsame. rewrite oraclePrice_of_body, Hsame.
    destruct (Server.getHypePrice_body spot) as [decoded | e] eqn:Hbody.
    + left. f_equal. symmetry. now apply Hdecoded.
    + right. split; [reflexivity | ].
      unfold Server.getHypePrice in Hrun. cbn [run] in Hrun.
      fold spot in Hrun. rewrite Hbody in Hrun. now injection Hrun as <-.
Qed.
End EndpointFacts.

(** ** The diagnostic endpoints *)

Section DiagnosticFacts.
Import JS Diagnostics.
Variable P : Platform.

(** X11. The health check reports [ok], status 200, exactly when the
    storage answers [SELECT 1], the chain gives its height, and the count
    query, asked for the rows above the height minus 1000, returns a row;
    in every other case the status is 503.  The checks are made in that
    order and stop at the first that fails: with the storage down the
    chain is not asked. *)
Theorem health_ok_exactly_when_all_answer (s : Services) (now : string) :
  (health_status (fst (ask s (health now))) = 200
   \/ health_status (fst (ask s (health now))) = 503)
  /\ (health_status (fst (ask s (health now))) = 200 <->
      exists rows blockNumber row others count,
        probe s SelectOne [] = Ok rows
        /\ getBlockNumber s = Ok blockNumber
        /\ probe s RecentCount [VNum (num_sub blockNumber (Int 1000))] =
           Ok (row :: others)
        /\ get row "count" = Ok count)
  /\ (forall e,
        probe s SelectOne [] = Throw e ->
        ask s (health now) = (unhealthy now e, [AskedPool SelectOne []]))
  /\ (forall rows e,
        probe s SelectOne [] = Ok rows ->
        getBlockNumber s = Throw e ->
        ask s (health now) =
        (unhealthy now e, [AskedPool SelectOne []; AskedBlockNumber])).
Proof.
  unfold health. cbn [ask].
  destruct (probe s SelectOne []) as [rows | e] eqn:Hcheck.
  - cbn [ask]. destruct (getBlockNumber s) as [blockNumber | e] eqn:Hheight.
    + cbn [ask].
      destruct (probe s RecentCount [VNum (num_sub blockNumber (Int 1000))])
        as [[ | row others ] | e] eqn:Hcount; cbn [bind fst].
      * split; [now right | ]. split; [ | split; intros; discriminate ].
        split; [discriminate | ].
        intros (? & ? & ? & ? & ? & _ & [= <-] & Hrows & _).
        rewrite Hcount in Hrows. discriminate.
      * unfold health_report. cbn [nth].
        destruct (get row "count") as [count | e] eqn:Hget; cbn [bind].
        -- split; [now left | ]. split; [ | split; intros; discriminate ].
           split; [ | reflexivity ].
           intros _. now exists rows, blockNumber, row, others, count.
        -- split; [now right | ]. split; [ | split; intros; discriminate ].
           split; [discriminate | ].
           intros (? & ? & ? & ? & ? & _ & [= <-] & Hrows & Hrow).
           rewrite Hcount in Hrows. injection Hrows as <- <-.
           rewrite Hget in Hrow. discriminate.
      * split; [now right | ]. split; [ | split; intros; discriminate ].
        split; [discriminate | ].
        intros (? & ? & ? & ? & ? & _ & [= <-] & Hrows & _).
        rewrite Hcount in Hrows. discriminate.
    + cbn [ask fst]. split; [now right | ].
      split; [ | split; [intros; discriminate | ] ].
      * split; [discriminate | ].
        intros (? & ? & ? & ? & ? & _ & Hanswer & _). discriminate.
      * now intros ? ? _ [= <-].
  - cbn [ask fst]. split; [now right | ].
    split; [ | split; [ | intros; discriminate ] ].
    + split; [discriminate | ].
      intros (? & ? & ? & ? & ? & Hanswer & _). discriminate.
    + now intros ? [= <-].
Qed.

(** X12. What a passing health check reports.  With a height [h] and a
    count [c], both below 2^53, that the storage gives in decimal
    notation, the count query is asked for the rows above [h - 1000],
    [recentDataCount] is the count as a number, and [streamStatus] is
    "receiving data" when the count is positive and "no recent data" when
    it is zero. *)
Theorem health_stream_status (s : Services) (now : string) (h c : Z)
    (rows others : list value) (row : value) :
  0 <= h < 2 ^ 53 ->
  0 <= c < 2 ^ 53 ->
  probe s SelectOne [] = Ok rows ->
  getBlockNumber s = Ok (Int h) ->
  probe s RecentCount [num (h - 1000)] = Ok (row :: others) ->
  get row "count" = Ok (VStr (string_of_Z c)) ->
  ask s (health now) =
  ({| health_status := 200;
      health_body :=
        Healthy now (Int h) (Int c)
          (if 0 <? c then "receiving data" else "no recent data") |},
   [AskedPool SelectOne []; AskedBlockNumber;
    AskedPool RecentCount [num (h - 1000)]]).
Proof.
  intros Hh Hc Hcheck Hheight Hcount Hget. unfold health. cbn [ask].
  rewrite Hcheck. cbn [ask]. rewrite Hheight. cbn [ask].
  change (num_sub (Int h) (Int 1000)) with (of_integer (h + - (1000))).
  replace (h + - (1000)) with (h - 1000) by lia.
  rewrite of_integer_small by lia. fold (num (h - 1000)).
  rewrite Hcount. cbn [bind]. unfold health_report. cbn [nth].
  rewrite Hget. cbn [bind ToString]. rewrite parseInt_decimal by lia.
  reflexivity.
Qed.

(** X13. The raw-data endpoint never fails on the content of a row: for
    every row that is an object, whatever its payload, the status is 200,
    [parsed_blocks] is the normalized list of the payload,
    [total_blocks] its length, and [sample_block] its first record, or
    [null] when the list is empty or starts with a value that counts as
    false.  A payload that does not decode is reported as zero blocks. *)
Theorem debug_raw_data_reports (s : Services) (props : list (string * value))
    (others : list value) :
  probe s LatestRow [] = Ok (VObj props :: others) ->
  let row := VObj props in
  let parsed := Spec.normalize (Spec.decode P (Records.field "data" row)) in
  ask s (debug_raw_data P) =
  ({| raw_status := 200;
      raw_body :=
        RawData (Records.field "from_block_number" row)
          (Records.field "to_block_number" row)
          (Records.field "network" row) (Records.field "stream_id" row)
          parsed (Z.of_nat (List.length parsed))
          (match parsed with
           | first :: _ => if truthy first then first else VNull
           | [] => VNull
           end) |},
   [AskedPool LatestRow []]).
Proof.
  intros Hrows row parsed. unfold debug_raw_data. cbn [ask]. rewrite Hrows.
  cbn [bind]. unfold raw_report. rewrite !get_field. cbn [bind].
  rewrite parseBlockData_ok. cbn [bind]. fold row. fold parsed.
  destruct parsed as [ | first rest ]; reflexivity.
Qed.
End DiagnosticFacts.

(** ** The block search of the dashboard *)

Section SearchFacts.
Import JS Records.

(** X14. A search never leaves the loading flag set, and reports one
    outcome.  With an empty search text the only effect is to clear the
    search result.  With any other text the run starts by setting the
    flag and ends by clearing it; in between it sends at most one
    request, and then either sets the search result or raises one
    alert. *)
Theorem searchBlock_clears_loading (blockSearch : string)
    (recentBlocks : list value) (w : World) :
  (blockSearch = EmptyString
   /\ snd (run w (App.searchBlock blockSearch recentBlocks)) =
      [ESetSearchResult VNull])
  \/ (blockSearch <> EmptyString
      /\ exists requests outcome,
           snd (run w (App.searchBlock blockSearch recentBlocks)) =
           ESetLoading true :: requests ++ [outcome; ESetLoading false]
           /\ (requests = [] \/ exists url, requests = [EAxiosGet url])
           /\ ((exists v, outcome = ESetSearchResult v)
               \/ (exists message, outcome = EAlert message))).
Proof.
  destruct blockSearch as [ | c rest ]; [left; split; reflexivity | ].
  right. split; [discriminate | ].
  unfold App.searchBlock.
  change (truthy (VStr (String c rest))) with true. cbn [negb run snd].
  destruct (Server.find_block recentBlocks (parseInt (String c rest)))
    as [found | e].
  - destruct (truthy found).
    + exists [], (ESetSearchResult found). cbn [run snd app].
      split; [reflexivity | ]. split; [now left | left; now exists found].
    + cbn [run].
      set (url := (App.API_URL ++ "/api/blocks/"
                   ++ number_to_string (parseInt (String c rest)))%string).
      destruct (axios_get w url) as [data | [status | ]].
      * exists [EAxiosGet url], (ESetSearchResult data). cbn [run snd app].
        split; [reflexivity | ].
        split; [right; now exists url | left; now exists data].
      * destruct (Z.eq_dec status 404) as [-> | Hother].
        -- exists [EAxiosGet url], (EAlert "Block not found").
           cbn [run snd app]. split; [reflexivity | ].
           split; [right; now exists url | right; now eexists].
        -- exists [EAxiosGet url], (EAlert "Error searching block").
           split; [ | split; [right; now exists url | right; now eexists]].
           destruct status as [ | p | p ]; try reflexivity.
           repeat (destruct p as [p | p | ]; try reflexivity).
           contradiction.
      * exists [EAxiosGet url], (EAlert "Error searching block").
        cbn [run snd app]. split; [reflexivity | ].
        split; [right; now exists url | right; now eexists].
  - exists [], (EAlert "Invalid block number"). cbn [run snd app].
    split; [reflexivity | ]. split; [now left | right; now eexists].
Qed.

(** X15. The search looks in the recent blocks first.  For a search text
    that reads as the integer [n], below 2^53 in magnitude, where a
    number prints digit for digit: when the recent blocks hold a record
    of block [n], the first such record becomes the search result and no
    request is sent; when they hold none, one request goes to
    [/api/blocks/n], with [n] in decimal notation, and its answer decides
    the outcome: the data of a successful answer becomes the search
    result, a 404 raises "Block not found", any other failure "Error
    searching block". *)
Theorem searchBlock_recent_first (blockSearch : string) (n : Z)
    (recentBlocks : list value) (w : World) :
  blockSearch <> EmptyString ->
  parseInt blockSearch = Int n ->
  Z.abs n < 2 ^ 53 ->
  Forall (fun b => numbered b = true) recentBlocks ->
  (forall record later,
     records_of_block n recentBlocks = record :: later ->
     snd (run w (App.searchBlock blockSearch recentBlocks)) =
     [ESetLoading true; ESetSearchResult record; ESetLoading false])
  /\ (records_of_block n recentBlocks = [] ->
      let url := ("http://localhost:3001/api/blocks/" ++ string_of_Z n)%string in
      snd (run w (App.searchBlock blockSearch recentBlocks)) =
      [ESetLoading true;
       EAxiosGet url;
       match axios_get w url with
       | HttpOk data => ESetSearchResult data
       | HttpFailed (Some 404) => EAlert "Block not found"
       | HttpFailed _ => EAlert "Error searching block"
       end;
       ESetLoading false]).
Proof.
  intros Hfilled Hparse _ Hnum.
  destruct blockSearch as [ | c rest ]; [contradiction | ].
  unfold App.searchBlock.
  change (truthy (VStr (String c rest))) with true. cbn [negb run snd].
  rewrite Hparse, (find_block_numbered n recentBlocks Hnum).
  split.
  - intros record later Hrecord. rewrite Hrecord.
    rewrite (numbered_truthy record
               (records_of_block_numbered n _ record later Hnum Hrecord)).
    reflexivity.
  - intros Hnone. rewrite Hnone. cbn [truthy run number_to_string].
    change (App.API_URL ++ "/api/blocks/" ++ string_of_Z n)%string
      with ("http://localhost:3001/api/blocks/" ++ string_of_Z n)%string.
    set (url := ("http://localhost:3001/api/blocks/" ++ string_of_Z n)%string).
    destruct (axios_get w url) as [data | [status | ]]; try reflexivity.
    destruct status as [ | p | p ]; try reflexivity.
    repeat (destruct p as [p | p | ]; try reflexivity).
Qed.
End SearchFacts.

(** ** The summary computed by the dashboard *)

Section SummaryRangeFacts.
Import JS Records Summary.
Variable P : Platform.

Lemma numbered_field (b : value) :
  numbered b = true -> field "blockNumber" b = VNum (Int (key b)).
Proof.
  intros Hb. pose proof (numbered_get b Hb) as Hget.
  now apply get_ok_field in Hget.
Qed.

Lemma first_block_step (f k : Z) :
  Math_min (ToNumber P (js_or (num f) (VNum Infinity))) (Int k) =
  Int (if f =? 0 then k else Z.min f k).
Proof.
  unfold js_or, num. cbn [truthy].
  destruct (Z.eqb_spec f 0) as [-> | Hf]; cbn [negb ToNumber Math_min num_lt].
  - reflexivity.
  - destruct (Z.ltb_spec k f); f_equal; lia.
Qed.

Lemma last_block_step (l k : Z) :
  Math_max (ToNumber P (js_or (num l) (num 0))) (Int k) = Int (Z.max l k).
Proof.
  unfold js_or, num. cbn [truthy].
  destruct (Z.eqb_spec l 0) as [-> | Hl]; cbn [negb ToNumber Math_max num_lt];
    destruct (Z.ltb_spec 0 k); try destruct (Z.ltb_spec l k); f_equal; lia.
Qed.

Lemma summarize_range (recentBlocks : list value) (r : value)
    (f l : Z) (tx cl : number) (gas : Z) (b : value) :
  summable b = true -> numbered b = true ->
  App.summarize P recentBlocks (summary_of r (num f) (num l) tx cl gas) b =
  Ok (summary_of (num (Z.of_nat (List.length recentBlocks)))
        (num (if f =? 0 then key b else Z.min f (key b)))
        (num (Z.max l (key b)))
        (num_add tx (Int (count_of "hyperEVMTxns" b)))
        (num_add cl (Int (count_of "crossLayerCalls" b)))
        (gas + gas_of b)).
Proof.
  intros Hsum Hnum.
  rewrite (summarize_numbers P recentBlocks r (num f) (num l) tx cl gas b Hsum).
  rewrite (numbered_field _ Hnum). cbn [ToNumber].
  now rewrite first_block_step, last_block_step.
Qed.

(** The range of the records seen so far: nothing seen and both bounds
    still 0, or bounds that are block numbers seen and enclose all. *)
Lemma reduce_range (recentBlocks blocks : list value) :
  Forall (fun b => summable b = true) blocks ->
  Forall (fun b => Range.positive b = true) blocks ->
  forall seen r f l tx cl gas,
    (seen = [] /\ f = 0 /\ l = 0) \/ (0 < f /\ Range.spans f l seen) ->
    exists r' f' l' tx' cl' gas',
      App.reduce (App.summarize P recentBlocks) blocks
        (summary_of r (num f) (num l) tx cl gas) =
      Ok (summary_of r' (num f') (num l') tx' cl' gas')
      /\ ((seen ++ blocks = [] /\ f' = 0 /\ l' = 0)
          \/ (0 < f' /\ Range.spans f' l' (seen ++ blocks)))
      /\ (blocks <> [] -> r' = num (Z.of_nat (List.length recentBlocks))).
Proof.
  induction 1 as [ | b rest Hb Hrest IH ]; intros Hpos seen r f l tx cl gas Hinv.
  - exists r, f, l, tx, cl, gas. rewrite List.app_nil_r.
    split; [reflexivity | ]. split; [assumption | congruence].
  - inversion Hpos as [ | ? ? Hbpos Hrestpos ]; subst.
    apply andb_prop in Hbpos as [Hnum Hkey]. apply Z.ltb_lt in Hkey.
    cbn [App.reduce]. rewrite (summarize_range recentBlocks r f l _ _ _ b Hb Hnum).
    cbn [bind].
    destruct (IH Hrestpos (seen ++ [b])
                (num (Z.of_nat (List.length recentBlocks)))
                (if f =? 0 then key b else Z.min f (key b)) (Z.max l (key b))
                (num_add tx (Int (count_of "hyperEVMTxns" b)))
                (num_add cl (Int (count_of "crossLayerCalls" b)))
                (gas + gas_of b))
      as (r' & f' & l' & tx' & cl' & gas' & Hrun & Hrange & Hcount).
    { right. destruct Hinv as [(-> & -> & ->) | (Hf & (lo & Hlo) & (hi & Hhi) & Hall)].
      - cbn [Z.eqb app]. split; [assumption | ].
        repeat split.
        + exists b. split; [now left | reflexivity].
        + exists b. split; [now left | lia].
        + destruct H as [<- | []]. lia.
        + destruct H as [<- | []]. lia.
      - destruct (Z.eqb_spec f 0) as [-> | _]; [lia | ].
        split; [lia | ]. repeat split.
        + destruct (Z.le_gt_cases f (key b)).
          * exists lo. split; [apply in_or_app; now left | lia].
          * exists b. split; [apply in_or_app; right; now left | lia].
        + destruct (Z.le_gt_cases (key b) l).
          * exists hi. split; [apply in_or_app; now left | lia].
          * exists b. split; [apply in_or_app; right; now left | lia].
        + apply in_app_or in H as [Hin | [<- | []]];
            [specialize (Hall _ Hin) | ]; lia.
        + apply in_app_or in H as [Hin | [<- | []]];
            [specialize (Hall _ Hin) | ]; lia. }
    exists r', f', l', tx', cl', gas'.
    rewrite <- List.app_assoc in Hrange. cbn [app] in Hrange.
    split; [assumption | ]. split; [assumption | ].
    intros _. destruct rest as [ | b' rest' ].
    + cbn [App.reduce] in Hrun. now injection Hrun as <- _ _ _ _ _.
    + apply Hcount. discriminate.
Qed.

(** X16. The summary the dashboard computes when the stats request has
    not answered covers the records it holds: for records with positive
    block numbers [totalRecords] is their number, and [firstBlock] and
    [lastBlock] are the lowest and the highest block number among them;
    with no record held the three are 0. *)
Theorem totalStats_range (recentBlocks : list value) :
  Forall (fun b => summable b = true) recentBlocks ->
  Forall (fun b => Range.positive b = true) recentBlocks ->
  exists s first last,
    App.totalStats P VNull recentBlocks = Ok s
    /\ field "totalRecords" s = num (Z.of_nat (List.length recentBlocks))
    /\ field "firstBlock" s = num first
    /\ field "lastBlock" s = num last
    /\ (recentBlocks = [] -> first = 0 /\ last = 0)
    /\ (recentBlocks <> [] -> Range.spans first last recentBlocks).
Proof.
  intros Hsum Hpos. unfold App.totalStats. cbn [truthy].
  change (App.initial_summary)
    with (summary_of (num 0) (num 0) (num 0) (Int 0) (Int 0) 0).
  destruct (reduce_range recentBlocks recentBlocks Hsum Hpos [] (num 0) 0 0
              (Int 0) (Int 0) 0)
    as (r' & f' & l' & tx' & cl' & gas' & Hrun & Hrange & Hcount);
    [left; now repeat split | ].
  cbn [app] in Hrange.
  exists (summary_of r' (num f') (num l') tx' cl' gas'), f', l'.
  split; [assumption | ].
  split.
  { destruct recentBlocks as [ | b rest ].
    - cbn [App.reduce] in Hrun. now injection Hrun as <- _ _ _ _ _.
    - rewrite Hcount by discriminate. reflexivity. }
  split; [reflexivity | ]. split; [reflexivity | ].
  split.
  - intros ->. destruct Hrange as [(_ & -> & ->) | (_ & (b & [] & _) & _)].
    now split.
  - intros Hsome. destruct Hrange as [(-> & _) | (_ & Hspans)];
      [contradiction | assumption].
Qed.

Lemma reduce_app (f : value -> value -> Res value) (l1 l2 : list value) :
  forall acc,
    App.reduce f (l1 ++ l2) acc =
    (acc' <- App.reduce f l1 acc ;; App.reduce f l2 acc').
Proof.
  induction l1 as [ | x rest IH ]; intros acc; [reflexivity | ].
  cbn [app App.reduce]. destruct (f acc x) as [acc' | e]; [ | reflexivity ].
  cbn [bind]. apply IH.
Qed.

(** X17. The summary of the dashboard needs the gas of every record: a
    held record without a [gasUsed] field makes the computation throw a
    [TypeError], whereas the fold of the stats query counts such a record
    with no gas. *)
Theorem totalStats_missing_gas (before after : list value)
    (props : list (string * value)) :
  Forall (fun b => summable b = true) before ->
  lookup "gasUsed" props = None ->
  App.totalStats P VNull (before ++ VObj props :: after) = Throw TypeError
  /\ gas_of (VObj props) = 0.
Proof.
  intros Hsum Hgas. split; [ | now apply gas_of_absent ].
  unfold App.totalStats. cbn [truthy]. rewrite reduce_app.
  change (App.initial_summary)
    with (summary_of (num 0) (num 0) (num 0) (Int 0) (Int 0) 0).
  destruct (reduce_numbers P (before ++ VObj props :: after) before Hsum
              (num 0) (num 0) (num 0) (Int 0) (Int 0) 0) as (r & f & l & Hrun).
  rewrite Hrun. cbn [bind App.reduce]. unfold App.summarize.
  rewrite !get_field.
  match goal with
  | |- context [get (summary_of ?r ?f ?l ?tx ?cl ?gas) "firstBlock"] =>
      change (get (summary_of r f l tx cl gas) "firstBlock") with (Ok f);
      change (get (summary_of r f l tx cl gas) "lastBlock") with (Ok l);
      change (get (summary_of r f l tx cl gas) "totalTransactions")
        with (Ok (VNum tx));
      change (get (summary_of r f l tx cl gas) "totalCrossLayerCalls")
        with (Ok (VNum cl));
      change (get (summary_of r f l tx cl gas) "totalGasUsed")
        with (Ok (VStr (string_of_Z gas)))
  end.
  cbn [bind]. unfold js_or at 1. rewrite string_of_Z_truthy, BigInt_string_of_Z.
  cbn [bind]. unfold field at 1. rewrite Hgas. reflexivity.
Qed.
End SummaryRangeFacts.

(** ** What the dashboard shows *)

Section ChartFacts.
Import JS Records.

Lemma sorted_snoc {A : Type} (R : A -> A -> Prop) (l : list A) (a : A) :
  StronglySorted R l -> Forall (fun x => R x a) l ->
  StronglySorted R (l ++ [a]).
Proof.
  induction 1 as [ | x rest Hrest IH Hx ]; intros Hall; cbn [app].
  - repeat constructor.
  - inversion Hall as [ | ? ? Hxa Hresta ]; subst.
    constructor; [now apply IH | ].
    apply Forall_app. split; [assumption | now constructor].
Qed.

Lemma descending_rev (l : list value) :
  descending l -> StronglySorted Z.le (rev (map key l)).
Proof.
  induction 1 as [ | x rest Hrest IH Hx ]; cbn [map rev]; [constructor | ].
  apply sorted_snoc; [assumption | ].
  rewrite Forall_forall in *. intros k Hk.
  apply in_rev, in_map_iff in Hk as (b & <- & Hb). now apply Hx.
Qed.

Lemma map_res_length {A B : Type} (f : A -> Res B) (l : list A) :
  forall ys, map_res f l = Ok ys -> List.length ys = List.length l.
Proof.
  induction l as [ | x rest IH ]; intros ys Hmap.
  - now injection Hmap as <-.
  - cbn [map_res] in Hmap. destruct (f x) as [y | e]; [ | discriminate ].
    cbn [bind] in Hmap.
    destruct (map_res f rest) as [ys' | e]; [ | discriminate ].
    injection Hmap as <-. cbn [List.length]. now rewrite (IH ys').
Qed.

Lemma bars_numbered (l : list value) :
  Forall (fun b => numbered b = true) l ->
  exists bars,
    map_res Dashboard.bar_of l = Ok bars
    /\ map Dashboard.block bars = map (fun b => num (key b)) l.
Proof.
  induction 1 as [ | b rest Hb Hrest (bars & Hbars & Hblocks) ].
  - now exists [].
  - cbn [map_res]. unfold Dashboard.bar_of at 1.
    rewrite (numbered_get b Hb).
    destruct b as [ | | x | n | s | elems | props ]; try discriminate.
    rewrite !get_field. cbn [bind]. rewrite Hbars. cbn [bind].
    eexists. split; [reflexivity | ]. cbn [map Dashboard.block].
    now rewrite Hblocks.
Qed.

Lemma firstn_all_such {A : Type} (Q : A -> Prop) (n : nat) (l : list A) :
  Forall Q l -> Forall Q (firstn n l).
Proof.
  intros Hall. rewrite <- (firstn_skipn n l) in Hall.
  now apply Forall_app in Hall as [Hfirst _].
Qed.

(** X18. The activity chart shows the rows of the table of recent blocks
    in the opposite order: at most ten bars, those of the first ten
    records held, and, the records being held by non-increasing block
    number, in non-decreasing order of block number. *)
Theorem activityChartData_ascending (recentBlocks : list value) :
  Forall (fun b => numbered b = true) recentBlocks ->
  descending recentBlocks ->
  exists bars,
    Dashboard.activityChartData recentBlocks = Ok bars
    /\ List.length bars = Nat.min 10 (List.length recentBlocks)
    /\ map Dashboard.block bars =
       rev (map (fun b => num (key b)) (Dashboard.table_rows recentBlocks))
    /\ StronglySorted Z.le
         (rev (map key (Dashboard.table_rows recentBlocks))).
Proof.
  intros Hnum Hdesc.
  unfold Dashboard.activityChartData, Dashboard.table_rows.
  rewrite (slice_prefix 10).
  assert (Hrows : Forall (fun b => numbered b = true)
                    (rev (firstn 10 recentBlocks))).
  { apply Forall_rev. now apply firstn_all_such. }
  destruct (bars_numbered _ Hrows) as (bars & Hbars & Hblocks).
  exists bars. split; [assumption | ]. split; [ | split ].
  - rewrite (map_res_length _ _ _ Hbars), length_rev, length_firstn.
    reflexivity.
  - now rewrite Hblocks, map_rev.
  - apply descending_rev. unfold descending in *.
    rewrite <- (firstn_skipn 10 recentBlocks) in Hdesc.
    exact (sorted_prefix _ _ _ Hdesc).
Qed.
End ChartFacts.

Section GroupFacts.
Import JS Records Dashboard.

Lemma get_defined (p : value) (k : string) :
  match p with
  | VUndefined | VNull => get p k = Throw TypeError
  | _ => get p k = Ok (field k p)
  end.
Proof.
  destruct p as [ | | b | n | s | elems | props ]; try reflexivity.
  apply get_field.
Qed.

Lemma group_groupable (acc : Groups) (p : value) :
  groupable p = true ->
  group acc p =
  Ok (match own (type_of p) acc with
      | Some _ => push (type_of p) p acc
      | None => acc ++ [(type_of p, [p])]
      end).
Proof.
  intros Hp. unfold group, type_of. pose proof (get_defined p "type") as Hget.
  unfold groupable, type_of in Hp.
  destruct p as [ | | b | n | s | elems | props ]; try discriminate;
    rewrite Hget; cbn [bind];
    (destruct (own _ acc); [reflexivity | ]);
    apply negb_true_iff in Hp; now rewrite Hp.
Qed.

Lemma group_not_groupable (acc : Groups) (p : value) :
  groupable p = false -> own (type_of p) acc = None ->
  group acc p = Throw TypeError.
Proof.
  intros Hp Hown. unfold group. pose proof (get_defined p "type") as Hget.
  unfold groupable, type_of in Hp. unfold type_of in Hown.
  destruct p as [ | | b | n | s | elems | props ]; try reflexivity;
    rewrite Hget; cbn [bind];
    rewrite Hown; apply negb_false_iff in Hp; now rewrite Hp.
Qed.

Lemma own_unseen (k : string) (acc : Groups) :
  unseen acc k = match own k acc with Some _ => false | None => true end.
Proof.
  unfold unseen. induction acc as [ | [k' ps] rest IH ]; [reflexivity | ].
  cbn [map fst existsb own]. destruct (String.eqb k k'); [reflexivity | ].
  cbn [orb]. exact IH.
Qed.

Lemma keys_push (k : string) (p : value) (acc : Groups) :
  map fst (push k p acc) = map fst acc.
Proof.
  induction acc as [ | [k' ps] rest IH ]; [reflexivity | ].
  cbn [push]. destruct (String.eqb k k'); cbn [map fst]; [reflexivity | ].
  now rewrite IH.
Qed.

Lemma own_push (k k0 : string) (p : value) (acc : Groups) :
  own k (push k0 p acc) =
  if String.eqb k k0
  then match own k acc with Some ps => Some (ps ++ [p]) | None => None end
  else own k acc.
Proof.
  induction acc as [ | [k' ps] rest IH ].
  - cbn [push own]. now destruct (String.eqb k k0).
  - cbn [push own].
    destruct (String.eqb_spec k0 k') as [<- | Hk0]; cbn [own].
    + destruct (String.eqb_spec k k0) as [-> | Hk]; [reflexivity | ].
      reflexivity.
    + destruct (String.eqb_spec k k') as [-> | Hk].
      * destruct (String.eqb_spec k' k0) as [<- | _]; [contradiction | ].
        reflexivity.
      * exact IH.
Qed.

Lemma own_snoc (k k0 : string) (ps0 : list value) (acc : Groups) :
  own k (acc ++ [(k0, ps0)]) =
  match own k acc with
  | Some ps => Some ps
  | None => if String.eqb k k0 then Some ps0 else None
  end.
Proof.
  induction acc as [ | [k' ps] rest IH ]; [reflexivity | ].
  cbn [app own]. destruct (String.eqb k k'); [reflexivity | exact IH].
Qed.

Lemma filter_twice {A : Type} (f g : A -> bool) (l : list A) :
  filter f (filter g l) = filter (fun x => f x && g x) l.
Proof.
  induction l as [ | x rest IH ]; [reflexivity | ].
  cbn [filter]. destruct (g x); cbn [filter].
  - rewrite andb_true_r. destruct (f x); now rewrite IH.
  - now rewrite andb_false_r.
Qed.

Lemma filter_has_type (k : string) (p : value) (rest : list value) :
  filter (has_type k) (p :: rest) =
  if String.eqb (type_of p) k then p :: filter (has_type k) rest
  else filter (has_type k) rest.
Proof. reflexivity. Qed.

(** What the fold gives from an object under construction: the names of
    the object, then the new types in the order of their first
    occurrence; under each name the patterns it had, then the patterns of
    that type in the order of the list. *)
Lemma group_from_groupable (patterns : list value) :
  Forall (fun p => groupable p = true) patterns ->
  forall acc,
  exists groups,
    group_from acc patterns = Ok groups
    /\ map fst groups =
       map fst acc
       ++ filter (unseen acc) (first_occurrences (map type_of patterns))
    /\ forall k,
         own k groups =
         match own k acc, filter (has_type k) patterns with
         | Some ps, more => Some (ps ++ more)
         | None, [] => None
         | None, more => Some more
         end.
Proof.
  induction 1 as [ | p rest Hp Hrest IH ]; intros acc.
  - exists acc. split; [reflexivity | ]. cbn [map first_occurrences filter].
    split; [now rewrite List.app_nil_r | ].
    intros k. destruct (own k acc); [now rewrite List.app_nil_r | reflexivity].
  - cbn [group_from]. rewrite (group_groupable acc p Hp). cbn [bind].
    cbn [map first_occurrences].
    pose proof (own_unseen (type_of p) acc) as Hseen.
    destruct (own (type_of p) acc) as [ps0 | ] eqn:Hown.
    + destruct (IH (push (type_of p) p acc)) as (groups & Hrun & Hkeys & Hgroups).
      exists groups. split; [assumption | ]. split.
      * rewrite Hkeys, keys_push. cbn [filter]. rewrite Hseen. f_equal.
        rewrite filter_twice. apply filter_ext. intros k.
        unfold unseen in *. rewrite keys_push.
        destruct (String.eqb_spec k (type_of p)) as [-> | _];
          [ | now rewrite andb_true_r ].
        rewrite Hseen. reflexivity.
      * intros k. rewrite Hgroups, own_push, filter_has_type.
        destruct (String.eqb_spec k (type_of p)) as [-> | Hk].
        -- rewrite Hown, String.eqb_refl. now rewrite <- List.app_assoc.
        -- destruct (String.eqb_spec (type_of p) k) as [<- | _];
             [contradiction | reflexivity].
    + destruct (IH (acc ++ [(type_of p, [p])]))
        as (groups & Hrun & Hkeys & Hgroups).
      exists groups. split; [assumption | ]. split.
      * rewrite Hkeys, map_app, <- List.app_assoc. cbn [map fst app filter].
        rewrite Hseen. f_equal. f_equal. rewrite filter_twice.
        apply filter_ext. intros k.
        unfold unseen. rewrite map_app, existsb_app. cbn [map fst existsb].
        rewrite orb_false_r, negb_orb. reflexivity.
      * intros k. rewrite Hgroups, own_snoc, filter_has_type.
        destruct (own k acc) as [ps | ] eqn:Hk.
        -- destruct (String.eqb_spec (type_of p) k) as [<- | _];
             [congruence | reflexivity].
        -- destruct (String.eqb_spec k (type_of p)) as [-> | Hne].
           ++ now rewrite String.eqb_refl.
           ++ destruct (String.eqb_spec (type_of p) k) as [<- | _];
                [contradiction | reflexivity].
Qed.







Lemma group_from_app (before after : list value) :
  forall acc,
    group_from acc (before ++ after) =
    (acc' <- group_from acc before ;; group_from acc' after).
Proof.
  induction before as [ | p rest IH ]; intros acc; [reflexivity | ].
  cbn [app group_from]. destruct (group acc p) as [acc' | e]; [ | reflexivity ].
  cbn [bind]. apply IH.
Qed.

Lemma groupable_other_type (p q : value) :
  groupable p = true -> groupable q = false ->
  q <> VUndefined -> q <> VNull ->
  has_type (type_of q) p = false.
Proof.
  intros Hp Hq Hundefined Hnull. unfold has_type.
  destruct (String.eqb_spec (type_of p) (type_of q)) as [Heq | ];
    [ | reflexivity ].
  assert (Hinherited : inherited (type_of q) = true).
  { unfold groupable in Hq. destruct q; try contradiction;
      now apply negb_false_iff in Hq. }
  rewrite <- Heq in Hinherited.
  unfold groupable in Hp. destruct p; try discriminate;
    now rewrite Hinherited in Hp.
Qed.

(** X20. A pattern that cannot be filed stops the rendering of the
    block: when the patterns before it are objects with ordinary types
    and the pattern is [null], [undefined], or has the name of an
    inherited property (such as [constructor] or [toString]) as its
    type, the grouping throws a [TypeError], whatever follows. *)
Theorem patternsByType_inherited_name (before after : list value) (p : value) :
  Forall (fun q => groupable q = true) before ->
  groupable p = false ->
  patternsByType (before ++ p :: after) = Throw TypeError
  /\ rendered_groups (before ++ p :: after) = Throw TypeError.
Proof.
  intros Hbefore Hp.
  assert (Hrun : patternsByType (before ++ p :: after) = Throw TypeError).
  { unfold patternsByType. rewrite group_from_app.
    destruct (group_from_groupable before Hbefore [])
      as (groups & Hrun & _ & Hgroups).
    rewrite Hrun. cbn [bind group_from].
    destruct p as [ | | b | n | s | elems | props ]; try reflexivity;
      (rewrite group_not_groupable; [reflexivity | assumption | ]);
      rewrite Hgroups; cbn [own];
      match goal with
      | |- context [filter (has_type (type_of ?q)) before] =>
          replace (filter (has_type (type_of q)) before) with (@nil value);
          [reflexivity | ];
          symmetry; clear Hrun Hgroups;
          induction Hbefore as [ | x rest Hx _ IH ]; [reflexivity | ];
          cbn [filter];
          rewrite (groupable_other_type x q Hx Hp) by discriminate;
          exact IH
      end. }
  split; [assumption | ]. unfold rendered_groups. now rewrite Hrun.
Qed.
End GroupFacts.

Section LiquidationFacts.
Import JS Dashboard.

Lemma whole_units_decimal (a : Z) :
  0 <= a ->
  whole_units (VStr (string_of_Z a)) = Ok (string_of_Z (a / 10 ^ 18)).
Proof.
  intros Ha. unfold whole_units. rewrite BigInt_string_of_Z.
  cbn [bind BigInt ToPrimitive]. unfold BigInt_toString.
  now rewrite Z.quot_div_nonneg by lia.
Qed.

(** The amount and the hash of a liquidation, as the record has them. *)
Lemma liquidation_line_decimal (liq : value) (a : Z) (txHash : string) :
  get liq "value" = Ok (VStr (string_of_Z a)) ->
  get liq "txHash" = Ok (VStr txHash) ->
  0 <= a ->
  liquidation_line liq =
  Ok (string_of_Z (a / 10 ^ 18), VStr (substring 0 10 txHash)).
Proof.
  intros Hvalue Hhash Ha. unfold liquidation_line. rewrite Hvalue.
  cbn [bind]. rewrite (whole_units_decimal a Ha). cbn [bind].
  rewrite Hhash. reflexivity.
Qed.

(** X21. The top liquidations shown are the first three of the record,
    in their order.  Each amount, held as a decimal string of any length,
    is shown as its whole number of units of 10^18, the remainder
    dropped, in exact integer arithmetic; each hash is cut to its first
    ten characters. *)
Theorem top_liquidations_shown (topLiquidations : list value)
    (entries : list (Z * string)) :
  Forall2 (fun liq entry =>
             get liq "value" = Ok (VStr (string_of_Z (fst entry)))
             /\ get liq "txHash" = Ok (VStr (snd entry))
             /\ 0 <= fst entry)
          topLiquidations entries ->
  top_liquidations topLiquidations =
    Ok (map (fun entry =>
               (string_of_Z (fst entry / 10 ^ 18),
                VStr (substring 0 10 (snd entry))))
            (firstn 3 entries))
  /\ Forall (fun entry =>
               (fst entry / 10 ^ 18) * 10 ^ 18 <= fst entry
                 < (fst entry / 10 ^ 18 + 1) * 10 ^ 18
               /\ StringToBigInt (string_of_Z (fst entry / 10 ^ 18)) =
                  Some (fst entry / 10 ^ 18))
            entries.
Proof.
  intros Hall. split.
  - unfold top_liquidations. rewrite (slice_prefix 3).
    assert (Hfirst : Forall2 (fun liq entry =>
                        get liq "value" = Ok (VStr (string_of_Z (fst entry)))
                        /\ get liq "txHash" = Ok (VStr (snd entry))
                        /\ 0 <= fst entry)
                       (firstn 3 topLiquidations) (firstn 3 entries)).
    { clear - Hall. generalize 3%nat as n. intros n. revert n.
      induction Hall as [ | liq entry liqs entries' H _ IH ]; intros [ | n ];
        cbn [firstn]; constructor; [assumption | apply IH]. }
    induction Hfirst as [ | liq entry liqs entries' (Hvalue & Hhash & Ha) _ IH ];
      [reflexivity | ].
    cbn [map_res map].
    rewrite (liquidation_line_decimal liq _ _ Hvalue Hhash Ha). cbn [bind].
    now rewrite IH.
  - induction Hall as [ | liq entry liqs entries' (_ & _ & Ha) _ IH ];
      constructor; [ | assumption ].
    split; [ | apply StringToBigInt_string_of_Z ].
    pose proof (Z.div_mod (fst entry) (10 ^ 18)) as Hdiv.
    pose proof (Z.mod_pos_bound (fst entry) (10 ^ 18)) as Hmod.
    lia.
Qed.
End LiquidationFacts.

Section PollFacts.
Import JS Dashboard.

Lemma polls_history (polls : list (option HypeTokenData * string)) :
  forall s,
    hypePriceHistory (fold_left fetchHypeData polls s) =
    App.history_after (flat_map sample_of polls) (hypePriceHistory s).
Proof.
  induction polls as [ | [[data | ] now] rest IH ]; intros s; [reflexivity | | ].
  - cbn [fold_left flat_map sample_of app]. rewrite IH. reflexivity.
  - cbn [fold_left flat_map sample_of app]. apply IH.
Qed.

(** X22. Only the polls that were answered leave a point in the price
    chart.  After any run of polls the history is made of the last 30 of
    the points it had followed by one point for each answered poll, at
    the price of that answer and in the order of the polls; a poll that
    fails changes neither the history nor the token data shown. *)
Theorem fetchHypeData_history (polls : list (option HypeTokenData * string))
    (s : Hype) :
  (List.length (hypePriceHistory s) <= 30)%nat ->
  let points := hypePriceHistory s ++ flat_map sample_of polls in
  hypePriceHistory (fold_left fetchHypeData polls s) =
    skipn (List.length points - 30) points
  /\ (List.length (hypePriceHistory (fold_left fetchHypeData polls s)) <= 30)%nat
  /\ (forall now, fetchHypeData s (None, now) = s).
Proof.
  intros Hlen points.
  assert (Hhistory : hypePriceHistory (fold_left fetchHypeData polls s) =
                     skipn (List.length points - 30) points).
  { rewrite polls_history. now apply history_after_suffix. }
  split; [assumption | ]. split; [ | reflexivity ].
  rewrite Hhistory, length_skipn. lia.
Qed.
End PollFacts.

(** ** The range reported by the stats query *)

Section MetadataFacts.
Import JS Records.
Variable P : Platform.

Lemma parseInt_number (a : Z) :
  Z.abs a < 2 ^ 53 -> parseInt (ToString (num a)) = Int a.
Proof. apply parseInt_decimal. Qed.

(** X23. The stats response reads the count and the range from the
    metadata row.  A count below 2^53 that the storage gives in decimal
    notation is reported as that number.  A bound below 2^53 in
    magnitude, given as a number or in decimal notation, is reported as
    that number; a bound that is [null], as it is for a table without
    rows, is handed to [res.json] as [NaN], which the body of the
    response carries as [null], and not as 0.  The totals are those of
    the fold over the rows. *)
Theorem stats_reads_metadata (w : World) (n : Z) (first last : value)
    (rows : list value) (t : Server.Totals) :
  Z.abs n < 2 ^ 53 ->
  pool_query w RangeMetadata [] =
    Ok [VObj [("total_records", VStr (string_of_Z n));
              ("first_block", first); ("last_block", last)]] ->
  pool_query w AllData [] = Ok rows ->
  Server.aggregate P rows = Ok t ->
  exists firstBlock lastBlock,
    run w (Server.stats P) =
      (Server.res_json
         (Server.StatsJson (Int n) firstBlock lastBlock
            (Server.totalTransactions t) (Server.totalCrossLayerCalls t)
            (Server.totalHyperCoreActions t)
            (BigInt_toString (Server.totalGasUsed t))
            (Server.processedBlocks t)
            (Server.crossLayerPercentage P (Server.totalCrossLayerCalls t)
               (Server.totalTransactions t))),
       [EPoolQuery RangeMetadata []; EPoolQuery AllData []])
    /\ (first = VNull ->
        firstBlock = NaN /\ JSON_number firstBlock = "null")
    /\ (last = VNull ->
        lastBlock = NaN /\ JSON_number lastBlock = "null")
    /\ (forall a,
          Z.abs a < 2 ^ 53 ->
          first = num a \/ first = VStr (string_of_Z a) ->
          firstBlock = Int a /\ JSON_number firstBlock = string_of_Z a)
    /\ (forall b,
          Z.abs b < 2 ^ 53 ->
          last = num b \/ last = VStr (string_of_Z b) ->
          lastBlock = Int b /\ JSON_number lastBlock = string_of_Z b).
Proof.
  intros Hn Hmeta Hrows Htotals.
  exists (parseInt (ToString first)), (parseInt (ToString last)).
  split; [ | split; [ | split; [ | split ]]].
  - unfold Server.stats. cbn [run]. rewrite Hmeta. cbn [run nth].
    rewrite Hrows. cbn [bind]. rewrite Htotals. cbn [bind].
    unfold Server.stats_json. rewrite !get_object.
    cbn [lookup String.eqb Ascii.eqb Bool.eqb bind ToString].
    now rewrite (parseInt_decimal _ Hn).
  - now intros ->.
  - now intros ->.
  - intros a Ha [-> | ->];
      [rewrite (parseInt_number a Ha) | cbn [ToString];
                                        rewrite (parseInt_decimal a Ha)];
      now split.
  - intros b Hb [-> | ->];
      [rewrite (parseInt_number b Hb) | cbn [ToString];
                                        rewrite (parseInt_decimal b Hb)];
      now split.
Qed.
End MetadataFacts.

(** ** Search texts with trailing characters *)

Section TrailingTextFacts.
Import JS Records Digits.
Variable P : Platform.

Lemma read_digits_stops (c : ascii) (rest : string) (acc : Z) (seen : bool) :
  digit_value 10 c = None ->
  read_digits 10 (String c rest) acc seen = (acc, seen, String c rest).
Proof. intros Hc. cbn [read_digits]. now rewrite Hc. Qed.

Lemma read_digits_then (d : Decimal.uint) (c : ascii) (rest : string) :
  is_nil d = false ->
  digit_value 10 c = None ->
  read_digits 10 (NilEmpty.string_of_uint d ++ String c rest) 0 false =
  (uint_value d 0, true, String c rest).
Proof.
  intros Hd Hc.
  rewrite (read_digits_app 10 _ _ _ _ _ _ (read_digits_uint d 0 false)).
  rewrite Hd. now apply read_digits_stops.
Qed.

Lemma trim_start_digits (d : Decimal.uint) (suffix : string) :
  is_nil d = false ->
  trim_start (NilEmpty.string_of_uint d ++ suffix) =
  (NilEmpty.string_of_uint d ++ suffix)%string.
Proof. destruct d; [discriminate | .. ]; reflexivity. Qed.

Lemma parseInt_digits_then (d : Decimal.uint) (c : ascii) (rest : string) :
  is_nil d = false ->
  uint_value d 0 <> 0 ->
  digit_value 10 c = None ->
  parseInt (NilEmpty.string_of_uint d ++ String c rest) =
  of_integer (uint_value d 0).
Proof.
  intros Hd Hvalue Hc. unfold parseInt.
  rewrite (trim_start_digits d _ Hd).
  pose proof (read_digits_then d c rest Hd Hc) as Hread.
  destruct d as [ | u | u | u | u | u | u | u | u | u | u ];
    [ discriminate | .. ];
    cbn [NilEmpty.string_of_uint append] in *;
    try (cbv beta iota zeta; rewrite Hread; reflexivity).
  destruct u; cbn [NilEmpty.string_of_uint append] in *;
    try (cbn -[read_digits uint_value of_integer]; rewrite Hread;
         reflexivity).
  contradiction.
Qed.

Lemma parseInt_then (n : Z) (c : ascii) (rest : string) :
  0 < n ->
  digit_value 10 c = None ->
  parseInt (string_of_Z n ++ String c rest) = of_integer n.
Proof.
  intros Hn Hc. unfold string_of_Z.
  destruct n as [ | p | p ]; try lia.
  cbn [Z.to_int NilZero.string_of_int].
  destruct (string_of_uint_positive p) as [-> Hnil].
  rewrite (parseInt_digits_then _ c rest Hnil); [ | | assumption ];
    rewrite uint_value_zero, DecimalPos.Unsigned.of_to;
    [reflexivity | discriminate].
Qed.

Lemma filled_then (n : Z) (c : ascii) (rest : string) :
  truthy (VStr (string_of_Z n ++ String c rest)) = true.
Proof.
  cbn [truthy]. now destruct (string_of_Z n).
Qed.

(** X25. Characters after the number are ignored without notice.  A
    block number written as the decimal notation of a positive integer
    [n] followed by a character that is no decimal digit, and by anything
    after it, reads as the same number as the notation of [n] alone,
    which is [n] itself below 2^53, and is handled exactly as [n], by the
    lookup of the backend and by the search of the dashboard: the same
    calls, the same answer, and no report of an invalid input. *)
Theorem trailing_text_ignored (n : Z) (c : ascii) (rest : string)
    (recentBlocks : list value) :
  0 < n ->
  digit_value 10 c = None ->
  parseInt (string_of_Z n ++ String c rest) = parseInt (string_of_Z n)
  /\ (n < 2 ^ 53 -> parseInt (string_of_Z n ++ String c rest) = Int n)
  /\ Server.block_by_number P (string_of_Z n ++ String c rest) =
     Server.block_by_number P (string_of_Z n)
  /\ App.searchBlock (string_of_Z n ++ String c rest) recentBlocks =
     App.searchBlock (string_of_Z n) recentBlocks.
Proof.
  intros Hn Hc. pose proof (parseInt_then n c rest Hn Hc) as Hparse.
  split; [now rewrite Hparse, parseInt_string_of_Z | ].
  split; [intros Hsmall; rewrite Hparse; apply of_integer_small; lia | ].
  split.
  - unfold Server.block_by_number. now rewrite Hparse, parseInt_string_of_Z.
  - unfold App.searchBlock.
    rewrite filled_then, string_of_Z_truthy, Hparse, parseInt_string_of_Z.
    reflexivity.
Qed.
End TrailingTextFacts.

Section BoundFacts.
Import JS.
Variable P : Platform.

(** X26. The answer to the request for the recent blocks is bounded
    whatever the storage holds: the handler sends one query and answers
    either with status 200 and an array of at most 20 elements, or with
    status 500 and "Database error". *)
Theorem blocks_recent_at_most_20 (w : World) :
  exists response,
    run w (Server.blocks_recent P) = (response, [EPoolQuery RecentRows []])
    /\ ((Server.status response = 200
         /\ exists sortedBlocks,
              Server.body response = Server.Json (VArr sortedBlocks)
              /\ (List.length sortedBlocks <= 20)%nat)
        \/ (Server.status response = 500
            /\ exists e,
                 Server.body response =
                 Server.ErrorJson "Database error" (Some e))).
Proof.
  unfold Server.blocks_recent. cbn [run]. eexists. split; [reflexivity | ].
  destruct (pool_query w RecentRows []) as [rows | e]; cbn [bind].
  - unfold Server.mergeRecent.
    destruct (Server.flatten_rows P rows []) as [allBlocks | e]; cbn [bind].
    + destruct (sort (Server.by_blockNumber_desc P) allBlocks)
        as [sorted | e]; cbn [bind Server.respond].
      * left. split; [reflexivity | ]. eexists. split; [reflexivity | ].
        rewrite (slice_prefix 20), length_firstn. lia.
      * right. split; [reflexivity | now exists e].
    + right. split; [reflexivity | now exists e].
  - right. split; [reflexivity | now exists e].
Qed.
End BoundFacts.

(** ** From the storage to the chart *)

Section PipelineFacts.
Import JS Records.
Variable P : Platform.

(** X27. The activity chart of a dashboard that holds what the request
    for the recent blocks returned.  For rows whose normalized records
    carry integer block numbers, the chart has one bar for each of the
    ten records with the highest block numbers (for each record when
    there are fewer than ten), in non-decreasing order of block number:
    every record of the rows is charted or has a block number no higher
    than that of any bar. *)
Theorem recent_blocks_chart (rows allBlocks : list value) :
  Server.flatten_rows P rows [] = Ok allBlocks ->
  Forall (fun v => numbered v = true) allBlocks ->
  exists recentBlocks bars charted,
    Server.mergeRecent P rows = Ok recentBlocks
    /\ Dashboard.activityChartData recentBlocks = Ok bars
    /\ List.length bars = Nat.min 10 (List.length allBlocks)
    /\ map Dashboard.block bars = rev (map (fun b => num (key b)) charted)
    /\ StronglySorted Z.le (rev (map key charted))
    /\ forall b,
         In b allBlocks ->
         In b charted \/ forall c, In c charted -> key b <= key c.
Proof.
  intros Hflat Hnum.
  pose proof (sort_desc_numbered allBlocks Hnum) as Hsorted.
  pose proof (sort_desc_descending allBlocks) as Hdesc.
  assert (Hten : firstn 10 (firstn 20 (sort_desc allBlocks)) =
                 firstn 10 (sort_desc allBlocks))
    by now rewrite firstn_firstn.
  assert (Hrows : Forall (fun b => numbered b = true)
                    (rev (firstn 10 (sort_desc allBlocks)))).
  { apply Forall_rev. now apply firstn_all_such. }
  destruct (bars_numbered _ Hrows) as (bars & Hbars & Hblocks).
  exists (firstn 20 (sort_desc allBlocks)), bars,
    (firstn 10 (sort_desc allBlocks)).
  split; [now apply mergeRecent_numbered | ].
  split.
  { unfold Dashboard.activityChartData. now rewrite (slice_prefix 10), Hten. }
  split.
  { rewrite (map_res_length _ _ _ Hbars), length_rev, length_firstn.
    now rewrite <- (Permutation_length (sort_desc_perm allBlocks)). }
  split; [now rewrite Hblocks, map_rev | ].
  rewrite <- (firstn_skipn 10 (sort_desc allBlocks)) in Hdesc.
  split; [apply descending_rev; exact (sorted_prefix _ _ _ Hdesc) | ].
  intros b Hb.
  apply (Permutation_in _ (sort_desc_perm allBlocks)) in Hb.
  rewrite <- (firstn_skipn 10 (sort_desc allBlocks)) in Hb.
  apply in_app_or in Hb as [Hb | Hb]; [now left | right].
  intros c Hc. exact (sorted_app_ordered _ _ _ Hdesc c b Hc Hb).
Qed.
End PipelineFacts.

(** ** The further properties at the sample data *)

Section MoreSampleRuns.
Import JS Records Summary Examples Samples.

Lemma mergeRecent_most_recent_witness :
  exists result dropped,
    Server.mergeRecent platform [R2; R1] = Ok result
    /\ List.length result = Nat.min 20 5
    /\ Permutation [b105_R2; b110; b100; b101; b105_R1] (result ++ dropped)
    /\ descending result
    /\ forall r d, In r result -> In d dropped -> key d <= key r.
Proof.
  apply (mergeRecent_most_recent platform [R2; R1]
           [b105_R2; b110; b100; b101; b105_R1]);
    [reflexivity | repeat constructor].
Defined.

Lemma blocks_recent_null_record_witness :
  Server.mergeRecent platform [R4] = Throw TypeError
  /\ run damaged (Server.blocks_recent platform) =
     (Server.res_status_json 500
        (Server.ErrorJson "Database error" (Some TypeError)),
      [EPoolQuery RecentRows []]).
Proof.
  apply (blocks_recent_null_record platform [R4] [b115; VNull; b117] damaged).
  - reflexivity.
  - repeat constructor; (now left) || (now right).
  - right. now left.
  - cbn [List.length]. lia.
  - reflexivity.
Defined.

Lemma row_without_records_ignored_witness :
  Server.mergeRecent platform ([R2] ++ malformed :: [R1]) =
    Server.mergeRecent platform ([R2] ++ [R1])
  /\ Server.aggregate platform ([R2] ++ malformed :: [R1]) =
     Server.aggregate platform ([R2] ++ [R1]).
Proof.
  apply (row_without_records_ignored platform [R2] [R1] malformed
           (VStr "{blocks:")); reflexivity.
Defined.


(** Beyond 2^53 the order of the rows shows: a row of 2^53 transactions
    before two rows of one transaction gives 2^53, after them
    2^53 + 2. *)
Lemma aggregate_order_beyond_2_53 :
  let large := row 1 1 (VArr [record 1 (2 ^ 53) 0 0 "0"]) in
  let one := row 2 2 (VArr [record 2 1 0 0 "0"]) in
  (exists t,
     Server.aggregate platform [large; one; one] = Ok t
     /\ Server.totalTransactions t = num (2 ^ 53))
  /\ (exists t,
        Server.aggregate platform [one; one; large] = Ok t
        /\ Server.totalTransactions t = num (2 ^ 53 + 2)).
Proof. split; eexists; split; vm_compute; reflexivity. Qed.

Lemma aggregate_bounds_witness :
  exists tx cl gas ca pb,
    Server.aggregate platform [R3; malformed] =
      Ok (numeric_totals tx cl gas ca pb)
    /\ 0 <= pb <= 2
    /\ pb <= tx
    /\ (pb = 0 ->
        tx = 0 /\ cl = 0 /\ gas = 0 /\ ca = 0
        /\ Server.crossLayerPercentage platform (num cl) (num tx) = "0").
Proof.
  apply (aggregate_bounds platform [R3; malformed] [idle; sparse]);
    [reflexivity | repeat constructor | repeat split].
Defined.

Lemma stats_null_record_witness :
  Server.aggregate platform [R4] = Throw TypeError
  /\ run damaged (Server.stats platform) =
     (Server.res_status_json 500
        (Server.ErrorJson "Stats error" (Some TypeError)),
      [EPoolQuery RangeMetadata []; EPoolQuery AllData []]).
Proof.
  apply (stats_null_record platform [R4] [b115] [b117] [metadata] damaged);
    [reflexivity | repeat constructor | reflexivity | reflexivity].
Defined.

Lemma block_by_number_stored_witness :
  run scenario (Server.block_by_number platform "105") =
  (Server.res_json (Server.Json b105_R2),
   [EPoolQuery RowCovering [VNum (Int 105)]]).
Proof.
  apply (block_by_number_stored platform scenario "105" 105 R2
           (VArr [b105_R2; b110]) b105_R2 [] [b105_R2; b110] []);
    [reflexivity | reflexivity | reflexivity | reflexivity
     | repeat constructor | reflexivity].
Defined.

(** A block number beyond 2^53 is read as the nearest double. *)
Lemma parseInt_nearest_double :
  parseInt "9007199254740993" = Int 9007199254740992
  /\ parseInt "9007199254740995" = Int 9007199254740996.
Proof. split; vm_compute; reflexivity. Qed.

Lemma block_by_number_not_stored_witness :
  run scenario (Server.block_by_number platform "106") =
    (Server.res_json (Server.synthesize block106),
     [EPoolQuery RowCovering [VNum (Int 106)]; EProviderGetBlock (Int 106)])
  /\ run empty_storage (Server.block_by_number platform "106") =
     (Server.res_status_json 404
        (Server.ErrorJson "Block not found in database" None),
      [EPoolQuery RowCovering [VNum (Int 106)]]).
Proof.
  split.
  - apply (proj2 (block_by_number_not_stored platform scenario "106" 106
                    eq_refl) R2 (VArr [b105_R2; b110]) [] [b105_R2; b110]);
      [reflexivity | reflexivity | reflexivity | repeat constructor
       | reflexivity].
  - apply (proj1 (block_by_number_not_stored platform empty_storage "106" 106
                    eq_refl)).
    reflexivity.
Defined.

Lemma getHypePrice_decodes_witness :
  fst (run scenario Server.getHypePrice) =
    Ok (F64.div (F64.of_Z 48250016) (F64.of_Z 1000000))
  /\ Abi.encode_uint256 107 = Ok Ethers.encoded_spot_index.
Proof.
  apply (getHypePrice_decodes scenario 48250016); [ | reflexivity ].
  split; [lia | reflexivity].
Defined.

Lemma hype_token_data_always_answers_witness :
  exists hypePrice,
    run offline Endpoints.hype_token_data =
      ({| Endpoints.token_status := 200;
          Endpoints.token_body :=
            Endpoints.TokenData hypePrice 1000000000 333928180
              (F64.mul (F64.of_Z 333928180) hypePrice) |},
       [EProviderCall Server.spotPx Ethers.encoded_spot_index])
    /\ hypePrice = F64.of_Z 48
    /\ F64.mul (F64.of_Z 333928180) hypePrice = F64.of_Z 16028552640.
Proof.
  destruct (hype_token_data_always_answers offline)
    as (hypePrice & Hrun & Hfallback).
  exists hypePrice. split; [exact Hrun | ].
  apply Hfallback. left. exists (HostError "timeout"). reflexivity.
Defined.

Lemma debug_hype_price_reports_witness :
  exists spotPrice oraclePrice,
    run offline Endpoints.debug_hype_price =
      (Endpoints.debug_prices spotPrice oraclePrice,
       [EProviderCall Server.spotPx Ethers.encoded_spot_index;
        EProviderCall Endpoints.oraclePx Ethers.encoded_spot_index])
    /\ spotPrice = Server.fallback_price
    /\ oraclePrice = None.
Proof.
  destruct (debug_hype_price_reports offline)
    as (spotPrice & oraclePrice & Hrun & Hspot & Horacle & _).
  exists spotPrice, oraclePrice. split; [exact Hrun | ]. split.
  - apply Hspot. left. exists (HostError "timeout"). reflexivity.
  - apply Horacle. left. exists (HostError "timeout"). reflexivity.
Defined.

Lemma health_ok_exactly_when_all_answer_witness :
  Diagnostics.health_status
    (fst (Diagnostics.ask monitored (Diagnostics.health "12:00"))) = 200
  /\ Diagnostics.ask storage_down (Diagnostics.health "12:00") =
     (Diagnostics.unhealthy "12:00" (HostError "connection refused"),
      [Diagnostics.AskedPool Diagnostics.SelectOne []]).
Proof.
  split.
  - apply (proj2 (proj1 (proj2
             (health_ok_exactly_when_all_answer monitored "12:00")))).
    exists [VObj [("?column?", num 1)]], (Int 1114),
      (VObj [("count", VStr "3")]), [], (VStr "3").
    repeat split; reflexivity.
  - apply (proj1 (proj2 (proj2
             (health_ok_exactly_when_all_answer storage_down "12:00")))).
    reflexivity.
Defined.

Lemma health_stream_status_witness :
  Diagnostics.ask monitored (Diagnostics.health "12:00") =
  ({| Diagnostics.health_status := 200;
      Diagnostics.health_body :=
        Diagnostics.Healthy "12:00" (Int 1114) (Int 3) "receiving data" |},
   [Diagnostics.AskedPool Diagnostics.SelectOne [];
    Diagnostics.AskedBlockNumber;
    Diagnostics.AskedPool Diagnostics.RecentCount [num 114]]).
Proof.
  apply (health_stream_status monitored "12:00" 1114 3
           [VObj [("?column?", num 1)]] [] (VObj [("count", VStr "3")]));
    lia || reflexivity.
Defined.

Lemma debug_raw_data_reports_witness :
  Diagnostics.ask monitored (Diagnostics.debug_raw_data platform) =
  ({| Diagnostics.raw_status := 200;
      Diagnostics.raw_body :=
        Diagnostics.RawData (num 113) (num 113) VUndefined VUndefined
          [] 0 VNull |},
   [Diagnostics.AskedPool Diagnostics.LatestRow []]).
Proof.
  apply (debug_raw_data_reports platform monitored
           [("from_block_number", num 113); ("to_block_number", num 113);
            ("data", VStr "{blocks:")] []).
  reflexivity.
Defined.

Lemma searchBlock_recent_first_witness :
  snd (run offline (App.searchBlock "105" held)) =
    [ESetLoading true; ESetSearchResult b105_R2; ESetLoading false]
  /\ snd (run scenario (App.searchBlock "106" held)) =
     [ESetLoading true;
      EAxiosGet "http://localhost:3001/api/blocks/106";
      EAlert "Block not found";
      ESetLoading false].
Proof.
  split.
  - apply (proj1 (searchBlock_recent_first "105" 105 held offline
                    ltac:(discriminate) eq_refl ltac:(reflexivity)
                    ltac:(repeat constructor)) b105_R2 [b105_R1]).
    reflexivity.
  - apply (proj2 (searchBlock_recent_first "106" 106 held scenario
                    ltac:(discriminate) eq_refl ltac:(reflexivity)
                    ltac:(repeat constructor))).
    reflexivity.
Defined.

Lemma totalStats_range_witness :
  exists s first last,
    App.totalStats platform VNull held = Ok s
    /\ field "totalRecords" s = num 5
    /\ field "firstBlock" s = num first
    /\ field "lastBlock" s = num last
    /\ (held = [] -> first = 0 /\ last = 0)
    /\ (held <> [] -> Range.spans first last held).
Proof.
  apply (totalStats_range platform held); repeat constructor.
Defined.

Lemma totalStats_missing_gas_witness :
  App.totalStats platform VNull ([b110] ++ sparse :: [b100]) = Throw TypeError
  /\ gas_of sparse = 0.
Proof.
  apply (totalStats_missing_gas platform [b110] [b100]
           [("blockNumber", num 112); ("hyperEVMTxns", num 6)]);
    [repeat constructor | reflexivity].
Defined.

Lemma activityChartData_ascending_witness :
  exists bars,
    Dashboard.activityChartData held = Ok bars
    /\ List.length bars = Nat.min 10 5
    /\ map Dashboard.block bars =
       rev (map (fun b => num (key b)) (Dashboard.table_rows held))
    /\ StronglySorted Z.le (rev (map key (Dashboard.table_rows held))).
Proof.
  apply (activityChartData_ascending held); [repeat constructor | ].
  unfold descending, held.
  repeat (constructor;
          [ | repeat (constructor; [vm_compute; discriminate | ]);
              constructor ]).
  constructor.
Defined.


Lemma patternsByType_inherited_name_witness :
  Dashboard.patternsByType ([swaps_a; arbitrage_b] ++ misnamed :: [swaps_c]) =
    Throw TypeError
  /\ Dashboard.rendered_groups
       ([swaps_a; arbitrage_b] ++ misnamed :: [swaps_c]) = Throw TypeError.
Proof.
  apply (patternsByType_inherited_name [swaps_a; arbitrage_b] [swaps_c]
           misnamed); [repeat constructor | reflexivity].
Defined.

Lemma top_liquidations_shown_witness :
  Dashboard.top_liquidations liquidations =
    Ok [("2", VStr "0x11111111"); ("0", VStr "0x2222");
        ("36", VStr "0x33333333")]
  /\ Forall (fun entry =>
               (fst entry / 10 ^ 18) * 10 ^ 18 <= fst entry
                 < (fst entry / 10 ^ 18 + 1) * 10 ^ 18
               /\ StringToBigInt (string_of_Z (fst entry / 10 ^ 18)) =
                  Some (fst entry / 10 ^ 18))
            [(2500000000000000000, "0x1111111111111111");
             (999999999999999999, "0x2222");
             (36893488147419103232, "0x3333333333333333");
             (1000000000000000000, "0x4444444444444444")].
Proof.
  apply (top_liquidations_shown liquidations
           [(2500000000000000000, "0x1111111111111111");
            (999999999999999999, "0x2222");
            (36893488147419103232, "0x3333333333333333");
            (1000000000000000000, "0x4444444444444444")]).
  repeat constructor; cbn [fst]; lia.
Defined.

Lemma fetchHypeData_history_witness :
  let polls := [(Some fallback_data, "10:00:00"); (None, "10:00:05");
                (Some fallback_data, "10:00:10")] in
  let points :=
    Dashboard.hypePriceHistory nothing_shown
    ++ flat_map Dashboard.sample_of polls in
  Dashboard.hypePriceHistory
      (fold_left Dashboard.fetchHypeData polls nothing_shown) =
    skipn (List.length points - 30) points
  /\ (List.length
        (Dashboard.hypePriceHistory
           (fold_left Dashboard.fetchHypeData polls nothing_shown)) <= 30)%nat
  /\ (forall now,
        Dashboard.fetchHypeData nothing_shown (None, now) = nothing_shown).
Proof.
  apply (fetchHypeData_history
           [(Some fallback_data, "10:00:00"); (None, "10:00:05");
            (Some fallback_data, "10:00:10")] nothing_shown).
  cbn [Dashboard.hypePriceHistory nothing_shown List.length]. lia.
Defined.

Lemma stats_reads_metadata_witness :
  exists firstBlock lastBlock,
    run empty_storage (Server.stats platform) =
      (Server.res_json
         (Server.StatsJson (Int 0) firstBlock lastBlock
            (num 0) (num 0) (num 0) "0" 0 "0"),
       [EPoolQuery RangeMetadata []; EPoolQuery AllData []])
    /\ firstBlock = NaN /\ JSON_number firstBlock = "null"
    /\ lastBlock = NaN /\ JSON_number lastBlock = "null".
Proof.
  destruct (stats_reads_metadata platform empty_storage 0 VNull VNull []
              Server.no_totals ltac:(reflexivity) eq_refl eq_refl eq_refl)
    as (firstBlock & lastBlock & Hrun & Hfirst & Hlast & _).
  exists firstBlock, lastBlock. split; [exact Hrun | ].
  destruct (Hfirst eq_refl) as [Hf Hfjson].
  destruct (Hlast eq_refl) as [Hl Hljson].
  repeat split; assumption.
Defined.

Lemma trailing_text_ignored_witness :
  parseInt "105abc" = parseInt "105"
  /\ (105 < 2 ^ 53 -> parseInt "105abc" = Int 105)
  /\ Server.block_by_number platform "105abc" =
     Server.block_by_number platform "105"
  /\ App.searchBlock "105abc" held = App.searchBlock "105" held.
Proof.
  exact (trailing_text_ignored platform 105 "a" "bc" held
           ltac:(lia) eq_refl).
Defined.

Lemma recent_blocks_chart_witness :
  exists recentBlocks bars charted,
    Server.mergeRecent platform [R2; R1] = Ok recentBlocks
    /\ Dashboard.activityChartData recentBlocks = Ok bars
    /\ List.length bars = Nat.min 10 5
    /\ map Dashboard.block bars = rev (map (fun b => num (key b)) charted)
    /\ StronglySorted Z.le (rev (map key charted))
    /\ forall b,
         In b [b105_R2; b110; b100; b101; b105_R1] ->
         In b charted \/ forall c, In c charted -> key b <= key c.
Proof.
  apply (recent_blocks_chart platform [R2; R1]
           [b105_R2; b110; b100; b101; b105_R1]);
    [reflexivity | repeat constructor].
Defined.
End MoreSampleRuns.
